(** * antfarm: run creation and the Linear adapter

    A shallow embedding of [src/installer/run.ts] ([runWorkflow]) and of the
    Linear adapter [src/installer/linear-hooks.ts] ([linearExec],
    [exportProjectStories], [moveIssue], [addComment], [ensureLabel], ...).

    The TypeScript code is effectful: it talks to an SQLite handle, to the
    [linear] command line tool, to a logger and to the event log, and it
    throws.  The embedding threads a [World] through a small state and
    exception monad; everything the code obtains from outside the repository
    sources (clock, UUIDs, the CLI, JSON (de)serialisation, database faults)
    is read from a [Host] record of oracles, so every statement below holds
    for all behaviours of the environment. *)

From Stdlib Require Import ZArith QArith Qcanon String Ascii List Sorted Permutation Lia.
From Stdlib Require Import DecimalString.
From Stdlib Require DecimalNat.
From stdpp Require Import gmap strings list fin_maps sorting.

Set Warnings "-register-all".

Local Open Scope string_scope.
Local Open Scope list_scope.

(** ** JavaScript values used by the code *)

(** A thrown value: [name] and [message] of an [Error] object. *)
Record exn := mkExn { exn_name : string; exn_message : string }.

(** [new Error(msg)] *)
Definition Error (msg : string) : exn := mkExn "Error" msg.

(** [String(err)] / [`${err}`] for an error object
    ([Error.prototype.toString]). *)
Definition String_of_exn (e : exn) : string :=
  if (exn_name e =? "")%string then exn_message e
  else if (exn_message e =? "")%string then exn_name e
  else exn_name e ++ ": " ++ exn_message e.

(** Finite JavaScript numbers are dyadic rationals; comparing two of them,
    or taking the sign of their difference, agrees with the same operation on
    their exact values, so they are kept as canonical rationals. *)
Abbreviation number := Qc.

Definition number_of_Z (z : Z) : number := Q2Qc (inject_Z z).

(** Truthiness of an optional string ([undefined] and the empty string are
    falsy) and of an optional boolean. *)
Definition truthy_str (o : option string) : bool :=
  match o with
  | Some s => negb (s =? "")%string
  | None => false
  end.

Definition truthy_bool (o : option bool) : bool :=
  match o with
  | Some b => b
  | None => false
  end.

(** [a ?? b] *)
Definition nullish {A} (a b : option A) : option A :=
  match a with
  | Some x => Some x
  | None => b
  end.

(** [a || b] on strings *)
Definition or_str (a b : string) : string :=
  if (a =? "")%string then b else a.

(** The double quote character, for messages that contain it. *)
Definition dq : string := String (ascii_of_nat 34) EmptyString.

(** [String(n)] for a non-negative integer. *)
Definition String_of_nat (n : nat) : string :=
  NilEmpty.string_of_uint (Nat.to_uint n).

(** [s.padStart(len, fill)] for a one-character [fill]. *)
Fixpoint repeat_str (fill : string) (n : nat) : string :=
  match n with
  | O => ""
  | S k => fill ++ repeat_str fill k
  end.

Definition padStart (s : string) (len : nat) (fill : string) : string :=
  repeat_str fill (len - String.length s) ++ s.

(** [args.join(sep)] *)
Fixpoint Array_join (sep : string) (l : list string) : string :=
  match l with
  | [] => ""
  | [x] => x
  | x :: rest => x ++ sep ++ Array_join sep rest
  end.

(** [s.split(":")]: the pieces of [s] between colons. *)
Fixpoint split_colon_aux (s : string) (cur : string) : list string :=
  match s with
  | EmptyString => [cur]
  | String c rest =>
      if Ascii.eqb c ":"%char
      then cur :: split_colon_aux rest ""
      else split_colon_aux rest (cur ++ String c EmptyString)
  end.

(** [s.split(":", limit)] keeps the first [limit] pieces. *)
Definition split_colon (s : string) (limit : nat) : list string :=
  take limit (split_colon_aux s "").

(** [Array.prototype.sort(cmp)] is a stable sort (ECMAScript 2019): with a
    comparator that is a consistent ordering the result is the stable
    rearrangement into non-decreasing [cmp] order, computed here by stable
    insertion.  [cmp a b > 0] means [a] goes after [b]. *)
Section Sort.
Context {A : Type} (cmp : A -> A -> number).

Fixpoint sort_insert (x : A) (l : list A) : list A :=
  match l with
  | [] => [x]
  | y :: rest =>
      if bool_decide (0 < cmp x y)%Qc then y :: sort_insert x rest
      else x :: y :: rest
  end.

Fixpoint sort (l : list A) : list A :=
  match l with
  | [] => []
  | x :: rest => sort_insert x (sort rest)
  end.

End Sort.

(** ** The monad of effects *)

Inductive result (A : Type) : Type :=
| Ok (a : A)
| Throw (e : exn).
Arguments Ok {A} a.
Arguments Throw {A} e.

(** ** Data of the Linear adapter ([linear-hooks.ts]) *)

Record LinearIssue := mkLinearIssue {
  li_id : string;
  li_identifier : string;
  li_title : string;
  li_description : string;
  li_priority : number;
  li_sortOrder : number;
}.

Record LinearStory := mkLinearStory {
  ls_id : string;
  ls_title : string;
  ls_description : string;
  ls_acceptanceCriteria : list string;
  ls_linearIssueId : string;
  ls_linearIdentifier : string;
}.

(** Rows of [linear state list] and [linear label list]. *)
Record LinearState := mkLinearState { st_id : string; st_name : string }.
Record LinearLabel := mkLinearLabel { lb_id : string; lb_name : string }.

(** JSON values, for what the code hands to [JSON.stringify]. *)
Inductive json : Type :=
| JNull
| JBool (b : bool)
| JNum (n : number)
| JStr (s : string)
| JArr (items : list json)
| JObj (fields : list (string * json)).

(** Truthiness of a JSON value as a JavaScript value: [null], [false], [0]
    and the empty string are falsy; arrays and objects are truthy. *)
Definition truthy_json (j : json) : bool :=
  match j with
  | JNull => false
  | JBool b => b
  | JNum n => negb (bool_decide (n = number_of_Z 0))
  | JStr s => negb (s =? "")%string
  | JArr _ => true
  | JObj _ => true
  end.

(** ** Data of run creation ([run.ts]) *)

Inductive RunStatus := Running | Paused | Done | Failed | Cancelled.
Inductive StepStatus := StepWaiting | StepPending | StepClaimed | StepDone | StepFailed.
Inductive StoryStatus := StoryPending | StoryInProgress | StoryDone | StoryFailed | StorySkipped.
Inductive StepType := Single | Loop.

(** One step definition of a workflow specification; optional fields are
    the ones the code reads through [??] and [?.]. *)
Record WorkflowStep := mkWorkflowStep {
  ws_id : string;
  ws_agent : string;
  ws_input : string;
  ws_expects : string;
  ws_max_retries : option Z;
  ws_on_fail_max_retries : option Z;      (* step.on_fail?.max_retries *)
  ws_type : option StepType;
  ws_loop : option json;
}.

Record WorkflowSpec := mkWorkflowSpec {
  wf_id : string;
  wf_steps : list WorkflowStep;
  wf_context : gmap string string;
  wf_notifications_url : option string;   (* workflow.notifications?.url *)
}.

Record RunWorkflowParams := mkParams {
  workflowId : string;
  taskTitle : string;
  notifyUrl : option string;
  storiesFrom : option string;
  repo : option string;
  approve : option bool;
  linearTeam : option string;
  linearProject : option string;
}.

(** Rows as the three INSERT statements of [runWorkflow] write them. *)
Record RunRow := mkRunRow {
  run_id : string;
  run_number : Z;
  run_workflow_id : string;
  run_task : string;
  run_status : RunStatus;
  run_context : string;
  run_notify_url : option string;
  run_created_at : string;
  run_updated_at : string;
}.

Record StepRow := mkStepRow {
  step_uuid : string;
  step_run_id : string;
  step_step_id : string;
  step_agent_id : string;
  step_index : nat;
  step_input_template : string;
  step_expects : string;
  step_status : StepStatus;
  step_max_retries : Z;
  step_type : StepType;
  step_loop_config : option string;
  step_created_at : string;
  step_updated_at : string;
}.

Record StoryRow := mkStoryRow {
  story_uuid : string;
  story_run_id : string;
  story_index : nat;
  story_story_id : string;
  story_title : string;
  story_description : string;
  story_acceptance_criteria : string;
  story_status : StoryStatus;
  story_retry_count : Z;
  story_max_retries : Z;
  story_created_at : string;
  story_updated_at : string;
}.

Record Tables := mkTables {
  runs : list RunRow;
  steps : list StepRow;
  stories : list StoryRow;
}.

Record LogEntry := mkLog {
  log_level : string;
  log_message : string;
  log_meta : list (string * option string);
}.

Record Event := mkEvent {
  ev_ts : string;
  ev_event : string;
  ev_runId : string;
  ev_workflowId : string;
}.

Record RunResult := mkRunResult {
  res_id : string;
  res_runNumber : Z;
  res_workflowId : string;
  res_task : string;
  res_status : RunStatus;
}.

(** ** The environment *)

(** What the code obtains from outside the sources at hand.  Calls whose
    result may change from one call to the next are indexed by the number of
    earlier calls, which the [World] counts. *)
Record Host := mkHost {
  (* crypto.randomUUID() *)
  randomUUID : nat -> string;
  (* new Date().toISOString() *)
  toISOString : nat -> string;
  (* a statement of the SQLite handle may fail: exec, prepare, run *)
  db_fault : nat -> option exn;
  (* execFileSync("linear", args, ...).trim(), or what it throws *)
  execFileSync_linear : nat -> list string -> result string;
  (* JSON.stringify *)
  JSON_stringify : json -> string;
  (* JSON.parse(output) as T, for the four shapes the adapter reads;
     a LinearIssue[] may be null *)
  parse_issues : string -> result (option (list LinearIssue));
  parse_issue : string -> result LinearIssue;
  parse_states : string -> result (list LinearState);
  parse_labels : string -> result (list LinearLabel);
  parse_created : string -> result string;
  (* String.prototype.toLowerCase *)
  toLowerCase : string -> string;
  (* parseAcceptanceCriteria: two global multi-line regular expressions
     over the description; matching is left to the regexp engine *)
  parseAcceptanceCriteria : string -> list string;
  (* loadWorkflowSpec(resolveWorkflowDir(id)) *)
  loadWorkflowSpec : string -> result WorkflowSpec;
  (* nextRunNumber(), read from the runs table *)
  nextRunNumber : Tables -> Z;
  (* ensureWorkflowCrons(workflow): None when it resolves *)
  ensureWorkflowCrons : nat -> WorkflowSpec -> option exn;
}.

(** Modelled from the spec: the handle behind [getDb()] ([db.js] is not among
    the sources) is the Persisted Store, "an embedded relational store" with
    the tables [runs], [steps] and [stories] that "supports atomic conditional
    updates and transactions".  The store is what has been committed; an open
    transaction works on its own copy, which COMMIT publishes and ROLLBACK
    drops.  The world also counts the calls made to each oracle of the host
    and keeps the adapter's module-level [_stateCache], the log and the event
    log. *)
Record World := mkWorld {
  committed : Tables;
  pending : option Tables;
  db_calls : nat;
  cli_calls : nat;
  uuid_calls : nat;
  clock_reads : nat;
  cron_calls : nat;
  stateCache : option (gmap string (gmap string string));
  logs : list LogEntry;
  events : list Event;
}.

Definition set_db (c : Tables) (p : option Tables) (w : World) : World :=
  mkWorld c p (db_calls w) (cli_calls w) (uuid_calls w) (clock_reads w)
          (cron_calls w) (stateCache w) (logs w) (events w).

Definition tick_db (w : World) : World :=
  mkWorld (committed w) (pending w) (S (db_calls w)) (cli_calls w) (uuid_calls w)
          (clock_reads w) (cron_calls w) (stateCache w) (logs w) (events w).

Definition tick_cli (w : World) : World :=
  mkWorld (committed w) (pending w) (db_calls w) (S (cli_calls w)) (uuid_calls w)
          (clock_reads w) (cron_calls w) (stateCache w) (logs w) (events w).

Definition tick_uuid (w : World) : World :=
  mkWorld (committed w) (pending w) (db_calls w) (cli_calls w) (S (uuid_calls w))
          (clock_reads w) (cron_calls w) (stateCache w) (logs w) (events w).

Definition tick_clock (w : World) : World :=
  mkWorld (committed w) (pending w) (db_calls w) (cli_calls w) (uuid_calls w)
          (S (clock_reads w)) (cron_calls w) (stateCache w) (logs w) (events w).

Definition tick_cron (w : World) : World :=
  mkWorld (committed w) (pending w) (db_calls w) (cli_calls w) (uuid_calls w)
          (clock_reads w) (S (cron_calls w)) (stateCache w) (logs w) (events w).

Definition set_stateCache (c : option (gmap string (gmap string string))) (w : World) : World :=
  mkWorld (committed w) (pending w) (db_calls w) (cli_calls w) (uuid_calls w)
          (clock_reads w) (cron_calls w) c (logs w) (events w).

Definition add_log (l : LogEntry) (w : World) : World :=
  mkWorld (committed w) (pending w) (db_calls w) (cli_calls w) (uuid_calls w)
          (clock_reads w) (cron_calls w) (stateCache w) (logs w ++ [l]) (events w).

Definition add_event (e : Event) (w : World) : World :=
  mkWorld (committed w) (pending w) (db_calls w) (cli_calls w) (uuid_calls w)
          (clock_reads w) (cron_calls w) (stateCache w) (logs w) (events w ++ [e]).

(** The tables a statement sees: those of the open transaction, else the
    committed ones. *)
Definition view (w : World) : Tables :=
  match pending w with
  | Some t => t
  | None => committed w
  end.

(** A write goes to the open transaction, else straight to the store
    (autocommit). *)
Definition write (f : Tables -> Tables) (w : World) : World :=
  match pending w with
  | Some t => set_db (committed w) (Some (f t)) w
  | None => set_db (f (committed w)) None w
  end.

(** ** State and exception monad *)

Definition M (A : Type) : Type := World -> result A * World.

Definition ret {A} (a : A) : M A := fun w => (Ok a, w).

Definition throw {A} (e : exn) : M A := fun w => (Throw e, w).

Definition bind {A B} (m : M A) (k : A -> M B) : M B :=
  fun w =>
    match m w with
    | (Ok a, w') => k a w'
    | (Throw e, w') => (Throw e, w')
    end.

(** [try { body } catch (err) { handler }] *)
Definition try_catch {A} (body : M A) (handler : exn -> M A) : M A :=
  fun w =>
    match body w with
    | (Ok a, w') => (Ok a, w')
    | (Throw e, w') => handler e w'
    end.

(** Lift a pure result. *)
Definition lift {A} (r : result A) : M A := fun w => (r, w).

Declare Scope m_scope.
Delimit Scope m_scope with M.
Notation "'let!' x ':=' m 'in' k" := (bind m (fun x => k))
  (at level 10, x name, m at level 100, k at level 200) : m_scope.
Notation "'do!' m 'in' k" := (bind m (fun _ => k))
  (at level 10, m at level 100, k at level 200) : m_scope.
Local Open Scope m_scope.

Section Program.
Context (host : Host).

(** ** Primitive effects *)

Definition crypto_randomUUID : M string :=
  fun w => (Ok (randomUUID host (uuid_calls w)), tick_uuid w).

Definition Date_toISOString : M string :=
  fun w => (Ok (toISOString host (clock_reads w)), tick_clock w).

(** Modelled from the spec: [logger] and [emitEvent] ([lib/logger.js] and
    [events.js] are not among the sources) append to a side-effect log and
    never throw. *)
Definition logger_info (msg : string) (meta : list (string * option string)) : M unit :=
  fun w => (Ok tt, add_log (mkLog "info" msg meta) w).

Definition logger_warn (msg : string) : M unit :=
  fun w => (Ok tt, add_log (mkLog "warn" msg []) w).

Definition emitEvent (e : Event) : M unit :=
  fun w => (Ok tt, add_event e w).

(** Modelled from the spec: every call on the database handle ([exec],
    [prepare], [run]) may fail, in which case it throws and has no effect on
    the tables. *)
Definition db_statement (effect : World -> result unit * World) : M unit :=
  fun w =>
    match db_fault host (db_calls w) with
    | Some e => (Throw e, tick_db w)
    | None => effect (tick_db w)
    end.

(** Modelled from the spec: [db.exec("BEGIN")], [db.exec("COMMIT")] and
    [db.exec("ROLLBACK")] on a store with transactions.  BEGIN inside a
    transaction, and COMMIT or ROLLBACK outside one, are errors. *)
Definition db_exec_BEGIN : M unit :=
  db_statement (fun w =>
    match pending w with
    | Some _ => (Throw (Error "cannot start a transaction within a transaction"), w)
    | None => (Ok tt, set_db (committed w) (Some (committed w)) w)
    end).

Definition db_exec_COMMIT : M unit :=
  db_statement (fun w =>
    match pending w with
    | Some t => (Ok tt, set_db t None w)
    | None => (Throw (Error "cannot commit - no transaction is active"), w)
    end).

Definition db_exec_ROLLBACK : M unit :=
  db_statement (fun w =>
    match pending w with
    | Some _ => (Ok tt, set_db (committed w) None w)
    | None => (Throw (Error "cannot rollback - no transaction is active"), w)
    end).

(** [db.prepare(sql)] *)
Definition db_prepare (sql : string) : M unit :=
  db_statement (fun w => (Ok tt, w)).

(** [insertRun.run(...)], [insertStep.run(...)], [insertStory.run(...)] *)
Definition insertRun_run (r : RunRow) : M unit :=
  db_statement (fun w =>
    (Ok tt, write (fun t => mkTables (runs t ++ [r]) (steps t) (stories t)) w)).

Definition insertStep_run (r : StepRow) : M unit :=
  db_statement (fun w =>
    (Ok tt, write (fun t => mkTables (runs t) (steps t ++ [r]) (stories t)) w)).

Definition insertStory_run (r : StoryRow) : M unit :=
  db_statement (fun w =>
    (Ok tt, write (fun t => mkTables (runs t) (steps t) (stories t ++ [r])) w)).

(** [UPDATE runs SET status = 'failed', updated_at = ? WHERE id = ?] *)
Definition mark_failed (updated_at id : string) (r : RunRow) : RunRow :=
  if (run_id r =? id)%string
  then mkRunRow (run_id r) (run_number r) (run_workflow_id r) (run_task r) Failed
                (run_context r) (run_notify_url r) (run_created_at r) updated_at
  else r.

Definition updateRunFailed_run (updated_at id : string) : M unit :=
  db_statement (fun w =>
    (Ok tt, write (fun t => mkTables (map (mark_failed updated_at id) (runs t))
                                     (steps t) (stories t)) w)).

(** ** The Linear adapter *)

(** [linearExec(args, json = false)] *)
Definition linearExec (args : list string) (json : bool) : M string :=
  let fullArgs := if json then args ++ ["--json"] else args in
  try_catch
    (fun w => (execFileSync_linear host (cli_calls w) fullArgs, tick_cli w))
    (fun err =>
       let msg := exn_message err in
       throw (Error ("linear CLI failed: " ++ Array_join " " fullArgs ++ " — " ++ msg))).

(** [linearJson<T>(args)]: the cast [as T] is the decoder [parse]. *)
Definition linearJson {T} (parse : string -> result T) (args : list string) : M T :=
  let! output := linearExec args true in
  lift (parse output).

(** [getTeamStates(teamId)] *)
Definition getTeamStates (teamId : string) : M (gmap string string) :=
  fun w =>
    let cache := default ∅ (stateCache w) in
    let w1 := set_stateCache (Some cache) w in
    match cache !! teamId with
    | Some m => (Ok m, w1)
    | None =>
        (let! states := linearJson (parse_states host) ["state"; "list"; "--team"; teamId] in
         let map := fold_left (fun m s => <[toLowerCase host (st_name s) := st_id s]> m)
                              states (∅ : gmap string string) in
         fun w2 => (Ok map, set_stateCache (Some (<[teamId := map]> (default ∅ (stateCache w2)))) w2)) w1
    end.

(** [resolveStateId(teamId, stateName)] *)
Definition resolveStateId (teamId stateName : string) : M (option string) :=
  let! states := getTeamStates teamId in
  ret (states !! toLowerCase host stateName).

(** [a.priority === 0 ? 5 : a.priority] *)
Definition effective_priority (i : LinearIssue) : number :=
  if bool_decide (li_priority i = number_of_Z 0) then number_of_Z 5 else li_priority i.

(** The comparator handed to [sort] in [exportProjectStories]. *)
Definition compare_issues (a b : LinearIssue) : number :=
  let pa := effective_priority a in
  let pb := effective_priority b in
  if bool_decide (pa <> pb) then (pa - pb)%Qc
  else (li_sortOrder a - li_sortOrder b)%Qc.

(** [`S${String(i + 1).padStart(2, "0")}`] *)
Definition story_id_of_index (i : nat) : string :=
  "S" ++ padStart (String_of_nat (i + 1)) 2 "0".

(** The story object built from an issue, in [exportProjectStories] and in
    [exportIssueStory]. *)
Definition story_of_issue (id : string) (issue : LinearIssue) : LinearStory :=
  mkLinearStory
    id
    ("[" ++ li_identifier issue ++ "] " ++ li_title issue)
    (or_str (li_description issue) (li_title issue))
    (parseAcceptanceCriteria host (or_str (li_description issue) (li_title issue)))
    (li_id issue)
    (li_identifier issue).

(** [exportProjectStories(projectId)] *)
Definition exportProjectStories (projectId : string) : M (list LinearStory) :=
  let! issues := linearJson (parse_issues host) ["project"; "issues"; projectId] in
  match issues with
  | None | Some [] => throw (Error ("No issues found in Linear project " ++ projectId))
  | Some issues =>
      let sorted := sort compare_issues issues in
      ret (imap (fun i issue => story_of_issue (story_id_of_index i) issue) sorted)
  end.

(** [exportIssueStory(issueId)] *)
Definition exportIssueStory (issueId : string) : M (list LinearStory) :=
  let! issue := linearJson (parse_issue host) ["issue"; "get"; issueId] in
  ret [story_of_issue "S01" issue].

(** [moveIssue(issueId, stateName, teamId?)] *)
Definition moveIssue (issueId stateName : string) (teamId : option string) : M unit :=
  try_catch
    (let fallback :=
       (* Fallback: try by state name directly *)
       let! _ := linearExec ["issue"; "move"; issueId; stateName] false in
       ret tt in
     if truthy_str teamId then
       let! stateId := resolveStateId (default "" teamId) stateName in
       if truthy_str stateId then
         let! _ := linearExec ["issue"; "move"; issueId; default "" stateId] false in
         ret tt
       else fallback
     else fallback)
    (fun err =>
       logger_warn ("Failed to move Linear issue " ++ issueId ++ " to " ++ stateName
                    ++ ": " ++ String_of_exn err)).

(** [addComment(issueId, body)] *)
Definition addComment (issueId body : string) : M unit :=
  try_catch
    (let! _ := linearExec ["comment"; "create"; issueId; "--body"; body] false in
     ret tt)
    (fun err =>
       logger_warn ("Failed to comment on Linear issue " ++ issueId ++ ": " ++ String_of_exn err)).

(** [ensureLabel(name)] *)
Definition ensureLabel (name : string) : M (option string) :=
  try_catch
    (let! labels := linearJson (parse_labels host) ["label"; "list"] in
     match find (fun l => (lb_name l =? name)%string) labels with
     | Some existing => ret (Some (lb_id existing))
     | None =>
         let! created := linearJson (parse_created host) ["label"; "create"; "--name"; name] in
         ret (Some created)
     end)
    (fun err =>
       do! logger_warn ("Failed to ensure Linear label " ++ dq ++ name ++ dq ++ ": "
                        ++ String_of_exn err) in
       ret None).

(** ** Run creation ([runWorkflow]) *)

(** Lines 35-43: [{ task: params.taskTitle, ...workflow.context }], then the
    [--repo] override.  A spread written after [task] overwrites it, which is
    the left-biased union with the specification's context on the left. *)
Definition initialContext (params : RunWorkflowParams) (workflow : WorkflowSpec)
  : gmap string string :=
  let ctx := wf_context workflow ∪ {[ "task" := taskTitle params ]} in
  if truthy_str (repo params)
  then <[ "repo" := default "" (repo params) ]> ctx
  else ctx.

(** The object handed to [JSON.stringify(initialContext)].  Its members
    are listed in the key order of the map: the order in which the code
    inserts the keys is not modelled, so the stored text is determined up to
    the order of its members. *)
Definition json_of_context (ctx : gmap string string) : json :=
  JObj (map (fun kv => (fst kv, JStr (snd kv))) (map_to_list ctx)).

(** [linearStories.map(s => ({ storyId, linearIssueId, linearIdentifier }))] *)
Definition linearMapping_of (linearStories : list LinearStory) : json :=
  JArr (map (fun s => JObj [ ("storyId", JStr (ls_id s));
                             ("linearIssueId", JStr (ls_linearIssueId s));
                             ("linearIdentifier", JStr (ls_linearIdentifier s)) ])
            linearStories).

(** What the Linear pre-processing leaves in the local variables
    [initialContext], [linearStories] and [skipPlanStep]. *)
Record Prepared := mkPrepared {
  p_context : gmap string string;
  p_linearStories : option (list LinearStory);
  p_skipPlanStep : bool;
}.

(** Lines 45-80. *)
Definition linearPreprocessing (params : RunWorkflowParams) (workflow : WorkflowSpec)
    (ctx : gmap string string) : M Prepared :=
  if truthy_str (storiesFrom params) then
    let from := default "" (storiesFrom params) in
    let parts := split_colon from 2 in
    let source := parts !! 0%nat in
    let sourceId := parts !! 1%nat in
    if negb (truthy_str sourceId) then
      throw (Error ("Invalid --stories-from format: " ++ dq ++ from ++ dq
                    ++ ". Expected " ++ dq ++ "linear:<project-id>" ++ dq ++ " or "
                    ++ dq ++ "linear-issue:<issue-id>" ++ dq ++ "."))
    else
      let! linearStories :=
        (if bool_decide (source = Some "linear") then
           exportProjectStories (default "" sourceId)
         else if bool_decide (source = Some "linear-issue") then
           exportIssueStory (default "" sourceId)
         else
           throw (Error ("Unknown stories source: " ++ dq ++ default "" source ++ dq
                         ++ ". Supported: " ++ dq ++ "linear" ++ dq ++ ", "
                         ++ dq ++ "linear-issue" ++ dq ++ "."))) in
      (* Ensure wbs/nick label *)
      let! labelId := ensureLabel "wbs/nick" in
      let ctx1 := <[ "linear_mapping" := JSON_stringify host (linearMapping_of linearStories) ]> ctx in
      let ctx2 := <[ "linear_source" := from ]> ctx1 in
      do! logger_info ("Imported " ++ String_of_nat (length linearStories)
                       ++ " stories from Linear (" ++ from ++ ")")
                      [("workflowId", Some (wf_id workflow))] in
      ret (mkPrepared ctx2 (Some linearStories) true)
  else
    ret (mkPrepared ctx None false).

(** Lines 82-89: blank-slate mode. *)
Definition blankSlate (params : RunWorkflowParams) (ctx : gmap string string)
  : gmap string string :=
  if negb (truthy_str (storiesFrom params)) && truthy_str (linearTeam params) then
    let ctx1 := <[ "linear_blank_slate" := "true" ]> ctx in
    let ctx2 := <[ "linear_team_id" := default "" (linearTeam params) ]> ctx1 in
    if truthy_str (linearProject params)
    then <[ "linear_project_id" := default "" (linearProject params) ]> ctx2
    else ctx2
  else ctx.

(** Lines 91-92. *)
Definition runStatus_of (params : RunWorkflowParams)
    (linearStories : option (list LinearStory)) (skipPlanStep : bool) : RunStatus :=
  if truthy_bool (approve params) && (bool_decide (is_Some linearStories) || skipPlanStep)
  then Paused else Running.

(** Line 121: [step.loop ? JSON.stringify(step.loop) : null] *)
Definition loopConfig_of (step : WorkflowStep) : option string :=
  match ws_loop step with
  | Some loop => if truthy_json loop then Some (JSON_stringify host loop) else None
  | None => None
  end.

(** Lines 107-124: the loop over [workflow.steps]; returns the final
    [stepIndex]. *)
Fixpoint insertSteps (workflow : WorkflowSpec) (runId now : string)
    (runStatus : RunStatus) (skipPlanStep : bool)
    (todo : list WorkflowStep) (stepIndex : nat) : M nat :=
  match todo with
  | [] => ret stepIndex
  | step :: rest =>
      (* Skip plan step when stories come from Linear *)
      if skipPlanStep && (ws_id step =? "plan")%string then
        insertSteps workflow runId now runStatus skipPlanStep rest stepIndex
      else
        let! stepUuid := crypto_randomUUID in
        let agentId := (wf_id workflow ++ "_" ++ ws_agent step)%string in
        let status :=
          if (stepIndex =? 0)%nat
          then (match runStatus with Paused => StepWaiting | _ => StepPending end)
          else StepWaiting in
        let maxRetries :=
          default 2%Z (nullish (ws_max_retries step) (ws_on_fail_max_retries step)) in
        let stepType := default Single (ws_type step) in
        let loopConfig := loopConfig_of step in
        do! insertStep_run
              (mkStepRow stepUuid runId (ws_id step) agentId stepIndex (ws_input step)
                         (ws_expects step) status maxRetries stepType loopConfig now now) in
        insertSteps workflow runId now runStatus skipPlanStep rest (S stepIndex)
  end.

(** Lines 131-134: the loop over [linearStories], from index [i]. *)
Fixpoint insertStories (runId now : string) (todo : list LinearStory) (i : nat) : M unit :=
  match todo with
  | [] => ret tt
  | s :: rest =>
      let! uuid := crypto_randomUUID in
      do! insertStory_run
            (mkStoryRow uuid runId i (ls_id s) (ls_title s) (ls_description s)
                        (JSON_stringify host (JArr (map JStr (ls_acceptanceCriteria s))))
                        StoryPending 0%Z 2%Z now now) in
      insertStories runId now rest (S i)
  end.

(** Lines 94-141: the transaction. *)
Definition createTransaction (params : RunWorkflowParams) (workflow : WorkflowSpec)
    (runId : string) (runNumber : Z) (now : string) (ctx : gmap string string)
    (linearStories : option (list LinearStory)) (skipPlanStep : bool)
    (runStatus : RunStatus) : M unit :=
  do! db_exec_BEGIN in
  try_catch
    (let notifyUrl := nullish (notifyUrl params) (wf_notifications_url workflow) in
     do! db_prepare "INSERT INTO runs (id, run_number, workflow_id, task, status, context, notify_url, created_at, updated_at) VALUES (?, ?, ?, ?, ?, ?, ?, ?, ?)" in
     do! insertRun_run
           (mkRunRow runId runNumber (wf_id workflow) (taskTitle params) runStatus
                     (JSON_stringify host (json_of_context ctx)) notifyUrl now now) in
     do! db_prepare "INSERT INTO steps (id, run_id, step_id, agent_id, step_index, input_template, expects, status, max_retries, type, loop_config, created_at, updated_at) VALUES (?, ?, ?, ?, ?, ?, ?, ?, ?, ?, ?, ?, ?)" in
     let! _ := insertSteps workflow runId now runStatus skipPlanStep (wf_steps workflow) 0 in
     (* Insert pre-imported stories *)
     do! (match linearStories with
          | Some stories =>
              do! db_prepare "INSERT INTO stories (id, run_id, story_index, story_id, title, description, acceptance_criteria, status, retry_count, max_retries, created_at, updated_at) VALUES (?, ?, ?, ?, ?, ?, ?, 'pending', 0, 2, ?, ?)" in
              insertStories runId now stories 0
          | None => ret tt
          end) in
     db_exec_COMMIT)
    (fun err =>
       do! db_exec_ROLLBACK in
       throw err).

(** Lines 143-152: start the crons, or mark the run failed. *)
Definition startCrons (workflow : WorkflowSpec) (runId : string) : M unit :=
  try_catch
    (fun w =>
       match ensureWorkflowCrons host (cron_calls w) workflow with
       | None => (Ok tt, tick_cron w)
       | Some err => (Throw err, tick_cron w)
       end)
    (fun err =>
       (* Roll back the run since it can't advance without crons *)
       do! db_prepare "UPDATE runs SET status = 'failed', updated_at = ? WHERE id = ?" in
       let! ts := Date_toISOString in
       do! updateRunFailed_run ts runId in
       let message := exn_message err in
       throw (Error ("Cannot start workflow run: cron setup failed. " ++ message))).

(** [runWorkflow(params)] *)
Definition runWorkflow (params : RunWorkflowParams) : M RunResult :=
  let! workflow := lift (loadWorkflowSpec host (workflowId params)) in
  let! now := Date_toISOString in
  let! runId := crypto_randomUUID in
  let! runNumber := (fun w => (Ok (nextRunNumber host (view w)), w)) in
  let! prep := linearPreprocessing params workflow (initialContext params workflow) in
  let ctx := blankSlate params (p_context prep) in
  let linearStories := p_linearStories prep in
  let skipPlanStep := p_skipPlanStep prep in
  (* Determine initial run status *)
  let runStatus := runStatus_of params linearStories skipPlanStep in
  do! createTransaction params workflow runId runNumber now ctx linearStories
                        skipPlanStep runStatus in
  do! startCrons workflow runId in
  let! ts := Date_toISOString in
  do! emitEvent (mkEvent ts "run.started" runId (wf_id workflow)) in
  do! logger_info ("Run started: " ++ dq ++ taskTitle params ++ dq)
                  [("workflowId", Some (wf_id workflow)); ("runId", Some runId);
                   ("stepId", ws_id <$> head (wf_steps workflow))] in
  ret (mkRunResult runId runNumber (wf_id workflow) (taskTitle params) Running).

End Program.

(** ** The order the backlog is expected in

    These two definitions follow the words of the specification and use
    nothing of the comparator above.  A Linear priority ranks as itself,
    except priority 0 (no priority), which ranks lowest, as 5. *)
Definition priority_rank (priority : number) : number :=
  if Qc_eq_dec priority (number_of_Z 0) then number_of_Z 5 else priority.

(** [a] may stand before [b]: by ascending rank, and within one rank by
    ascending [sortOrder]. *)
Definition issue_before (a b : LinearIssue) : Prop :=
  (priority_rank (li_priority a) < priority_rank (li_priority b))%Qc \/
  (priority_rank (li_priority a) = priority_rank (li_priority b) /\
   (li_sortOrder a <= li_sortOrder b)%Qc).

(** ** What run creation is expected to have written *)

(** The specification steps that are materialised: all of them, except the
    step called [plan] when the plan step is skipped. *)
Definition materialized (skipPlanStep : bool) (todo : list WorkflowStep) : list WorkflowStep :=
  List.filter (fun s => negb (skipPlanStep && (ws_id s =? "plan")%string)) todo.

(** The status a step at position [i] starts in. *)
Definition initial_step_status (runStatus : RunStatus) (i : nat) : StepStatus :=
  match i with
  | O => match runStatus with Paused => StepWaiting | _ => StepPending end
  | S _ => StepWaiting
  end.

(** [rows] are the step rows of run [runId] for the steps [todo], numbered
    from [start]. *)
Definition step_rows_ok (runId : string) (runStatus : RunStatus) (skipPlanStep : bool)
    (todo : list WorkflowStep) (start : nat) (rows : list StepRow) : Prop :=
  map step_index rows = seq start (length rows) /\
  map step_step_id rows = map ws_id (materialized skipPlanStep todo) /\
  Forall (fun r => step_run_id r = runId /\
                   step_status r = initial_step_status runStatus (step_index r)) rows.

(** [rows] are the story rows of run [runId] for the backlog [todo],
    numbered from [start]. *)
Definition story_rows_ok (runId : string) (todo : list LinearStory) (start : nat)
    (rows : list StoryRow) : Prop :=
  map story_index rows = seq start (length rows) /\
  Forall2 (fun s r => story_story_id r = ls_id s /\
                      story_title r = ls_title s /\
                      story_description r = ls_description s /\
                      story_run_id r = runId /\
                      story_status r = StoryPending /\
                      story_retry_count r = 0%Z /\
                      story_max_retries r = 2%Z) todo rows.

(** A computation leaves an observation of the world unchanged. *)
Definition preserves {X A} (f : World -> X) (m : M A) : Prop :=
  forall w, f (m w).2 = f w.

(** Partial correctness with an exceptional postcondition: from a world
    satisfying [P], [m] ends in [Q] when it returns and in [R] when it
    throws.  ([M] is a total function, so [m] always ends.) *)
Definition hoare {A} (P : World -> Prop) (m : M A)
    (Q : A -> World -> Prop) (R : exn -> World -> Prop) : Prop :=
  forall w, P w ->
    match m w with
    | (Ok a, w') => Q a w'
    | (Throw e, w') => R e w'
    end.

(** Inside a transaction opened on the store [c], with current tables [t],
    at or after database call number [n0]. *)
Definition in_tx (n0 : nat) (c t : Tables) (w : World) : Prop :=
  committed w = c /\ pending w = Some t /\ n0 <= db_calls w.

(** Some database call numbered [n0] or later failed. *)
Definition faulted (host : Host) (n0 : nat) : Prop :=
  exists n, n0 <= n /\ is_Some (db_fault host n).

(** No database call numbered [n0] or later fails. *)
Definition healthy (host : Host) (n0 : nat) : Prop :=
  forall n, n0 <= n -> db_fault host n = None.

(** The store is still [c], and a database call failed. *)
Definition failed_tx (host : Host) (n0 : nat) (c : Tables) (_ : exn) (w : World) : Prop :=
  committed w = c /\ faulted host n0.

(** A transaction is open, at or after database call number [n0]. *)
Definition open_tx_at (n0 : nat) (w : World) : Prop :=
  is_Some (pending w) /\ n0 <= db_calls w.

(** The transaction is still open after the last database call made, which
    was numbered [n0] or later and failed with [e]. *)
Definition failed_open (host : Host) (n0 : nat) (e : exn) (w : World) : Prop :=
  is_Some (pending w) /\
  exists k, n0 <= k /\ db_fault host k = Some e /\ db_calls w = S k.

(** The rollback failed too: a database call after number [n0] failed, and
    so did the next call, which was the last one made (the ROLLBACK of the
    handler). *)
Definition rollback_failed (host : Host) (n0 : nat) (w' : World) : Prop :=
  exists k,
    n0 < k /\ is_Some (db_fault host k) /\ is_Some (db_fault host (S k)) /\
    db_calls w' = S (S k).

(** The run row that [createTransaction] inserts. *)
Definition run_row (host : Host) (params : RunWorkflowParams) (workflow : WorkflowSpec)
    (runId : string) (runNumber : Z) (now : string) (ctx : gmap string string)
    (runStatus : RunStatus) : RunRow :=
  mkRunRow runId runNumber (wf_id workflow) (taskTitle params) runStatus
           (JSON_stringify host (json_of_context ctx))
           (nullish (notifyUrl params) (wf_notifications_url workflow)) now now.

(** The store [c] extended by one complete run. *)
Definition full_run_added (c : Tables) (run : RunRow) (skipPlanStep : bool)
    (workflow : WorkflowSpec) (linearStories : option (list LinearStory))
    (c' : Tables) : Prop :=
  exists rows srows,
    c' = mkTables (runs c ++ [run]) (steps c ++ rows) (stories c ++ srows) /\
    step_rows_ok (run_id run) (run_status run) skipPlanStep (wf_steps workflow) 0 rows /\
    match linearStories with
    | Some backlog => story_rows_ok (run_id run) backlog 0 srows
    | None => srows = []
    end.

(** The world in which the Linear pre-processing of [runWorkflow] runs:
    the clock and the UUID source have been read once each. *)
Definition after_ids (w : World) : World := tick_uuid (tick_clock w).

(** The run row of a [runWorkflow] call started in [w], given the loaded
    workflow and the outcome of the Linear pre-processing. *)
Definition new_run_row (host : Host) (params : RunWorkflowParams) (w : World)
    (workflow : WorkflowSpec) (prep : Prepared) : RunRow :=
  run_row host params workflow
          (randomUUID host (uuid_calls w))
          (nextRunNumber host (view w))
          (toISOString host (clock_reads w))
          (blankSlate params (p_context prep))
          (runStatus_of params (p_linearStories prep) (p_skipPlanStep prep)).

(** The message of the error thrown when the crons cannot be started. *)
Definition cron_failure (err : exn) : exn :=
  Error ("Cannot start workflow run: cron setup failed. " ++ exn_message err).

(** The store after [UPDATE runs SET status = 'failed' ... WHERE id = ?]. *)
Definition with_run_failed (updated_at id : string) (c : Tables) : Tables :=
  mkTables (map (mark_failed updated_at id) (runs c)) (steps c) (stories c).

(** The part of the world the Linear adapter and the logger never touch. *)
Definition db_part (w : World) : Tables * option Tables * nat * nat * nat * nat :=
  (committed w, pending w, db_calls w, cron_calls w, uuid_calls w, clock_reads w).

Local Open Scope string_scope.

(** ** A concrete environment

    A small feature-dev workflow, a Linear project with three issues and an
    environment whose failures can be switched on, used to run the model on
    concrete inputs. *)
Definition demo_issue (id : string) (priority sortOrder : Z) : LinearIssue :=
  mkLinearIssue id ("ENG-" ++ id) ("Issue " ++ id) ""
                (number_of_Z priority) (number_of_Z sortOrder).

Definition demo_issues : list LinearIssue :=
  [ demo_issue "a" 0 1; demo_issue "b" 2 7; demo_issue "c" 1 9; demo_issue "d" 2 3 ].

Definition demo_step (id : string) : WorkflowStep :=
  mkWorkflowStep id id ("run " ++ id) "STATUS" None None None None.

Definition demo_workflow : WorkflowSpec :=
  mkWorkflowSpec "feature-dev"
                 [ demo_step "plan"; demo_step "setup"; demo_step "implement" ]
                 {[ "branch" := "main" ]}
                 None.

Definition demo_host (cli_ok cron_ok : bool) (fault_at : option nat)
    (issues : option (list LinearIssue)) : Host :=
  mkHost
    (fun n => ("uuid-" ++ String_of_nat n)%string)
    (fun n => ("T" ++ String_of_nat n)%string)
    (fun n => if bool_decide (fault_at = Some n) then Some (Error "SQLITE_FULL") else None)
    (fun n args => if cli_ok then Ok "[]" else Throw (Error "spawnSync linear ENOENT"))
    (fun _ => "{}")
    (fun _ => Ok issues)
    (fun _ => Ok (demo_issue "z" 3 0))
    (fun _ => Ok [])
    (fun _ => Ok [])
    (fun _ => Ok "label-1")
    (fun s => s)
    (fun _ => ["Typecheck passes"])
    (fun _ => Ok demo_workflow)
    (fun t => Z.of_nat (length (runs t)) + 1)%Z
    (fun _ _ => if cron_ok then None else Some (Error "gateway unreachable")).

Definition empty_world : World :=
  mkWorld (mkTables [] [] []) None 0 0 0 0 0 None [] [].

Definition demo_params (from : option string) (approved : option bool) : RunWorkflowParams :=
  mkParams "feature-dev" "Add login" None from None approved None None.

(** Three concrete calls: an approved import from a Linear project, a plain
    run, and a plain run whose cron request fails. *)
Definition import_host : Host := demo_host true true None (Some demo_issues).
Definition import_params : RunWorkflowParams := demo_params (Some "linear:PROJ") (Some true).
Definition plain_params : RunWorkflowParams := demo_params None None.
Definition no_cron_host : Host := demo_host true false None None.

Definition demo_backlog : list LinearStory :=
  [ mkLinearStory "S01" "[ENG-1] One" "first" ["Typecheck passes"] "id-1" "ENG-1";
    mkLinearStory "S02" "[ENG-2] Two" "second" ["Typecheck passes"] "id-2" "ENG-2" ].

(** An environment in which only the first call of the [linear] tool
    succeeds: the issue is exported, the label calls fail. *)
Definition label_failing_host : Host :=
  mkHost
    (fun n => ("uuid-" ++ String_of_nat n)%string)
    (fun n => ("T" ++ String_of_nat n)%string)
    (fun _ => None)
    (fun n args => if (n =? 0)%nat then Ok "{}" else Throw (Error "rate limited"))
    (fun _ => "{}")
    (fun _ => Ok None)
    (fun _ => Ok (demo_issue "z" 3 0))
    (fun _ => Ok [])
    (fun _ => Ok [])
    (fun _ => Ok "label-1")
    (fun s => s)
    (fun _ => ["Typecheck passes"])
    (fun _ => Ok demo_workflow)
    (fun t => Z.of_nat (length (runs t)) + 1)%Z
    (fun _ _ => None).

Definition issue_params : RunWorkflowParams := demo_params (Some "linear-issue:ENG-7") None.

(** A database that fails at every call from number 5 on, so that the
    ROLLBACK after a failed insert fails as well. *)
Definition broken_db_host : Host :=
  mkHost
    (fun n => ("uuid-" ++ String_of_nat n)%string)
    (fun n => ("T" ++ String_of_nat n)%string)
    (fun n => if (5 <=? n)%nat then Some (Error "SQLITE_IOERR") else None)
    (fun n args => Ok "[]")
    (fun _ => "{}")
    (fun _ => Ok None)
    (fun _ => Ok (demo_issue "z" 3 0))
    (fun _ => Ok [])
    (fun _ => Ok [])
    (fun _ => Ok "label-1")
    (fun s => s)
    (fun _ => ["Typecheck passes"])
    (fun _ => Ok demo_workflow)
    (fun t => Z.of_nat (length (runs t)) + 1)%Z
    (fun _ _ => None).

(** A workflow whose steps carry a loop configuration, a [loop: false] and
    an empty-string [loop], behind a healthy environment. *)
Definition loop_workflow : WorkflowSpec :=
  mkWorkflowSpec "story-loop"
    [ mkWorkflowStep "implement" "developer" "run implement" "STATUS" (Some 4%Z) None
                     (Some Loop) (Some (JObj [("over", JStr "stories")]));
      mkWorkflowStep "verify" "verifier" "run verify" "STATUS" None (Some 3%Z) None
                     (Some (JBool false));
      mkWorkflowStep "report" "developer" "run report" "STATUS" None None None
                     (Some (JStr "")) ]
    ∅ None.

Definition loop_host : Host :=
  mkHost
    (fun n => ("uuid-" ++ String_of_nat n)%string)
    (fun n => ("T" ++ String_of_nat n)%string)
    (fun _ => None)
    (fun n args => Ok "[]")
    (fun j => match j with JObj _ => "{...}" | _ => "?" end)
    (fun _ => Ok None)
    (fun _ => Ok (demo_issue "z" 3 0))
    (fun _ => Ok [])
    (fun _ => Ok [])
    (fun _ => Ok "label-1")
    (fun s => s)
    (fun _ => ["Typecheck passes"])
    (fun _ => Ok loop_workflow)
    (fun t => Z.of_nat (length (runs t)) + 1)%Z
    (fun _ _ => None).

(** ** The rows of a run, position by position *)

(** The step row written for [step] when it is the [i]-th materialised step
    and its id is the [u]-th UUID drawn (lines 116-122 of [run.ts]). *)
Definition step_row_for (host : Host) (workflow : WorkflowSpec) (runId now : string)
    (runStatus : RunStatus) (i u : nat) (step : WorkflowStep) : StepRow :=
  mkStepRow (randomUUID host u) runId (ws_id step)
            (wf_id workflow ++ "_" ++ ws_agent step) i (ws_input step) (ws_expects step)
            (initial_step_status runStatus i)
            (default 2%Z (nullish (ws_max_retries step) (ws_on_fail_max_retries step)))
            (default Single (ws_type step))
            (loopConfig_of host step) now now.

(** The story row written for the [i]-th story of the backlog (line 133). *)
Definition story_row_for (host : Host) (runId now : string) (i u : nat)
    (s : LinearStory) : StoryRow :=
  mkStoryRow (randomUUID host u) runId i (ls_id s) (ls_title s) (ls_description s)
             (JSON_stringify host (JArr (map JStr (ls_acceptanceCriteria s))))
             StoryPending 0%Z 2%Z now now.

(** The step rows and story rows of a run whose first row id is the [u]-th
    UUID drawn. *)
Definition step_rows_for (host : Host) (workflow : WorkflowSpec) (runId now : string)
    (runStatus : RunStatus) (skipPlanStep : bool) (start u : nat)
    (todo : list WorkflowStep) : list StepRow :=
  imap (fun k step => step_row_for host workflow runId now runStatus (start + k) (u + k) step)
       (materialized skipPlanStep todo).

Definition story_rows_for (host : Host) (runId now : string) (start u : nat)
    (backlog : list LinearStory) : list StoryRow :=
  imap (fun k s => story_row_for host runId now (start + k) (u + k) s) backlog.

(** Inside the transaction, with [u] UUIDs drawn so far. *)
Definition in_tx_at (n0 : nat) (c t : Tables) (u : nat) (w : World) : Prop :=
  in_tx n0 c t w /\ uuid_calls w = u.

(** The store [c] extended by the rows of one run whose step and story ids
    are the UUIDs drawn from number [u] on. *)
Definition tables_with_run (host : Host) (c : Tables) (run : RunRow) (workflow : WorkflowSpec)
    (skipPlanStep : bool) (linearStories : option (list LinearStory)) (u : nat) : Tables :=
  let srows := step_rows_for host workflow (run_id run) (run_created_at run)
                             (run_status run) skipPlanStep 0 u (wf_steps workflow) in
  mkTables (runs c ++ [run])
           (steps c ++ srows)
           (stories c ++
              match linearStories with
              | Some backlog =>
                  story_rows_for host (run_id run) (run_created_at run) 0
                                 (u + length srows) backlog
              | None => []
              end).

(** Two issues rank equally for the sort of [exportProjectStories]. *)
Definition same_rank (a b : LinearIssue) : Prop :=
  effective_priority a = effective_priority b /\ li_sortOrder a = li_sortOrder b.

#[global] Instance same_rank_dec (a b : LinearIssue) : Decision (same_rank a b).
Proof. unfold same_rank. apply _. Defined.

(** ** The rest of the Linear adapter: criteria, issue creation, hooks *)

(** One entry of the [linear_mapping] array in a run's context. *)
Record MappingEntry := mkMappingEntry {
  me_storyId : string;
  me_linearIssueId : string;
  me_linearIdentifier : string;
  me_teamId : option string;
}.

(** What these functions obtain from outside the sources, besides [Host]. *)
Record HooksHost := mkHooksHost {
  (* JSON.parse(run.context), an object of strings *)
  parse_context : string -> result (gmap string string);
  (* JSON.parse(mapping) as Array<{ storyId, linearIssueId, ... }> *)
  parse_mapping : string -> result (list MappingEntry);
  (* JSON.parse(output) as { id, identifier } *)
  parse_created_issue : string -> result (string * string);
  (* match[1] of the successive checkboxRe.exec(description) calls *)
  checkboxRe_captures : string -> list string;
  (* match[1] of the successive numberedRe.exec(description) calls *)
  numberedRe_captures : string -> list string;
  (* String.prototype.trim *)
  String_trim : string -> string;
}.

(** A JavaScript [Map] with string keys: entries in insertion order; [set]
    on a present key replaces the value in place. *)
Fixpoint Map_set {V} (k : string) (v : V) (m : list (string * V)) : list (string * V) :=
  match m with
  | [] => [(k, v)]
  | (k', v') :: rest =>
      if (k' =? k)%string then (k, v) :: rest else (k', v') :: Map_set k v rest
  end.

Definition Map_get {V} (k : string) (m : list (string * V)) : option V :=
  snd <$> find (fun kv => (fst kv =? k)%string) m.

(** The line feed of the template strings. *)
Definition nl : string := String (ascii_of_nat 10) EmptyString.

(** A story as the planner produces it ([CreateLinearIssuesParams.stories]). *)
Record PlannerStory := mkPlannerStory {
  ps_id : string;
  ps_title : string;
  ps_description : string;
  ps_acceptanceCriteria : list string;
}.

Record CreateLinearIssuesParams := mkCreateParams {
  cp_teamId : string;
  cp_projectId : option string;
  cp_stories : list PlannerStory;
  cp_labelIds : option (list string);
}.

Section Hooks.
Context (host : Host) (hh : HooksHost).

(** [parseAcceptanceCriteria(description)], the regular expressions being
    left to the engine. *)
Definition parseAcceptanceCriteria_of (description : string) : list string :=
  (* Extract checkbox items *)
  let criteria := map (String_trim hh) (checkboxRe_captures hh description) in
  if (0 <? length criteria)%nat then (criteria ++ ["Typecheck passes"])%list
  else
    (* Extract numbered list items *)
    let criteria := (criteria ++ map (String_trim hh) (numberedRe_captures hh description))%list in
    if (0 <? length criteria)%nat then (criteria ++ ["Typecheck passes"])%list
    else
      (* Fallback *)
      [ "Implementation matches the issue description";
        "Tests for the feature pass";
        "Typecheck passes" ].

(** The arguments of [linear issue create] for one story. *)
Definition createArgs_of (params : CreateLinearIssuesParams) (story : PlannerStory)
  : list string :=
  let acText :=
    Array_join nl (imap (fun i c => String_of_nat (i + 1) ++ ". " ++ c)
                        (ps_acceptanceCriteria story)) in
  let description :=
    ps_description story ++ nl ++ nl ++ "## Acceptance Criteria" ++ nl ++ acText in
  (["issue"; "create"; "--title"; ps_title story; "--description"; description;
    "--team"; cp_teamId params]
   ++ (if truthy_str (cp_projectId params)
       then ["--project"; default "" (cp_projectId params)] else [])
   ++ (match cp_labelIds params with
       | Some labelIds => concat (map (fun labelId => ["--label"; labelId]) labelIds)
       | None => []
       end))%list.

(** The loop of [createLinearIssues] over the stories still to create. *)
Fixpoint createLinearIssues_loop (params : CreateLinearIssuesParams)
    (todo : list PlannerStory) (results : list LinearStory) : M (list LinearStory) :=
  match todo with
  | [] => ret results
  | story :: rest =>
      let! created := linearJson host (parse_created_issue hh) (createArgs_of params story) in
      createLinearIssues_loop params rest
        (results ++ [mkLinearStory (ps_id story)
                                   ("[" ++ snd created ++ "] " ++ ps_title story)
                                   (ps_description story)
                                   (ps_acceptanceCriteria story)
                                   (fst created)
                                   (snd created)])%list
  end.

(** [createLinearIssues(params)] *)
Definition createLinearIssues (params : CreateLinearIssuesParams) : M (list LinearStory) :=
  createLinearIssues_loop params (cp_stories params) [].

(** [linkPR(issueId, prUrl)] *)
Definition linkPR (issueId prUrl : string) : M unit :=
  addComment host issueId ("🔗 Pull Request: " ++ prUrl).

(** [db.prepare("SELECT context FROM runs WHERE id = ?").get(runId)]: the
    first row with that id, or [undefined]. *)
Definition selectRun_get (runId : string) : M (option RunRow) :=
  fun w =>
    match db_fault host (db_calls w) with
    | Some e => (Throw e, tick_db w)
    | None => (Ok (find (fun r => (run_id r =? runId)%string) (runs (view w))), tick_db w)
    end.

(** [getLinearMapping(runId)] *)
Definition getLinearMapping (runId : string) : M (option (list (string * MappingEntry))) :=
  do! db_prepare host "SELECT context FROM runs WHERE id = ?" in
  let! run := selectRun_get runId in
  match run with
  | None => ret None
  | Some run =>
      let! context := lift (parse_context hh (run_context run)) in
      let mapping := context !! "linear_mapping" in
      if negb (truthy_str mapping) then ret None
      else
        try_catch
          (let! parsed := lift (parse_mapping hh (default "" mapping)) in
           ret (Some (fold_left (fun map entry => Map_set (me_storyId entry) entry map)
                                parsed [])))
          (fun _ => ret None)
  end.

(** [onStoryStarted(runId, storyId)] *)
Definition onStoryStarted (runId storyId : string) : M unit :=
  let! mapping := getLinearMapping runId in
  match mapping with
  | None => ret tt
  | Some mapping =>
      match Map_get storyId mapping with
      | None => ret tt
      | Some entry =>
          do! moveIssue host (me_linearIssueId entry) "In Progress" (me_teamId entry) in
          addComment host (me_linearIssueId entry) "🚀 Implementation started by antfarm"
      end
  end.

(** [onStoryDone(runId, storyId)] *)
Definition onStoryDone (runId storyId : string) : M unit :=
  let! mapping := getLinearMapping runId in
  match mapping with
  | None => ret tt
  | Some mapping =>
      match Map_get storyId mapping with
      | None => ret tt
      | Some entry =>
          do! moveIssue host (me_linearIssueId entry) "In Review" (me_teamId entry) in
          addComment host (me_linearIssueId entry) "✅ Implementation complete, pending review"
      end
  end.

(** The loop of [onPRCreated] over the entries of the mapping. *)
Fixpoint onPRCreated_loop (prUrl : string) (entries : list (string * MappingEntry)) : M unit :=
  match entries with
  | [] => ret tt
  | (_, entry) :: rest =>
      do! moveIssue host (me_linearIssueId entry) "Done" (me_teamId entry) in
      do! linkPR (me_linearIssueId entry) prUrl in
      onPRCreated_loop prUrl rest
  end.

(** [onPRCreated(runId, prUrl)] *)
Definition onPRCreated (runId prUrl : string) : M unit :=
  let! mapping := getLinearMapping runId in
  match mapping with
  | None => ret tt
  | Some mapping => onPRCreated_loop prUrl mapping
  end.

(** [onStoryFailed(runId, storyId, error)] *)
Definition onStoryFailed (runId storyId error : string) : M unit :=
  let! mapping := getLinearMapping runId in
  match mapping with
  | None => ret tt
  | Some mapping =>
      match Map_get storyId mapping with
      | None => ret tt
      | Some entry =>
          addComment host (me_linearIssueId entry) ("❌ Implementation failed: " ++ error)
      end
  end.

End Hooks.

(** The result built for [story] from the created issue [(id, identifier)]. *)
Definition created_story (story : PlannerStory) (created : string * string) : LinearStory :=
  mkLinearStory (ps_id story) ("[" ++ snd created ++ "] " ++ ps_title story)
                (ps_description story) (ps_acceptanceCriteria story)
                (fst created) (snd created).

(** The mapping entry that [runWorkflow] writes for a story (no team id). *)
Definition entry_of_story (s : LinearStory) : MappingEntry :=
  mkMappingEntry (ls_id s) (ls_linearIssueId s) (ls_linearIdentifier s) None.

(** Environments for the hooks: fixed answers of the JSON parser. *)
Definition demo_hooks (ctx : gmap string string) (mapping : list MappingEntry) : HooksHost :=
  mkHooksHost (fun _ => Ok ctx) (fun _ => Ok mapping) (fun _ => Ok ("issue-uuid", "ENG-42"))
              (fun _ => []) (fun _ => []) (fun s => s).

Definition demo_create_params : CreateLinearIssuesParams :=
  mkCreateParams "TEAM" (Some "PROJ")
                 [ mkPlannerStory "S01" "Login form" "Build the form" ["Form renders"];
                   mkPlannerStory "S02" "Session" "Keep the session" ["Cookie set"] ]
                 None.

(** The approved import of the concrete calls above: what its
    pre-processing yields, and hooks whose JSON parser reads the stored
    context and mapping back. *)
Definition import_prepared : Prepared :=
  match (linearPreprocessing import_host import_params demo_workflow
           (initialContext import_params demo_workflow) (after_ids empty_world)).1 with
  | Ok prep => prep
  | Throw _ => mkPrepared ∅ None false
  end.

Definition import_backlog : list LinearStory :=
  default [] (p_linearStories import_prepared).

Definition import_hooks : HooksHost :=
  demo_hooks (blankSlate import_params (p_context import_prepared))
             (map entry_of_story import_backlog).

(** * The medic's cron job ([workflows/medic/medic-cron.js]) *)

Module Medic.

Definition MEDIC_CRON_NAME : string := "antfarm/medic".
Definition MEDIC_EVERY_MS : Z := 10 * 60 * 1000.
Definition MEDIC_MODEL : string := "kimi-coding/k2p5".
Definition MEDIC_TIMEOUT_SECONDS : Z := 120.

(** An entry of [config.agents.list]: its [id] and its other fields. *)
Record Agent := mkAgent {
  agent_id : string;
  agent_fields : list (string * string);
}.

(** [config.agents]: an optional [list], and whatever else it holds. *)
Record AgentsConfig := mkAgentsConfig {
  agents_list : option (list Agent);
  agents_other : list (string * string);
}.

(** The OpenClaw configuration object: an optional [agents], and whatever
    else it holds. *)
Record Config := mkConfig {
  config_agents : option AgentsConfig;
  config_other : list (string * string);
}.

Record CronJob := mkCronJob {
  job_id : string;
  job_name : string;
}.

(** The answer of [listCronJobs]: [{ ok, jobs? }]. *)
Record ListResult := mkListResult {
  list_ok : bool;
  list_jobs : option (list CronJob);
}.

(** The answer of [createAgentCronJob] and [deleteCronJob]:
    [{ ok, error?, id? }]. *)
Record GatewayResult := mkGatewayResult {
  gr_ok : bool;
  gr_error : option string;
  gr_id : option string;
}.

(** The argument of [createAgentCronJob] (lines 73-86). *)
Record CronJobRequest := mkCronJobRequest {
  req_name : string;
  req_schedule_kind : string;
  req_everyMs : Z;
  req_sessionTarget : string;
  req_agentId : string;
  req_payload_kind : string;
  req_message : string;
  req_model : string;
  req_timeoutSeconds : Z;
  req_delivery_mode : string;
  req_enabled : bool;
}.

(** The calls made on the gateway and on the configuration file, in order. *)
Inductive GatewayCall :=
| ListCronJobs
| CreateAgentCronJob (request : CronJobRequest)
| DeleteCronJob (id : string).

Inductive ConfigCall :=
| ReadConfig
| WriteConfig (path : string) (config : Config).

(** What the imported functions answer ([gateway-api.js], [paths.js] and
    [openclaw-config.js] are not among the sources): each answer may depend
    on the number of earlier calls of the same module and on the arguments;
    a [Throw] is a rejected promise. *)
Record Env := mkEnv {
  listCronJobs_answer : nat -> result ListResult;
  createAgentCronJob_answer : nat -> CronJobRequest -> result GatewayResult;
  deleteCronJob_answer : nat -> string -> result GatewayResult;
  readOpenClawConfig_answer : nat -> result (string * Config);
  writeOpenClawConfig_answer : nat -> string -> Config -> result unit;
  resolveAntfarmCli : string;
}.

Record State := mkState {
  gateway_calls : list GatewayCall;
  config_calls : list ConfigCall;
}.

Definition log_gateway (c : GatewayCall) (s : State) : State :=
  mkState (gateway_calls s ++ [c]) (config_calls s).

Definition log_config (c : ConfigCall) (s : State) : State :=
  mkState (gateway_calls s) (config_calls s ++ [c]).

(** The [async] functions, as state and exception passing: [await] is the
    sequencing of the monad. *)
Definition Async (A : Type) : Type := State -> result A * State.

Definition resolve {A} (a : A) : Async A := fun s => (Ok a, s).

Definition await {A B} (m : Async A) (k : A -> Async B) : Async B :=
  fun s =>
    match m s with
    | (Ok a, s') => k a s'
    | (Throw e, s') => (Throw e, s')
    end.

(** [try { body } catch { handler }] *)
Definition try_catch_all {A} (body : Async A) (handler : Async A) : Async A :=
  fun s =>
    match body s with
    | (Ok a, s') => (Ok a, s')
    | (Throw _, s') => handler s'
    end.

(** [findIndex]: the index of the first element satisfying [p]. *)
Fixpoint findIndex {A} (p : A -> bool) (l : list A) : option nat :=
  match l with
  | [] => None
  | x :: rest => if p x then Some 0 else S <$> findIndex p rest
  end.

Section Program.
Context (env : Env).

Definition listCronJobs : Async ListResult :=
  fun s => (listCronJobs_answer env (length (gateway_calls s)), log_gateway ListCronJobs s).

Definition createAgentCronJob (request : CronJobRequest) : Async GatewayResult :=
  fun s => (createAgentCronJob_answer env (length (gateway_calls s)) request,
            log_gateway (CreateAgentCronJob request) s).

Definition deleteCronJob (id : string) : Async GatewayResult :=
  fun s => (deleteCronJob_answer env (length (gateway_calls s)) id,
            log_gateway (DeleteCronJob id) s).

Definition readOpenClawConfig : Async (string * Config) :=
  fun s => (readOpenClawConfig_answer env (length (config_calls s)), log_config ReadConfig s).

Definition writeOpenClawConfig (path : string) (config : Config) : Async unit :=
  fun s => (writeOpenClawConfig_answer env (length (config_calls s)) path config,
            log_config (WriteConfig path config) s).

(** [buildMedicPrompt()]: the lines of the template string. *)
Definition buildMedicPrompt : string :=
  let cli := resolveAntfarmCli env in
  Array_join nl
    [ "You are the Antfarm Medic — a health watchdog for workflow runs.";
      "";
      "Run the medic check:";
      "```";
      "node " ++ cli ++ " medic run";
      "```";
      "";
      "If the output says " ++ dq ++ "All clear" ++ dq ++ ", reply HEARTBEAT_OK and stop.";
      "";
      "If issues were found, summarize what was detected and what actions were taken.";
      "If there are critical unremediated issues, use sessions_send to alert the main session:";
      "```";
      "sessions_send(sessionKey: " ++ dq ++ "agent:main:main" ++ dq ++ ", message: " ++ dq
        ++ "🚑 Antfarm Medic Alert: <summary of critical issues>" ++ dq ++ ")";
      "```";
      "";
      "Do NOT attempt to fix issues yourself beyond what the medic check already handles." ].

(** [config.agents?.list ?? []] *)
Definition agents_of (config : Config) : list Agent :=
  match config_agents config with
  | Some agents => default [] (agents_list agents)
  | None => []
  end.

Definition is_medic (a : Agent) : bool := (agent_id a =? "antfarm-medic")%string.

Definition medicAgent : Agent :=
  mkAgent "antfarm-medic" [("name", "Antfarm Medic"); ("model", MEDIC_MODEL)].

(** Lines 36-44: create [config.agents] and [config.agents.list] where they
    are missing, then push the medic. *)
Definition push_medic (config : Config) : Config :=
  let agents := default (mkAgentsConfig None []) (config_agents config) in
  let list := default [] (agents_list agents) in
  mkConfig (Some (mkAgentsConfig (Some (list ++ [medicAgent])%list) (agents_other agents)))
           (config_other config).

(** [agents.splice(idx, 1)] on the list that [config.agents.list] holds: a
    configuration without that list has nothing to splice. *)
Definition splice_agents (idx : nat) (config : Config) : Config :=
  match config_agents config with
  | Some agents =>
      match agents_list agents with
      | Some list =>
          mkConfig (Some (mkAgentsConfig (Some (delete idx list)) (agents_other agents)))
                   (config_other config)
      | None => config
      end
  | None => config
  end.

(** [ensureMedicAgent()] *)
Definition ensureMedicAgent : Async unit :=
  try_catch_all
    (await readOpenClawConfig (fun '(path, config) =>
     let agents := agents_of config in
     if existsb is_medic agents then resolve tt
     else writeOpenClawConfig path (push_medic config)))
    (resolve tt).

(** [removeMedicAgent()] *)
Definition removeMedicAgent : Async unit :=
  try_catch_all
    (await readOpenClawConfig (fun '(path, config) =>
     let agents := agents_of config in
     match findIndex is_medic agents with
     | None => resolve tt
     | Some idx => writeOpenClawConfig path (splice_agents idx config)
     end))
    (resolve tt).

(** [findMedicCronJob()] *)
Definition findMedicCronJob : Async (option CronJob) :=
  await listCronJobs (fun result =>
  if negb (list_ok result) then resolve None
  else
    match list_jobs result with
    | None => resolve None
    | Some jobs => resolve (find (fun j => (job_name j =? MEDIC_CRON_NAME)%string) jobs)
    end).

Definition medicCronRequest : CronJobRequest :=
  mkCronJobRequest MEDIC_CRON_NAME "every" MEDIC_EVERY_MS "isolated" "antfarm-medic"
                   "agentTurn" buildMedicPrompt MEDIC_MODEL MEDIC_TIMEOUT_SECONDS
                   "none" true.

Definition ok_true : GatewayResult := mkGatewayResult true None None.

(** [installMedicCron()] *)
Definition installMedicCron : Async GatewayResult :=
  await findMedicCronJob (fun existing =>
  match existing with
  | Some _ => resolve ok_true
  | None =>
      await ensureMedicAgent (fun _ =>
      await (createAgentCronJob medicCronRequest) (fun result =>
      resolve result))
  end).

(** [uninstallMedicCron()] *)
Definition uninstallMedicCron : Async GatewayResult :=
  await findMedicCronJob (fun job =>
  match job with
  | None => await removeMedicAgent (fun _ => resolve ok_true)
  | Some job =>
      await (deleteCronJob (job_id job)) (fun result =>
      if gr_ok result then await removeMedicAgent (fun _ => resolve result)
      else resolve result)
  end).

(** [isMedicCronInstalled()] *)
Definition isMedicCronInstalled : Async bool :=
  await findMedicCronJob (fun job =>
  resolve (match job with Some _ => true | None => false end)).

End Program.

(** A gateway that lists [jobs] and accepts every request, and a
    configuration file that holds [config] and accepts every write. *)
Definition demo_env (jobs : list CronJob) (delete_ok : bool) (config : Config) : Env :=
  mkEnv (fun _ => Ok (mkListResult true (Some jobs)))
        (fun _ _ => Ok (mkGatewayResult true None (Some "job-9")))
        (fun _ _ => Ok (mkGatewayResult delete_ok
                          (if delete_ok then None else Some "not found") None))
        (fun _ => Ok ("/home/u/.openclaw/openclaw.json", config))
        (fun _ _ _ => Ok tt)
        "/opt/antfarm/dist/cli/cli.js".

Definition init : State := mkState [] [].

(** A configuration file that holds [config] until the first write and
    [written] afterwards, behind a gateway that lists no job. *)
Definition file_env (config written : Config) : Env :=
  mkEnv (fun _ => Ok (mkListResult true (Some [])))
        (fun _ _ => Ok (mkGatewayResult true None (Some "job-9")))
        (fun _ _ => Ok (mkGatewayResult true None None))
        (fun n => Ok ("/home/u/.openclaw/openclaw.json", if (n <? 2)%nat then config else written))
        (fun _ _ _ => Ok tt)
        "/opt/antfarm/dist/cli/cli.js".

Definition medic_job : CronJob := mkCronJob "job-1" "antfarm/medic".

Definition bare_config : Config := mkConfig None [("gateway", "local")].

Definition demo_config : Config :=
  mkConfig (Some (mkAgentsConfig (Some [mkAgent "main" [("name", "Main")]]) []))
           [("gateway", "local")].

End Medic.

(** * Properties *)

(** ** The sort *)

Lemma Qc_pos_minus (p q : Qc) : (0 < p - q)%Qc <-> (q < p)%Qc.
Proof. unfold Qcminus. symmetry. apply Qclt_minus_iff. Qed.

(** The comparator's priority is the rank of the specification. *)
Lemma effective_priority_rank (i : LinearIssue) :
  effective_priority i = priority_rank (li_priority i).
Proof.
  unfold effective_priority, priority_rank.
  case_bool_decide as Hp; destruct (Qc_eq_dec _ _); done.
Qed.

Lemma compare_issues_after (a b : LinearIssue) :
  (0 < compare_issues a b)%Qc -> issue_before b a.
Proof.
  unfold compare_issues, issue_before. rewrite <- !effective_priority_rank.
  case_bool_decide as Hne; rewrite Qc_pos_minus; intros Hlt.
  - by left.
  - right. split.
    + by symmetry.
    + by apply Qclt_le_weak.
Qed.

Lemma compare_issues_not_after (a b : LinearIssue) :
  ~ (0 < compare_issues a b)%Qc -> issue_before a b.
Proof.
  unfold compare_issues, issue_before. rewrite <- !effective_priority_rank.
  case_bool_decide as Hne; rewrite Qc_pos_minus; intros Hn.
  - left. apply Qcnot_lt_le in Hn.
    destruct (Qcle_lt_or_eq _ _ Hn) as [?|?]; [done | congruence].
  - right. split.
    + done.
    + by apply Qcnot_lt_le.
Qed.

Lemma issue_before_trans : Transitive issue_before.
Proof.
  intros a b c [Hab | [Eab Hab]] [Hbc | [Ebc Hbc]]; unfold issue_before.
  - left. by eapply Qclt_trans.
  - left. by rewrite <- Ebc.
  - left. by rewrite Eab.
  - right. split; [congruence | by eapply Qcle_trans].
Qed.

Lemma sort_insert_perm {A} (cmp : A -> A -> Qc) (x : A) (l : list A) :
  sort_insert cmp x l ≡ₚ x :: l.
Proof.
  induction l as [|y l IH]; simpl; [done|].
  case_bool_decide; [|done].
  rewrite IH. apply perm_swap.
Qed.

Lemma sort_perm {A} (cmp : A -> A -> Qc) (l : list A) : sort cmp l ≡ₚ l.
Proof.
  induction l as [|x l IH]; simpl; [done|].
  by rewrite sort_insert_perm, IH.
Qed.

Lemma sort_insert_issues_sorted (x : LinearIssue) (l : list LinearIssue) :
  Sorted issue_before l -> Sorted issue_before (sort_insert compare_issues x l).
Proof.
  induction 1 as [|y l Hs IH Hhd]; simpl.
  - repeat constructor.
  - case_bool_decide as Hc.
    + constructor; [done|].
      destruct Hhd as [|z l' Hyz]; simpl.
      * constructor. by apply compare_issues_after.
      * case_bool_decide; constructor; [done | by apply compare_issues_after].
    + constructor; [by constructor|].
      constructor. by apply compare_issues_not_after.
Qed.

Lemma sort_issues_sorted (l : list LinearIssue) :
  StronglySorted issue_before (sort compare_issues l).
Proof.
  apply Sorted_StronglySorted; [apply issue_before_trans|].
  induction l as [|x l IH]; simpl; [constructor|].
  by apply sort_insert_issues_sorted.
Qed.

Lemma sort_nonempty {A} (cmp : A -> A -> Qc) (l : list A) : l <> [] -> sort cmp l <> [].
Proof.
  intros Hl Hs. apply Hl, Permutation_nil. rewrite <- Hs. apply sort_perm.
Qed.

Lemma StronglySorted_lookup_lt {A} (R : A -> A -> Prop) (l : list A) :
  StronglySorted R l ->
  forall i j a b, i < j -> l !! i = Some a -> l !! j = Some b -> R a b.
Proof.
  induction 1 as [|x l Hs IH Hall]; intros i j a b Hij Ha Hb; [done|].
  destruct j as [|j]; [lia|]. simpl in Hb.
  destruct i as [|i]; simpl in Ha.
  - injection Ha as <-. rewrite Forall_forall in Hall. apply Hall.
    by eapply list_elem_of_lookup_2.
  - apply (IH i j); [lia|done..].
Qed.

(** What the order says in terms of the priorities themselves. *)
Lemma issue_before_cases (a b : LinearIssue) :
  issue_before a b ->
  (li_priority a = number_of_Z 0 ->
   li_priority b = number_of_Z 0 \/ (number_of_Z 5 <= li_priority b)%Qc) /\
  (li_priority a <> number_of_Z 0 -> li_priority b <> number_of_Z 0 ->
   (li_priority a <= li_priority b)%Qc) /\
  (li_priority a = li_priority b -> (li_sortOrder a <= li_sortOrder b)%Qc).
Proof.
  unfold issue_before, priority_rank. intros H. repeat split.
  - intros Ha. destruct (Qc_eq_dec (li_priority b) (number_of_Z 0)) as [Hb|Hb]; [by left|].
    right. destruct (Qc_eq_dec (li_priority a) _); [|done].
    destruct H as [H | [H _]]; [by apply Qclt_le_weak | rewrite H; apply Qcle_refl].
  - intros Ha Hb.
    destruct (Qc_eq_dec (li_priority a) _); [done|].
    destruct (Qc_eq_dec (li_priority b) _); [done|].
    destruct H as [H | [H _]]; [by apply Qclt_le_weak | rewrite H; apply Qcle_refl].
  - intros Hab. rewrite Hab in H. destruct H as [H | [_ H]]; [|done].
    exfalso. apply (Qclt_not_le _ _ H), Qcle_refl.
Qed.

(** ** [exportProjectStories] *)

Lemma story_id_of_index_small (i : nat) :
  i < 9 -> story_id_of_index i = "S0" ++ String_of_nat (i + 1).
Proof.
  intros Hi. do 9 (destruct i as [|i]; [reflexivity|]). lia.
Qed.

(** C10: the backlog exported from a Linear project is the project's issues
    rearranged into the order of the specification ([issue_before]:
    ascending priority with priority 0 ranked as 5, ties in ascending
    [sortOrder]); the story at position [i] of that order gets the id [S]
    followed by [i + 1] padded to two digits ([S01], [S02], ...); and a
    project without issues makes the export throw. *)
Theorem exportProjectStories_sorted_backlog (host : Host) (projectId out : string)
    (issues : option (list LinearIssue)) (w : World) :
  execFileSync_linear host (cli_calls w) ["project"; "issues"; projectId; "--json"] = Ok out ->
  parse_issues host out = Ok issues ->
  match issues with
  | None | Some [] =>
      (exportProjectStories host projectId w).1
      = Throw (Error ("No issues found in Linear project " ++ projectId))
  | Some l =>
      exists sorted stories,
        (exportProjectStories host projectId w).1 = Ok stories /\
        sorted ≡ₚ l /\
        StronglySorted issue_before sorted /\
        (forall i j a b,
           i < j -> sorted !! i = Some a -> sorted !! j = Some b ->
           (li_priority a = number_of_Z 0 ->
            li_priority b = number_of_Z 0 \/ (number_of_Z 5 <= li_priority b)%Qc) /\
           (li_priority a <> number_of_Z 0 -> li_priority b <> number_of_Z 0 ->
            (li_priority a <= li_priority b)%Qc) /\
           (li_priority a = li_priority b -> (li_sortOrder a <= li_sortOrder b)%Qc)) /\
        length stories = length sorted /\
        (forall i issue, sorted !! i = Some issue ->
           exists story, stories !! i = Some story /\
             ls_id story = story_id_of_index i /\
             ls_linearIssueId story = li_id issue /\
             ls_linearIdentifier story = li_identifier issue) /\
        story_id_of_index 0 = "S01" /\ story_id_of_index 1 = "S02" /\
        story_id_of_index 9 = "S10" /\
        (forall i, i < 9 -> story_id_of_index i = "S0" ++ String_of_nat (i + 1))
  end.
Proof.
  intros Hcli Hparse.
  assert (Hrun : exportProjectStories host projectId w =
                 match issues with
                 | None | Some [] =>
                     (Throw (Error ("No issues found in Linear project " ++ projectId)), tick_cli w)
                 | Some l =>
                     (Ok (imap (fun i issue => story_of_issue host (story_id_of_index i) issue)
                               (sort compare_issues l)), tick_cli w)
                 end).
  { unfold exportProjectStories, linearJson, linearExec, bind, try_catch, lift. simpl.
    rewrite Hcli, Hparse. by destruct issues as [[|]|]. }
  rewrite Hrun. destruct issues as [[|x l]|]; [done| |done].
  eexists (sort compare_issues (x :: l)), _. split; [reflexivity|].
  split; [apply sort_perm|]. split; [apply sort_issues_sorted|].
  split.
  { intros i j a b Hij Ha Hb.
    apply (issue_before_cases a b).
    exact (StronglySorted_lookup_lt issue_before _ (sort_issues_sorted (x :: l)) i j a b
             Hij Ha Hb). }
  split; [by rewrite length_imap|].
  split.
  - intros i issue Hi. eexists. rewrite list_lookup_imap, Hi. simpl. done.
  - repeat split; try reflexivity. apply story_id_of_index_small.
Qed.

(** ** Reasoning about the monad *)

Section Frame.
Context {X : Type} (f : World -> X).

Lemma preserves_ret {A} (a : A) : preserves f (ret a).
Proof. by intros w. Qed.

Lemma preserves_throw {A} (e : exn) : preserves f (@throw A e).
Proof. by intros w. Qed.

Lemma preserves_lift {A} (r : result A) : preserves f (lift r).
Proof. by intros w. Qed.

Lemma preserves_bind {A B} (m : M A) (k : A -> M B) :
  preserves f m -> (forall a, preserves f (k a)) -> preserves f (bind m k).
Proof.
  intros Hm Hk w. unfold bind. specialize (Hm w).
  destruct (m w) as [[a|e] w1]; simpl in *; [|done].
  by rewrite Hk.
Qed.

Lemma preserves_try_catch {A} (m : M A) (h : exn -> M A) :
  preserves f m -> (forall e, preserves f (h e)) -> preserves f (try_catch m h).
Proof.
  intros Hm Hh w. unfold try_catch. specialize (Hm w).
  destruct (m w) as [[a|e] w1]; simpl in *; [done|].
  by rewrite Hh.
Qed.

End Frame.

Ltac frame_step :=
  lazymatch goal with
  | |- preserves _ (ret _) => apply preserves_ret
  | |- preserves _ (throw _) => apply preserves_throw
  | |- preserves _ (lift _) => apply preserves_lift
  | |- preserves _ (bind _ _) => apply preserves_bind; [|intros ?]
  | |- preserves _ (try_catch _ _) => apply preserves_try_catch; [|intros ?]
  end.

Section AdapterFrame.
Context (host : Host).

Lemma linearExec_frame args json : preserves db_part (linearExec host args json).
Proof.
  intros w. unfold linearExec, try_catch.
  by destruct (execFileSync_linear host _ _).
Qed.

Lemma linearJson_frame {T} (parse : string -> result T) args :
  preserves db_part (linearJson host parse args).
Proof. unfold linearJson. repeat frame_step. apply linearExec_frame. Qed.

Lemma logger_info_frame msg meta : preserves db_part (logger_info msg meta).
Proof. by intros w. Qed.

Lemma logger_warn_frame msg : preserves db_part (logger_warn msg).
Proof. by intros w. Qed.

Lemma exportProjectStories_frame projectId :
  preserves db_part (exportProjectStories host projectId).
Proof.
  unfold exportProjectStories. frame_step; [apply linearJson_frame|].
  destruct a as [[|]|]; frame_step.
Qed.

Lemma exportIssueStory_frame issueId :
  preserves db_part (exportIssueStory host issueId).
Proof. unfold exportIssueStory. repeat frame_step. apply linearJson_frame. Qed.

Lemma ensureLabel_frame name : preserves db_part (ensureLabel host name).
Proof.
  unfold ensureLabel. frame_step.
  - frame_step; [apply linearJson_frame|].
    destruct (find _ a); repeat frame_step. apply linearJson_frame.
  - repeat frame_step. apply logger_warn_frame.
Qed.

Lemma linearPreprocessing_frame params workflow ctx :
  preserves db_part (linearPreprocessing host params workflow ctx).
Proof.
  unfold linearPreprocessing.
  destruct (truthy_str (storiesFrom params)); [|frame_step].
  destruct (negb _); [frame_step|].
  frame_step.
  - repeat case_bool_decide;
      auto using exportProjectStories_frame, exportIssueStory_frame, preserves_throw.
  - frame_step; [apply ensureLabel_frame|].
    frame_step; [apply logger_info_frame|]. frame_step.
Qed.

End AdapterFrame.

Section Hoare.

Lemma hoare_ret {A} (a : A) (Q : A -> World -> Prop) R :
  hoare (Q a) (ret a) Q R.
Proof. by intros w Hw. Qed.

Lemma hoare_throw {A} (e : exn) (Q : A -> World -> Prop) (R : exn -> World -> Prop) :
  hoare (R e) (throw e) Q R.
Proof. by intros w Hw. Qed.

Lemma hoare_bind {A B} P (m : M A) (k : A -> M B) Q1 Q R :
  hoare P m Q1 R -> (forall a, hoare (Q1 a) (k a) Q R) -> hoare P (bind m k) Q R.
Proof.
  intros Hm Hk w Hw. unfold bind. specialize (Hm w Hw).
  destruct (m w) as [[a|e] w1]; [by apply Hk | done].
Qed.

Lemma hoare_try_catch {A} P (m : M A) (h : exn -> M A) Q R1 R :
  hoare P m Q R1 -> (forall e, hoare (R1 e) (h e) Q R) -> hoare P (try_catch m h) Q R.
Proof.
  intros Hm Hh w Hw. unfold try_catch. specialize (Hm w Hw).
  destruct (m w) as [[a|e] w1]; [done | by apply Hh].
Qed.

Lemma hoare_conseq {A} (P P' : World -> Prop) (m : M A) (Q Q' : A -> World -> Prop)
    (R R' : exn -> World -> Prop) :
  hoare P m Q R ->
  (forall w, P' w -> P w) -> (forall a w, Q a w -> Q' a w) -> (forall e w, R e w -> R' e w) ->
  hoare P' m Q' R'.
Proof.
  intros Hm HP HQ HR w Hw. specialize (Hm w (HP w Hw)).
  destruct (m w) as [[a|e] w1]; auto.
Qed.

End Hoare.

(** ** The transaction *)

Section Transaction.
Context (host : Host).

Lemma fault_now n0 w e :
  n0 <= db_calls w -> db_fault host (db_calls w) = Some e -> faulted host n0.
Proof. intros Hn He. exists (db_calls w). by rewrite He. Qed.

Lemma healthy_not_faulted n0 : healthy host n0 -> ~ faulted host n0.
Proof. intros Hh (n & Hn & [e He]). rewrite Hh in He; done. Qed.

Lemma db_prepare_tx sql n0 c t :
  hoare (in_tx n0 c t) (db_prepare host sql) (fun _ => in_tx n0 c t) (failed_tx host n0 c).
Proof.
  intros w (Hc & Hp & Hn). unfold db_prepare, db_statement.
  destruct (db_fault host _) eqn:Hf.
  - split; [done | by eapply fault_now].
  - repeat split; simpl; [done..|lia].
Qed.

Lemma db_write_tx f n0 c t :
  hoare (in_tx n0 c t) (db_statement host (fun w => (Ok tt, write f w)))
        (fun _ => in_tx n0 c (f t)) (failed_tx host n0 c).
Proof.
  intros w (Hc & Hp & Hn). unfold db_statement.
  destruct (db_fault host _) eqn:Hf.
  - split; [done | by eapply fault_now].
  - unfold write. simpl. rewrite Hp. repeat split; simpl; [done..|lia].
Qed.

Lemma randomUUID_tx n0 c t :
  hoare (in_tx n0 c t) (crypto_randomUUID host) (fun _ => in_tx n0 c t) (failed_tx host n0 c).
Proof. by intros w (Hc & Hp & Hn). Qed.

Lemma db_exec_COMMIT_tx n0 c t :
  hoare (in_tx n0 c t) (db_exec_COMMIT host)
        (fun _ w => committed w = t /\ pending w = None /\ n0 <= db_calls w)
        (failed_tx host n0 c).
Proof.
  intros w (Hc & Hp & Hn). unfold db_exec_COMMIT, db_statement.
  destruct (db_fault host _) eqn:Hf.
  - split; [done | by eapply fault_now].
  - simpl. rewrite Hp. repeat split; simpl; lia.
Qed.

Lemma rollback_and_rethrow n0 c err0 err (Q : unit -> World -> Prop) :
  hoare (failed_tx host n0 c err0) (do! db_exec_ROLLBACK host in throw err) Q
        (failed_tx host n0 c).
Proof.
  intros w [Hc Hf]. unfold bind, db_exec_ROLLBACK, db_statement.
  destruct (db_fault host _); [done|]. simpl.
  by destruct (pending w).
Qed.

Lemma tables_eta (t : Tables) :
  mkTables (runs t) ((steps t ++ [])%list) (stories t) = t
  /\ mkTables (runs t) (steps t) ((stories t ++ [])%list) = t.
Proof. destruct t; simpl. by rewrite !app_nil_r. Qed.

Lemma insertSteps_tx workflow runId now runStatus skipPlanStep n0 c todo :
  forall stepIndex t,
    hoare (in_tx n0 c t)
          (insertSteps host workflow runId now runStatus skipPlanStep todo stepIndex)
          (fun _ w => exists rows,
             in_tx n0 c (mkTables (runs t) (steps t ++ rows) (stories t)) w /\
             step_rows_ok runId runStatus skipPlanStep todo stepIndex rows)
          (failed_tx host n0 c).
Proof.
  induction todo as [|step rest IH]; intros stepIndex t; simpl.
  - intros w Hw. simpl. exists []. split.
    + by rewrite (proj1 (tables_eta t)).
    + repeat split; constructor.
  - unfold step_rows_ok, materialized. simpl.
    destruct (skipPlanStep && (ws_id step =? "plan")%string) eqn:Hskip; simpl.
    { apply IH. }
    eapply hoare_bind; [apply randomUUID_tx|]. intros stepUuid.
    eapply hoare_bind; [apply db_write_tx|]. intros ?. simpl.
    eapply hoare_conseq; [apply IH | done | | done].
    intros ? w (rows & Htx & Hidx & Hids & Hall). simpl in Htx.
    eexists (_ :: rows). split.
    + by rewrite <- app_assoc in Htx.
    + simpl. rewrite Hidx, Hids. repeat split. constructor; [|done].
      simpl. split; [done|]. by destruct stepIndex.
Qed.

Lemma insertStories_tx runId now n0 c todo :
  forall i t,
    hoare (in_tx n0 c t) (insertStories host runId now todo i)
          (fun _ w => exists rows,
             in_tx n0 c (mkTables (runs t) (steps t) (stories t ++ rows)) w /\
             story_rows_ok runId todo i rows)
          (failed_tx host n0 c).
Proof.
  induction todo as [|s rest IH]; intros i t; simpl.
  - intros w Hw. simpl. exists []. split.
    + by rewrite (proj2 (tables_eta t)).
    + split; constructor.
  - eapply hoare_bind; [apply randomUUID_tx|]. intros uuid.
    eapply hoare_bind; [apply db_write_tx|]. intros ?. simpl.
    eapply hoare_conseq; [apply IH | done | | done].
    intros ? w (rows & Htx & Hidx & Hall). simpl in Htx.
    eexists (_ :: rows). split.
    + by rewrite <- app_assoc in Htx.
    + split; simpl; [by rewrite Hidx|]. by constructor.
Qed.

(** The body of the [try] block, from inside the transaction. *)
Lemma transaction_body_tx params workflow runId runNumber now ctx linearStories
    skipPlanStep runStatus n0 c :
  hoare (in_tx n0 c c)
    (do! db_prepare host "INSERT INTO runs (id, run_number, workflow_id, task, status, context, notify_url, created_at, updated_at) VALUES (?, ?, ?, ?, ?, ?, ?, ?, ?)" in
     do! insertRun_run host (run_row host params workflow runId runNumber now ctx runStatus) in
     do! db_prepare host "INSERT INTO steps (id, run_id, step_id, agent_id, step_index, input_template, expects, status, max_retries, type, loop_config, created_at, updated_at) VALUES (?, ?, ?, ?, ?, ?, ?, ?, ?, ?, ?, ?, ?)" in
     let! _ := insertSteps host workflow runId now runStatus skipPlanStep (wf_steps workflow) 0 in
     do! (match linearStories with
          | Some stories =>
              do! db_prepare host "INSERT INTO stories (id, run_id, story_index, story_id, title, description, acceptance_criteria, status, retry_count, max_retries, created_at, updated_at) VALUES (?, ?, ?, ?, ?, ?, ?, 'pending', 0, 2, ?, ?)" in
              insertStories host runId now stories 0
          | None => ret tt
          end) in
     db_exec_COMMIT host)
    (fun _ w =>
       pending w = None /\ n0 <= db_calls w /\
       full_run_added c (run_row host params workflow runId runNumber now ctx runStatus)
                      skipPlanStep workflow linearStories (committed w))
    (failed_tx host n0 c).
Proof.
  eapply hoare_bind; [apply db_prepare_tx|]. intros ?.
  eapply hoare_bind; [apply db_write_tx|]. intros ?. simpl.
  eapply hoare_bind; [apply db_prepare_tx|]. intros ?.
  eapply hoare_bind; [apply insertSteps_tx|]. intros ?. simpl.
  intros w (rows & Htx & Hrows). revert w Htx. fold (hoare (A := unit)).
  destruct linearStories as [backlog|].
  - eapply hoare_bind.
    { eapply hoare_bind; [apply db_prepare_tx|]. intros ?. apply insertStories_tx. }
    intros ? w (srows & Htx & Hsrows). revert w Htx. simpl. fold (hoare (A := unit)).
    eapply hoare_conseq; [apply db_exec_COMMIT_tx | done | | done].
    intros ? w (Hc & Hp & Hn). simpl in *. repeat split; [done..|].
    exists rows, srows. by rewrite Hc.
  - eapply hoare_bind; [apply (hoare_ret tt (fun _ => in_tx _ _ _))|]. intros ?.
    eapply hoare_conseq; [apply db_exec_COMMIT_tx | done | | done].
    intros ? w (Hc & Hp & Hn). simpl in *. repeat split; [done..|].
    exists rows, []. rewrite Hc, app_nil_r. done.
Qed.

Lemma createTransaction_spec params workflow runId runNumber now ctx linearStories
    skipPlanStep runStatus w0 :
  match createTransaction host params workflow runId runNumber now ctx linearStories
                          skipPlanStep runStatus w0 with
  | (Ok _, w) =>
      pending w0 = None /\ pending w = None /\ db_calls w0 <= db_calls w /\
      full_run_added (committed w0)
        (run_row host params workflow runId runNumber now ctx runStatus)
        skipPlanStep workflow linearStories (committed w)
  | (Throw _, w) =>
      committed w = committed w0 /\
      (is_Some (pending w0) \/ faulted host (db_calls w0))
  end.
Proof.
  unfold createTransaction, bind at 1.
  unfold db_exec_BEGIN, db_statement at 1.
  destruct (db_fault host (db_calls w0)) eqn:Hf.
  { split; [done|]. right. by eapply fault_now. }
  simpl. destruct (pending w0) as [t|] eqn:Hp; [by eauto|].
  pose proof (hoare_try_catch _ _ _ _ _ _
                (transaction_body_tx params workflow runId runNumber now ctx linearStories
                                     skipPlanStep runStatus (db_calls w0) (committed w0))
                (fun e => rollback_and_rethrow (db_calls w0) (committed w0) e e _)) as H.
  specialize (H (set_db (committed w0) (Some (committed w0)) (tick_db w0))).
  match type of H with ?P -> _ => assert P as HP by (repeat split; simpl; lia) end.
  specialize (H HP). clear HP.
  match goal with |- match ?x with _ => _ end => change x with
    (try_catch
       (do! db_prepare host "INSERT INTO runs (id, run_number, workflow_id, task, status, context, notify_url, created_at, updated_at) VALUES (?, ?, ?, ?, ?, ?, ?, ?, ?)" in
        do! insertRun_run host (run_row host params workflow runId runNumber now ctx runStatus) in
        do! db_prepare host "INSERT INTO steps (id, run_id, step_id, agent_id, step_index, input_template, expects, status, max_retries, type, loop_config, created_at, updated_at) VALUES (?, ?, ?, ?, ?, ?, ?, ?, ?, ?, ?, ?, ?)" in
        let! _ := insertSteps host workflow runId now runStatus skipPlanStep (wf_steps workflow) 0 in
        do! (match linearStories with
             | Some stories =>
                 do! db_prepare host "INSERT INTO stories (id, run_id, story_index, story_id, title, description, acceptance_criteria, status, retry_count, max_retries, created_at, updated_at) VALUES (?, ?, ?, ?, ?, ?, ?, 'pending', 0, 2, ?, ?)" in
                 insertStories host runId now stories 0
             | None => ret tt
             end) in
        db_exec_COMMIT host)
       (fun err => do! db_exec_ROLLBACK host in throw err)
       (set_db (committed w0) (Some (committed w0)) (tick_db w0))) in H |- * end.
  destruct (try_catch _ _ _) as [[[]|e] w].
  - destruct H as (? & ? & ?). repeat split; [done| |done]. lia.
  - destruct H as [? ?]. split; [done|]. by right.
Qed.

(** The transaction does not talk to the trigger collaborator. *)
Lemma db_statement_cron eff :
  (forall w, cron_calls (eff w).2 = cron_calls w) ->
  preserves cron_calls (db_statement host eff).
Proof.
  intros Heff w. unfold db_statement.
  destruct (db_fault host _); [done|]. by rewrite Heff.
Qed.

Lemma db_write_cron f :
  preserves cron_calls (db_statement host (fun w => (Ok tt, write f w))).
Proof.
  apply db_statement_cron. intros w. unfold write. by destruct (pending w).
Qed.

Lemma db_prepare_cron sql : preserves cron_calls (db_prepare host sql).
Proof. by apply db_statement_cron. Qed.

Lemma insertSteps_cron workflow runId now runStatus skipPlanStep todo :
  forall stepIndex,
    preserves cron_calls
      (insertSteps host workflow runId now runStatus skipPlanStep todo stepIndex).
Proof.
  induction todo as [|step rest IH]; intros stepIndex; simpl; [frame_step|].
  destruct (_ && _); [apply IH|].
  frame_step; [done|]. frame_step; [apply db_write_cron | apply IH].
Qed.

Lemma insertStories_cron runId now todo :
  forall i, preserves cron_calls (insertStories host runId now todo i).
Proof.
  induction todo as [|s rest IH]; intros i; simpl; [frame_step|].
  frame_step; [done|]. frame_step; [apply db_write_cron | apply IH].
Qed.

Lemma createTransaction_cron params workflow runId runNumber now ctx linearStories
    skipPlanStep runStatus :
  preserves cron_calls
    (createTransaction host params workflow runId runNumber now ctx linearStories
                       skipPlanStep runStatus).
Proof.
  unfold createTransaction. frame_step.
  { apply db_statement_cron. intros w. by destruct (pending w). }
  frame_step.
  - frame_step; [apply db_prepare_cron|].
    frame_step; [apply db_write_cron|].
    frame_step; [apply db_prepare_cron|].
    frame_step; [apply insertSteps_cron|].
    frame_step.
    + destruct linearStories; [|frame_step].
      frame_step; [apply db_prepare_cron | apply insertStories_cron].
    + apply db_statement_cron. intros w. by destruct (pending w).
  - frame_step; [|frame_step].
    apply db_statement_cron. intros w. by destruct (pending w).
Qed.

End Transaction.

(** ** [runWorkflow] as a whole *)

Section RunWorkflow.
Context (host : Host).

Lemma runWorkflow_unfold params w :
  runWorkflow host params w =
  match loadWorkflowSpec host (workflowId params) with
  | Throw e => (Throw e, w)
  | Ok workflow =>
      match linearPreprocessing host params workflow (initialContext params workflow)
                                (after_ids w) with
      | (Throw e, w1) => (Throw e, w1)
      | (Ok prep, w1) =>
          let runId := randomUUID host (uuid_calls w) in
          let runNumber := nextRunNumber host (view w) in
          match createTransaction host params workflow runId runNumber
                  (toISOString host (clock_reads w))
                  (blankSlate params (p_context prep))
                  (p_linearStories prep) (p_skipPlanStep prep)
                  (runStatus_of params (p_linearStories prep) (p_skipPlanStep prep)) w1 with
          | (Throw e, w2) => (Throw e, w2)
          | (Ok _, w2) =>
              match startCrons host workflow runId w2 with
              | (Throw e, w3) => (Throw e, w3)
              | (Ok _, w3) =>
                  (Ok (mkRunResult runId runNumber (wf_id workflow) (taskTitle params) Running),
                   add_log (mkLog "info" ("Run started: " ++ dq ++ taskTitle params ++ dq)
                                  [("workflowId", Some (wf_id workflow));
                                   ("runId", Some runId);
                                   ("stepId", ws_id <$> head (wf_steps workflow))])
                     (add_event (mkEvent (toISOString host (clock_reads w3)) "run.started"
                                         runId (wf_id workflow))
                        (tick_clock w3)))
              end
          end
      end
  end.
Proof.
  unfold runWorkflow, bind, lift, after_ids.
  destruct (loadWorkflowSpec host (workflowId params)) as [workflow|e]; [|reflexivity].
  cbn [Date_toISOString crypto_randomUUID].
  destruct (linearPreprocessing _ _ _ _ _) as [[prep|e] w1]; [|reflexivity].
  cbn [view tick_uuid tick_clock pending committed].
  destruct (createTransaction _ _ _ _ _ _ _ _ _ _ _) as [[[]|e] w2]; [|reflexivity].
  destruct (startCrons _ _ _ _) as [[[]|e] w3]; reflexivity.
Qed.

Lemma startCrons_spec workflow runId w :
  pending w = None ->
  match startCrons host workflow runId w with
  | (Ok _, w') =>
      ensureWorkflowCrons host (cron_calls w) workflow = None /\ committed w' = committed w
  | (Throw e, w') =>
      exists err, ensureWorkflowCrons host (cron_calls w) workflow = Some err /\
        ((committed w' = committed w /\ faulted host (db_calls w)) \/
         (e = cron_failure err /\
          committed w' = with_run_failed (toISOString host (clock_reads w)) runId (committed w)))
  end.
Proof.
  intros Hp. unfold startCrons, try_catch.
  destruct (ensureWorkflowCrons host (cron_calls w) workflow) as [err|]; [|done].
  unfold bind, db_prepare, updateRunFailed_run, db_statement, Date_toISOString. simpl.
  destruct (db_fault host (db_calls w)) eqn:Hf1.
  { exists err. split; [done|]. left. split; [done|]. by eapply fault_now. }
  simpl. destruct (db_fault host (S (db_calls w))) eqn:Hf2.
  { exists err. split; [done|]. left. split; [done|].
    exists (S (db_calls w)). rewrite Hf2. split; [lia | done]. }
  exists err. split; [done|]. right. unfold write. simpl. rewrite Hp. done.
Qed.

(** Every outcome of [runWorkflow]. *)
Lemma runWorkflow_spec params w :
  match runWorkflow host params w with
  | (Ok r, w') =>
      exists workflow prep w1,
        loadWorkflowSpec host (workflowId params) = Ok workflow /\
        linearPreprocessing host params workflow (initialContext params workflow)
                            (after_ids w) = (Ok prep, w1) /\
        ensureWorkflowCrons host (cron_calls w) workflow = None /\
        pending w = None /\
        r = mkRunResult (randomUUID host (uuid_calls w)) (nextRunNumber host (view w))
                        (wf_id workflow) (taskTitle params) Running /\
        full_run_added (committed w) (new_run_row host params w workflow prep)
                       (p_skipPlanStep prep) workflow (p_linearStories prep) (committed w')
  | (Throw e, w') =>
      committed w' = committed w \/
      exists workflow prep w1 c1 err,
        loadWorkflowSpec host (workflowId params) = Ok workflow /\
        linearPreprocessing host params workflow (initialContext params workflow)
                            (after_ids w) = (Ok prep, w1) /\
        ensureWorkflowCrons host (cron_calls w) workflow = Some err /\
        full_run_added (committed w) (new_run_row host params w workflow prep)
                       (p_skipPlanStep prep) workflow (p_linearStories prep) c1 /\
        ((committed w' = c1 /\ faulted host (db_calls w)) \/
         (e = cron_failure err /\
          exists ts, committed w' = with_run_failed ts (randomUUID host (uuid_calls w)) c1))
  end.
Proof.
  rewrite runWorkflow_unfold.
  destruct (loadWorkflowSpec host (workflowId params)) as [workflow|e]; [|by left].
  pose proof (linearPreprocessing_frame host params workflow
                (initialContext params workflow) (after_ids w)) as Hfr.
  destruct (linearPreprocessing _ _ _ _ _) as [[prep|e] w1] eqn:Hprep; simpl in Hfr.
  2: { left. by injection Hfr. }
  injection Hfr as Hc Hp Hdb Hcron Huuid Hclock. simpl.
  pose proof (createTransaction_spec host params workflow (randomUUID host (uuid_calls w))
                (nextRunNumber host (view w)) (toISOString host (clock_reads w))
                (blankSlate params (p_context prep)) (p_linearStories prep)
                (p_skipPlanStep prep)
                (runStatus_of params (p_linearStories prep) (p_skipPlanStep prep)) w1) as Htx.
  destruct (createTransaction _ _ _ _ _ _ _ _ _ _ _) as [[[]|e] w2] eqn:Hcreate.
  2: { left. destruct Htx as [-> _]. done. }
  destruct Htx as (Hp1 & Hp2 & Hn & Hfull). rewrite Hc in Hfull.
  assert (Hcron2 : cron_calls w2 = cron_calls w).
  { rewrite <- Hcron.
    pose proof (createTransaction_cron host params workflow (randomUUID host (uuid_calls w))
                  (nextRunNumber host (view w)) (toISOString host (clock_reads w))
                  (blankSlate params (p_context prep)) (p_linearStories prep)
                  (p_skipPlanStep prep)
                  (runStatus_of params (p_linearStories prep) (p_skipPlanStep prep)) w1) as Hk.
    by rewrite Hcreate in Hk. }
  pose proof (startCrons_spec workflow (randomUUID host (uuid_calls w)) w2 Hp2) as Hst.
  destruct (startCrons _ _ _ _) as [[[]|e] w3].
  - destruct Hst as [Hok Hc3]. exists workflow, prep, w1.
    rewrite Hcron2 in Hok. rewrite <- Hp, Hp1. repeat split; try done.
    simpl. by rewrite Hc3.
  - destruct Hst as (err & Herr & Hcases). right.
    exists workflow, prep, w1, (committed w2), err. rewrite Hcron2 in Herr.
    repeat split; try done.
    destruct Hcases as [[Hc3 Hf] | [He Hc3]].
    + left. split; [done|]. destruct Hf as (n & Hle & Hsome). exists n. split; [lia|done].
    + right. split; [done|]. eauto.
Qed.

(** What a successful Linear pre-processing leaves behind. *)
Lemma exportProjectStories_nonempty projectId w backlog w1 :
  exportProjectStories host projectId w = (Ok backlog, w1) -> backlog <> [].
Proof.
  unfold exportProjectStories, bind.
  destruct (linearJson _ _ _ _) as [[[[|x l]|]|e] w2]; try done.
  unfold ret. intros [= <- _] Himap.
  apply (f_equal length) in Himap. rewrite length_imap in Himap.
  by apply (sort_nonempty compare_issues (x :: l)), nil_length_inv.
Qed.

Lemma exportIssueStory_nonempty issueId w backlog w1 :
  exportIssueStory host issueId w = (Ok backlog, w1) -> backlog <> [].
Proof.
  unfold exportIssueStory, bind.
  destruct (linearJson _ _ _ _) as [[issue|e] w2]; [|done].
  by intros [= <- _].
Qed.

Lemma linearPreprocessing_ok params workflow ctx w prep w1 :
  linearPreprocessing host params workflow ctx w = (Ok prep, w1) ->
  p_skipPlanStep prep = truthy_str (storiesFrom params) /\
  (if truthy_str (storiesFrom params)
   then exists backlog, p_linearStories prep = Some backlog /\ backlog <> []
   else p_linearStories prep = None).
Proof.
  unfold linearPreprocessing.
  destruct (truthy_str (storiesFrom params)); [|by intros [= <- _]].
  destruct (negb _); [done|].
  unfold bind at 1.
  match goal with |- context [match ?m w with _ => _ end] =>
    destruct (m w) as [[backlog|e] w2] eqn:Hexport end; [|done].
  unfold bind at 1.
  destruct (ensureLabel host "wbs/nick" w2) as [[labelId|e] w3]; [|done].
  unfold bind, logger_info, ret. intros [= <- _]. simpl. split; [done|].
  exists backlog. split; [done|].
  repeat case_bool_decide.
  - by eapply exportProjectStories_nonempty.
  - by eapply exportIssueStory_nonempty.
  - done.
Qed.

Lemma runStatus_of_prep params workflow ctx w prep w1 :
  linearPreprocessing host params workflow ctx w = (Ok prep, w1) ->
  runStatus_of params (p_linearStories prep) (p_skipPlanStep prep)
  = if truthy_bool (approve params) && truthy_str (storiesFrom params)
    then Paused else Running.
Proof.
  intros Hprep. destruct (linearPreprocessing_ok _ _ _ _ _ _ Hprep) as [Hskip Hls].
  unfold runStatus_of. rewrite Hskip.
  destruct (truthy_bool (approve params)); [|done]. simpl.
  destruct (truthy_str (storiesFrom params)); [by rewrite orb_true_r|].
  rewrite Hls, orb_false_r. by case_bool_decide as H; [destruct H|].
Qed.

End RunWorkflow.

(** ** Rows and their positions *)

Lemma index_of_seq {A} (f : A -> nat) (rows : list A) :
  forall start i x,
    map f rows = seq start (length rows) -> rows !! i = Some x -> f x = start + i.
Proof.
  induction rows as [|r rows IH]; intros start i x Hmap Hi; [done|].
  simpl in Hmap. injection Hmap as Hr Hrest.
  destruct i as [|i]; simpl in Hi.
  - injection Hi as <-. lia.
  - rewrite (IH (S start) i x Hrest Hi). lia.
Qed.

(** ** Successful run creation *)

(** What a returning [runWorkflow] has committed, in terms of its inputs. *)
Lemma runWorkflow_created (host : Host) params w r w' :
  runWorkflow host params w = (Ok r, w') ->
  exists workflow row rows srows,
    loadWorkflowSpec host (workflowId params) = Ok workflow /\
    committed w' = mkTables (runs (committed w) ++ [row]) (steps (committed w) ++ rows)
                            (stories (committed w) ++ srows) /\
    run_id row = res_id r /\
    res_status r = Running /\
    run_status row = (if truthy_bool (approve params) && truthy_str (storiesFrom params)
                      then Paused else Running) /\
    step_rows_ok (res_id r) (run_status row) (truthy_str (storiesFrom params))
                 (wf_steps workflow) 0 rows /\
    (srows <> [] <-> truthy_str (storiesFrom params) = true).
Proof.
  intros Hrun. pose proof (runWorkflow_spec host params w) as H. rewrite Hrun in H.
  destruct H as (workflow & prep & w1 & Hload & Hprep & _ & _ & -> & Hfull).
  destruct Hfull as (rows & srows & Hc & Hrows & Hsrows).
  destruct (linearPreprocessing_ok _ _ _ _ _ _ _ Hprep) as [Hskip Hls].
  pose proof (runStatus_of_prep _ _ _ _ _ _ _ Hprep) as Hst.
  exists workflow, (new_run_row host params w workflow prep), rows, srows.
  simpl in *. rewrite Hst in Hrows |- *. rewrite Hskip in Hrows.
  split; [done|]. split; [done|]. split; [done|]. split; [done|].
  split; [done|]. split; [done|]. split.
  - intros Hne. destruct (truthy_str (storiesFrom params)); [done|].
    rewrite Hls in Hsrows. done.
  - intros Ht. rewrite Ht in Hls. destruct Hls as (backlog & Hb & Hne).
    rewrite Hb in Hsrows. destruct Hsrows as [_ Hall].
    intros ->. apply Forall2_nil_inv_r in Hall. done.
Qed.

(** [runWorkflow] does return: when the workflow loads, the Linear
    pre-processing succeeds, no transaction is open, the database does not
    fail and the crons can be ensured. *)
Lemma runWorkflow_returns (host : Host) params w workflow prep w1 :
  loadWorkflowSpec host (workflowId params) = Ok workflow ->
  linearPreprocessing host params workflow (initialContext params workflow)
                      (after_ids w) = (Ok prep, w1) ->
  pending w = None ->
  healthy host (db_calls w) ->
  ensureWorkflowCrons host (cron_calls w) workflow = None ->
  exists w',
    runWorkflow host params w
    = (Ok (mkRunResult (randomUUID host (uuid_calls w)) (nextRunNumber host (view w))
                       (wf_id workflow) (taskTitle params) Running), w').
Proof.
  intros Hload Hprep Hp Hhealthy Hcron.
  pose proof (linearPreprocessing_frame host params workflow
                (initialContext params workflow) (after_ids w)) as Hfr.
  rewrite Hprep in Hfr. simpl in Hfr.
  injection Hfr as Hc1 Hp1 Hdb1 Hcron1 _ _.
  rewrite runWorkflow_unfold, Hload, Hprep. simpl.
  pose proof (createTransaction_spec host params workflow (randomUUID host (uuid_calls w))
                (nextRunNumber host (view w)) (toISOString host (clock_reads w))
                (blankSlate params (p_context prep)) (p_linearStories prep)
                (p_skipPlanStep prep)
                (runStatus_of params (p_linearStories prep) (p_skipPlanStep prep)) w1) as Htx.
  pose proof (createTransaction_cron host params workflow (randomUUID host (uuid_calls w))
                (nextRunNumber host (view w)) (toISOString host (clock_reads w))
                (blankSlate params (p_context prep)) (p_linearStories prep)
                (p_skipPlanStep prep)
                (runStatus_of params (p_linearStories prep) (p_skipPlanStep prep)) w1) as Hk.
  destruct (createTransaction _ _ _ _ _ _ _ _ _ _ _) as [[[]|e] w2].
  2: { destruct Htx as [_ [[t Ht] | Hf]].
       - rewrite Hp1, Hp in Ht. done.
       - rewrite Hdb1 in Hf. by apply healthy_not_faulted in Hf. }
  destruct Htx as (_ & Hp2 & _ & _). simpl in Hk.
  pose proof (startCrons_spec host workflow (randomUUID host (uuid_calls w)) w2 Hp2) as Hst.
  rewrite Hk, Hcron1 in Hst.
  destruct (startCrons _ _ _ _) as [[[]|e] w3]; [by eexists|].
  destruct Hst as (err & Herr & _). congruence.
Qed.

(** C1: a run that [runWorkflow] creates is persisted as [paused] exactly
    when the approval flag is set and a story backlog was supplied
    ([--stories-from], which is also exactly when stories are persisted with
    the run), and as [running] in every other case. *)
Theorem runWorkflow_run_status (host : Host) params w r w' :
  runWorkflow host params w = (Ok r, w') ->
  exists row srows,
    runs (committed w') = (runs (committed w) ++ [row])%list /\
    stories (committed w') = (stories (committed w) ++ srows)%list /\
    run_id row = res_id r /\
    (srows <> [] <-> truthy_str (storiesFrom params) = true) /\
    (run_status row = Paused <->
       truthy_bool (approve params) = true /\ truthy_str (storiesFrom params) = true) /\
    (run_status row = Running <->
       ~ (truthy_bool (approve params) = true /\ truthy_str (storiesFrom params) = true)).
Proof.
  intros Hrun.
  destruct (runWorkflow_created host params w r w' Hrun)
    as (workflow & row & rows & srows & _ & Hc & Hid & _ & Hst & _ & Hsrows).
  exists row, srows. rewrite Hc, Hst. simpl.
  split; [done|]. split; [done|]. split; [done|]. split; [done|].
  destruct (truthy_bool (approve params)), (truthy_str (storiesFrom params));
    simpl; intuition congruence.
Qed.

(** C2: a created run has one step row per materialised step of the
    workflow, in order (so a first row exists whenever a step is
    materialised); the first of them is [pending] when the run is [running]
    and [waiting] when it is [paused]; every later one is [waiting]. *)
Theorem runWorkflow_initial_step_status (host : Host) params w r w' :
  runWorkflow host params w = (Ok r, w') ->
  exists workflow row rows,
    loadWorkflowSpec host (workflowId params) = Ok workflow /\
    runs (committed w') = (runs (committed w) ++ [row])%list /\
    steps (committed w') = (steps (committed w) ++ rows)%list /\
    run_id row = res_id r /\
    Forall (fun s => step_run_id s = res_id r) rows /\
    (run_status row = Running \/ run_status row = Paused) /\
    length rows
    = length (materialized (truthy_str (storiesFrom params)) (wf_steps workflow)) /\
    (forall i step,
       materialized (truthy_str (storiesFrom params)) (wf_steps workflow) !! i = Some step ->
       exists s,
         rows !! i = Some s /\
         step_step_id s = ws_id step /\
         (i = 0 -> run_status row = Running -> step_status s = StepPending) /\
         (i = 0 -> run_status row = Paused -> step_status s = StepWaiting) /\
         (0 < i -> step_status s = StepWaiting)) /\
    (run_status row = Running -> forall s, rows !! 0 = Some s -> step_status s = StepPending) /\
    (run_status row = Paused -> forall s, rows !! 0 = Some s -> step_status s = StepWaiting) /\
    (forall i s, rows !! S i = Some s -> step_status s = StepWaiting).
Proof.
  intros Hrun.
  destruct (runWorkflow_created host params w r w' Hrun)
    as (workflow & row & rows & srows & Hload & Hc & Hid & _ & Hst & Hrows & _).
  destruct Hrows as (Hidx & Hids & Hall).
  assert (Hat : forall i s, rows !! i = Some s ->
                  step_status s = initial_step_status (run_status row) i).
  { intros i s Hi. rewrite Forall_forall in Hall.
    destruct (Hall s) as [_ ->]; [by eapply list_elem_of_lookup_2|].
    by rewrite (index_of_seq step_index rows 0 i s Hidx Hi). }
  assert (Hlen : length rows
                 = length (materialized (truthy_str (storiesFrom params))
                                        (wf_steps workflow))).
  { by rewrite <- (length_map step_step_id rows), Hids, length_map. }
  exists workflow, row, rows. rewrite Hc. simpl.
  split; [done|]. split; [done|]. split; [done|]. split; [done|].
  split; [eapply Forall_impl; [apply Hall|]; by intros s [? _]|].
  split; [rewrite Hst; destruct (_ && _); auto|].
  split; [done|]. split; [|repeat split].
  - intros i step Hi.
    destruct (lookup_lt_is_Some_2 rows i) as [s Hs].
    { rewrite Hlen. by eapply lookup_lt_Some. }
    exists s. split; [done|]. split.
    + assert (Hm : map step_step_id rows !! i = Some (step_step_id s))
        by (by rewrite list_lookup_fmap, Hs).
      rewrite Hids, list_lookup_fmap, Hi in Hm. by injection Hm.
    + rewrite (Hat i s Hs). repeat split.
      * intros -> Hr. by rewrite Hr.
      * intros -> Hr. by rewrite Hr.
      * intros Hpos. destruct i; [lia|done].
  - intros Hr s Hs. rewrite (Hat 0 s Hs), Hr. done.
  - intros Hr s Hs. rewrite (Hat 0 s Hs), Hr. done.
  - intros i s Hs. by rewrite (Hat (S i) s Hs).
Qed.

(** C7: the step rows of a created run are numbered 0, 1, 2, ... without
    gaps, also when the [plan] step of the specification is left out because
    stories were supplied. *)
Theorem runWorkflow_step_indices_contiguous (host : Host) params w r w' :
  runWorkflow host params w = (Ok r, w') ->
  exists workflow rows,
    loadWorkflowSpec host (workflowId params) = Ok workflow /\
    steps (committed w') = (steps (committed w) ++ rows)%list /\
    Forall (fun s => step_run_id s = res_id r) rows /\
    map step_step_id rows
    = map ws_id (materialized (truthy_str (storiesFrom params)) (wf_steps workflow)) /\
    map step_index rows = seq 0 (length rows) /\
    (forall i s, rows !! i = Some s -> step_index s = i).
Proof.
  intros Hrun.
  destruct (runWorkflow_created host params w r w' Hrun)
    as (workflow & row & rows & srows & Hload & Hc & _ & _ & _ & Hrows & _).
  destruct Hrows as (Hidx & Hids & Hall).
  exists workflow, rows. rewrite Hc. simpl. repeat split; try done.
  - eapply Forall_impl; [apply Hall|]. by intros s [? _].
  - intros i s Hi. by rewrite (index_of_seq step_index rows 0 i s Hidx Hi).
Qed.

(** C9: whenever [runWorkflow] returns, the status it reports is [running];
    when the approval flag is set and stories were supplied, the run row it
    just committed is [paused], so the two disagree. *)
Theorem runWorkflow_returns_running (host : Host) params w r w' :
  runWorkflow host params w = (Ok r, w') ->
  res_status r = Running /\
  (truthy_bool (approve params) = true -> truthy_str (storiesFrom params) = true ->
   exists row,
     row ∈ runs (committed w') /\ run_id row = res_id r /\
     run_status row = Paused /\ run_status row <> res_status r).
Proof.
  intros Hrun.
  destruct (runWorkflow_created host params w r w' Hrun)
    as (workflow & row & rows & srows & _ & Hc & Hid & Hres & Hst & _ & _).
  split; [done|]. intros Ha Hs. rewrite Ha, Hs in Hst. simpl in Hst.
  exists row. rewrite Hc, Hres, Hst. simpl. repeat split; try done.
  apply elem_of_app. right. by apply list_elem_of_singleton.
Qed.

(** ** Atomicity *)

Section Rollback.
Context (host : Host).

Lemma db_statement_open eff n0 :
  (forall w, is_Some (pending w) ->
     exists a w', eff w = (Ok a, w') /\ is_Some (pending w') /\ db_calls w' = db_calls w) ->
  hoare (open_tx_at n0) (db_statement host eff) (fun _ => open_tx_at n0)
        (failed_open host n0).
Proof.
  intros Heff w [Hp Hn]. unfold db_statement.
  destruct (db_fault host (db_calls w)) as [e|] eqn:Hf.
  - split; [done|]. exists (db_calls w). done.
  - destruct (Heff (tick_db w) Hp) as (a & w' & -> & Hp' & Hn').
    split; [done|]. rewrite Hn'. simpl. lia.
Qed.

Lemma db_prepare_open sql n0 :
  hoare (open_tx_at n0) (db_prepare host sql) (fun _ => open_tx_at n0) (failed_open host n0).
Proof. apply db_statement_open. intros w Hp. by exists tt, w. Qed.

Lemma db_write_open f n0 :
  hoare (open_tx_at n0) (db_statement host (fun w => (Ok tt, write f w)))
        (fun _ => open_tx_at n0) (failed_open host n0).
Proof.
  apply db_statement_open. intros w [t Hp]. eexists tt, _. split; [reflexivity|].
  unfold write. rewrite Hp. done.
Qed.

Lemma randomUUID_open n0 :
  hoare (open_tx_at n0) (crypto_randomUUID host) (fun _ => open_tx_at n0)
        (failed_open host n0).
Proof. by intros w Hw. Qed.

Lemma insertSteps_open workflow runId now runStatus skipPlanStep n0 todo :
  forall stepIndex,
    hoare (open_tx_at n0)
          (insertSteps host workflow runId now runStatus skipPlanStep todo stepIndex)
          (fun _ => open_tx_at n0) (failed_open host n0).
Proof.
  induction todo as [|step rest IH]; intros stepIndex; simpl.
  - by intros w Hw.
  - destruct (skipPlanStep && (ws_id step =? "plan")%string); [apply IH|].
    eapply hoare_bind; [apply randomUUID_open|]. intros ?.
    eapply hoare_bind; [apply db_write_open|]. intros ?. apply IH.
Qed.

Lemma insertStories_open runId now n0 todo :
  forall i,
    hoare (open_tx_at n0) (insertStories host runId now todo i)
          (fun _ => open_tx_at n0) (failed_open host n0).
Proof.
  induction todo as [|story rest IH]; intros i; simpl.
  - by intros w Hw.
  - eapply hoare_bind; [apply randomUUID_open|]. intros ?.
    eapply hoare_bind; [apply db_write_open|]. intros ?. apply IH.
Qed.

Lemma db_exec_COMMIT_open n0 :
  hoare (open_tx_at n0) (db_exec_COMMIT host) (fun _ _ => True) (failed_open host n0).
Proof.
  intros w [[t Hp] Hn]. unfold db_exec_COMMIT, db_statement.
  destruct (db_fault host (db_calls w)) as [e|] eqn:Hf.
  - split; [by exists t|]. exists (db_calls w). done.
  - simpl. by rewrite Hp.
Qed.

(** The handler: ROLLBACK, then rethrow. *)
Lemma rollback_closes n0 e (Q : unit -> World -> Prop) :
  hoare (failed_open host (S n0) e) (do! db_exec_ROLLBACK host in throw e) Q
        (fun _ w' => pending w' = None \/ rollback_failed host n0 w').
Proof.
  intros w ([t Hp] & k & Hk & Hf & Hn). unfold bind, db_exec_ROLLBACK, db_statement.
  rewrite Hn. destruct (db_fault host (S k)) as [e'|] eqn:Hf'.
  - right. exists k. simpl. rewrite Hf, Hf', Hn. repeat split; [lia|done..].
  - simpl. rewrite Hp. by left.
Qed.

(** A failing transaction leaves no transaction open that was not open
    before, unless the ROLLBACK itself fails. *)
Lemma createTransaction_rollback params workflow runId runNumber now ctx linearStories
    skipPlanStep runStatus w :
  match createTransaction host params workflow runId runNumber now ctx linearStories
                          skipPlanStep runStatus w with
  | (Ok _, _) => True
  | (Throw _, w') => pending w' = pending w \/ rollback_failed host (db_calls w) w'
  end.
Proof.
  unfold createTransaction, bind at 1.
  unfold db_exec_BEGIN, db_statement at 1.
  destruct (db_fault host (db_calls w)) eqn:Hf; [by left|].
  simpl. destruct (pending w) as [t|] eqn:Hp; [left; simpl; done|].
  match goal with |- match try_catch ?body ?h ?w0 with _ => _ end =>
    assert (Hbody : hoare (open_tx_at (S (db_calls w))) body (fun _ _ => True)
                          (failed_open host (S (db_calls w))));
    [|pose proof (hoare_try_catch _ _ _ _ _ _ Hbody
                    (fun e => rollback_closes (db_calls w) e _) w0) as H]
  end.
  { eapply hoare_bind; [apply db_prepare_open|]. intros ?.
    eapply hoare_bind; [apply db_write_open|]. intros ?.
    eapply hoare_bind; [apply db_prepare_open|]. intros ?.
    eapply hoare_bind; [apply insertSteps_open|]. intros ?.
    eapply hoare_bind; [|intros ?; apply db_exec_COMMIT_open].
    destruct linearStories as [backlog|]; [|by intros w0 Hw0].
    eapply hoare_bind; [apply db_prepare_open|]. intros ?. apply insertStories_open. }
  match type of H with ?P -> _ => assert P as HP by (split; simpl; [by eexists | lia]) end.
  specialize (H HP).
  destruct (try_catch _ _ _) as [[[]|e] w']; [done|].
  destruct H as [H|H]; [by left | by right].
Qed.

Lemma startCrons_pending workflow runId w :
  pending w = None -> pending (startCrons host workflow runId w).2 = None.
Proof.
  unfold startCrons, try_catch. intros Hp.
  destruct (ensureWorkflowCrons host _ _); [|done].
  unfold bind, db_prepare, updateRunFailed_run, db_statement, Date_toISOString. simpl.
  destruct (db_fault host (db_calls w)); [done|]. simpl.
  destruct (db_fault host (S (db_calls w))); [done|]. simpl.
  unfold write. simpl. by rewrite Hp.
Qed.

(** Every outcome of [runWorkflow], with what is left open. *)
Lemma runWorkflow_outcome params w :
  match runWorkflow host params w with
  | (Ok r, w') =>
      exists workflow prep w1,
        loadWorkflowSpec host (workflowId params) = Ok workflow /\
        linearPreprocessing host params workflow (initialContext params workflow)
                            (after_ids w) = (Ok prep, w1) /\
        pending w' = None /\
        full_run_added (committed w) (new_run_row host params w workflow prep)
                       (p_skipPlanStep prep) workflow (p_linearStories prep) (committed w')
  | (Throw e, w') =>
      (committed w' = committed w /\
       (pending w' = pending w \/ rollback_failed host (db_calls w) w')) \/
      exists workflow prep w1 c1 err,
        loadWorkflowSpec host (workflowId params) = Ok workflow /\
        linearPreprocessing host params workflow (initialContext params workflow)
                            (after_ids w) = (Ok prep, w1) /\
        ensureWorkflowCrons host (cron_calls w) workflow = Some err /\
        pending w' = None /\
        full_run_added (committed w) (new_run_row host params w workflow prep)
                       (p_skipPlanStep prep) workflow (p_linearStories prep) c1 /\
        (committed w' = c1 \/
         exists ts, committed w' = with_run_failed ts (randomUUID host (uuid_calls w)) c1)
  end.
Proof.
  pose proof (runWorkflow_spec host params w) as Hspec. revert Hspec.
  rewrite runWorkflow_unfold.
  destruct (loadWorkflowSpec host (workflowId params)) as [workflow|e];
    [|intros _; left; split; [done | by left]].
  pose proof (linearPreprocessing_frame host params workflow
                (initialContext params workflow) (after_ids w)) as Hfr.
  destruct (linearPreprocessing _ _ _ _ _) as [[prep|e] w1] eqn:Hprep; simpl in Hfr.
  2: { intros _. left. injection Hfr as Hc Hp Hdb Hcron Huuid Hclock. split; [done|]. by left. }
  injection Hfr as Hc Hp Hdb Hcron Huuid Hclock. cbn zeta.
  pose proof (createTransaction_spec host params workflow (randomUUID host (uuid_calls w))
                (nextRunNumber host (view w)) (toISOString host (clock_reads w))
                (blankSlate params (p_context prep)) (p_linearStories prep)
                (p_skipPlanStep prep)
                (runStatus_of params (p_linearStories prep) (p_skipPlanStep prep)) w1) as Htx.
  pose proof (createTransaction_rollback params workflow (randomUUID host (uuid_calls w))
                (nextRunNumber host (view w)) (toISOString host (clock_reads w))
                (blankSlate params (p_context prep)) (p_linearStories prep)
                (p_skipPlanStep prep)
                (runStatus_of params (p_linearStories prep) (p_skipPlanStep prep)) w1) as Hrb.
  destruct (createTransaction _ _ _ _ _ _ _ _ _ _ _) as [[[]|e] w2].
  2: { intros _. left. destruct Htx as [-> _]. split; [done|]. by rewrite <- Hp, <- Hdb. }
  destruct Htx as (Hp1 & Hp2 & _ & _).
  pose proof (startCrons_pending workflow (randomUUID host (uuid_calls w)) w2 Hp2) as Hp3.
  destruct (startCrons _ _ _ _) as [[[]|e] w3]; simpl in Hp3.
  - intros (wf & prep' & w1' & Hload & Hprep' & _ & _ & _ & Hfull).
    exists wf, prep', w1'. done.
  - intros [Hsame | (wf & prep' & w1' & c1 & err & Hload & Hprep' & Herr & Hfull & Hcases)].
    + left. split; [done|]. left. rewrite Hp3. simpl in Hp. congruence.
    + right. exists wf, prep', w1', c1, err. repeat split; try done.
      destruct Hcases as [[? _] | [_ ?]]; auto.
Qed.

End Rollback.

(** C3: the run, its steps and its stories are written in one transaction.
    When the transaction returns, the store holds the complete set of rows
    and no transaction is open.  When it throws, whatever database call
    failed, the store is as it was and the inserts are rolled back (no
    transaction is left open that was not open before), unless the ROLLBACK
    itself fails as well, which leaves the inserts uncommitted in the open
    transaction.  The same holds for [runWorkflow] as a whole, where the
    complete set is the one of the loaded workflow and the pre-processed
    backlog, with the run marked failed when only the cron request failed. *)
Theorem createTransaction_atomic (host : Host) params workflow runId runNumber now ctx
    linearStories skipPlanStep runStatus w :
  match createTransaction host params workflow runId runNumber now ctx linearStories
                          skipPlanStep runStatus w with
  | (Ok _, w') =>
      pending w' = None /\
      full_run_added (committed w)
        (run_row host params workflow runId runNumber now ctx runStatus)
        skipPlanStep workflow linearStories (committed w')
  | (Throw _, w') =>
      committed w' = committed w /\
      (pending w' = pending w \/ rollback_failed host (db_calls w) w')
  end /\
  match runWorkflow host params w with
  | (Ok _, w') =>
      exists wf prep w1,
        loadWorkflowSpec host (workflowId params) = Ok wf /\
        linearPreprocessing host params wf (initialContext params wf) (after_ids w)
        = (Ok prep, w1) /\
        pending w' = None /\
        full_run_added (committed w) (new_run_row host params w wf prep)
                       (p_skipPlanStep prep) wf (p_linearStories prep) (committed w')
  | (Throw _, w') =>
      (committed w' = committed w /\
       (pending w' = pending w \/ rollback_failed host (db_calls w) w')) \/
      exists wf prep w1 c1 err,
        loadWorkflowSpec host (workflowId params) = Ok wf /\
        linearPreprocessing host params wf (initialContext params wf) (after_ids w)
        = (Ok prep, w1) /\
        ensureWorkflowCrons host (cron_calls w) wf = Some err /\
        pending w' = None /\
        full_run_added (committed w) (new_run_row host params w wf prep)
                       (p_skipPlanStep prep) wf (p_linearStories prep) c1 /\
        (committed w' = c1 \/
         exists ts, committed w' = with_run_failed ts (randomUUID host (uuid_calls w)) c1)
  end.
Proof.
  split.
  - pose proof (createTransaction_spec host params workflow runId runNumber now ctx
                  linearStories skipPlanStep runStatus w) as H.
    pose proof (createTransaction_rollback host params workflow runId runNumber now ctx
                  linearStories skipPlanStep runStatus w) as Hrb.
    destruct (createTransaction _ _ _ _ _ _ _ _ _ _ _) as [[[]|e] w'].
    + by destruct H as (_ & ? & _ & ?).
    + by destruct H as [? _].
  - pose proof (runWorkflow_outcome host params w) as H.
    destruct (runWorkflow host params w) as [[r|e] w']; exact H.
Qed.

(** ** Stories *)

(** C6: the stories of a supplied backlog are persisted in backlog order,
    the row at position [i] carrying story index [i], status [pending],
    retry count 0 and the same retry ceiling 2 for every story (a
    [LinearStory] has no field to override it). *)
Theorem createTransaction_persists_backlog (host : Host) params workflow runId runNumber
    now ctx backlog skipPlanStep runStatus w w' :
  createTransaction host params workflow runId runNumber now ctx (Some backlog)
                    skipPlanStep runStatus w = (Ok tt, w') ->
  exists srows,
    stories (committed w') = (stories (committed w) ++ srows)%list /\
    length srows = length backlog /\
    forall i s, backlog !! i = Some s ->
      exists row,
        srows !! i = Some row /\
        story_index row = i /\
        story_story_id row = ls_id s /\
        story_title row = ls_title s /\
        story_description row = ls_description s /\
        story_run_id row = runId /\
        story_status row = StoryPending /\
        story_retry_count row = 0%Z /\
        story_max_retries row = 2%Z.
Proof.
  intros Hrun.
  pose proof (createTransaction_spec host params workflow runId runNumber now ctx
                (Some backlog) skipPlanStep runStatus w) as H.
  rewrite Hrun in H. destruct H as (_ & _ & _ & rows & srows & Hc & _ & Hidx & Hall).
  exists srows. rewrite Hc. simpl. split; [done|].
  split; [symmetry; by eapply Forall2_length|].
  intros i s Hi.
  destruct (Forall2_lookup_l _ _ _ _ _ Hall Hi) as (row & Hrow & Hprops).
  exists row. split; [done|].
  split; [by rewrite (index_of_seq story_index srows 0 i row Hidx Hrow)|].
  done.
Qed.

(** ** Failure of the trigger collaborator *)

Lemma mark_failed_id ts id r : run_id (mark_failed ts id r) = run_id r.
Proof. unfold mark_failed. by destruct (run_id r =? id)%string. Qed.

Lemma mark_failed_status ts id r :
  run_id r = id -> run_status (mark_failed ts id r) = Failed.
Proof. intros <-. unfold mark_failed. by rewrite String.eqb_refl. Qed.

(** C4: when the request to ensure the workflow's crons fails, [runWorkflow]
    never returns a result; and unless the database itself fails, it throws
    the cron failure to the caller after the committed run row has been set
    to [failed]. *)
Theorem runWorkflow_cron_failure (host : Host) params w workflow err :
  loadWorkflowSpec host (workflowId params) = Ok workflow ->
  ensureWorkflowCrons host (cron_calls w) workflow = Some err ->
  (forall r w', runWorkflow host params w <> (Ok r, w')) /\
  (forall prep w1,
     pending w = None ->
     healthy host (db_calls w) ->
     linearPreprocessing host params workflow (initialContext params workflow)
                         (after_ids w) = (Ok prep, w1) ->
     exists w' c1 ts,
       runWorkflow host params w = (Throw (cron_failure err), w') /\
       full_run_added (committed w) (new_run_row host params w workflow prep)
                      (p_skipPlanStep prep) workflow (p_linearStories prep) c1 /\
       committed w' = with_run_failed ts (randomUUID host (uuid_calls w)) c1 /\
       (exists row, row ∈ runs (committed w') /\
                    run_id row = randomUUID host (uuid_calls w) /\
                    run_status row = Failed) /\
       Forall (fun r => run_id r = randomUUID host (uuid_calls w) -> run_status r = Failed)
              (runs (committed w'))).
Proof.
  intros Hload Herr. split.
  { intros r w' Hrun. pose proof (runWorkflow_spec host params w) as H.
    rewrite Hrun in H. destruct H as (wf & _ & _ & Hload' & _ & Hnone & _).
    congruence. }
  intros prep w1 Hp Hhealthy Hprep.
  pose proof (linearPreprocessing_frame host params workflow
                (initialContext params workflow) (after_ids w)) as Hfr.
  rewrite Hprep in Hfr. simpl in Hfr.
  injection Hfr as Hc1 Hp1 Hdb1 Hcron1 _ _.
  rewrite runWorkflow_unfold, Hload, Hprep. simpl.
  pose proof (createTransaction_spec host params workflow (randomUUID host (uuid_calls w))
                (nextRunNumber host (view w)) (toISOString host (clock_reads w))
                (blankSlate params (p_context prep)) (p_linearStories prep)
                (p_skipPlanStep prep)
                (runStatus_of params (p_linearStories prep) (p_skipPlanStep prep)) w1) as Htx.
  pose proof (createTransaction_cron host params workflow (randomUUID host (uuid_calls w))
                (nextRunNumber host (view w)) (toISOString host (clock_reads w))
                (blankSlate params (p_context prep)) (p_linearStories prep)
                (p_skipPlanStep prep)
                (runStatus_of params (p_linearStories prep) (p_skipPlanStep prep)) w1) as Hk.
  destruct (createTransaction _ _ _ _ _ _ _ _ _ _ _) as [[[]|e] w2].
  2: { destruct Htx as [_ [[t Ht] | Hf]].
       - rewrite Hp1, Hp in Ht. done.
       - rewrite Hdb1 in Hf. by apply healthy_not_faulted in Hf. }
  destruct Htx as (_ & Hp2 & Hn & Hfull). rewrite Hc1 in Hfull. simpl in Hk.
  pose proof (startCrons_spec host workflow (randomUUID host (uuid_calls w)) w2 Hp2) as Hst.
  rewrite Hk, Hcron1 in Hst.
  destruct (startCrons _ _ _ _) as [[[]|e] w3].
  { destruct Hst as [Hnone _]. congruence. }
  destruct Hst as (err' & Herr' & [[_ Hf] | [-> Hc3]]).
  { exfalso. eapply healthy_not_faulted; [apply Hhealthy|].
    destruct Hf as (n & Hle & Hsome). exists n. split; [lia | done]. }
  assert (err' = err) as -> by congruence.
  eexists w3, (committed w2), _. split; [done|]. split; [done|]. split; [done|].
  rewrite Hc3. destruct Hfull as (rows & srows & -> & _). simpl. split.
  - eexists. split.
    + rewrite map_app. apply elem_of_app. right. by apply list_elem_of_singleton.
    + split; [by rewrite mark_failed_id | by apply mark_failed_status].
  - apply Forall_forall. intros r Hr.
    apply list_elem_of_In, in_map_iff in Hr. destruct Hr as (r0 & <- & _).
    rewrite mark_failed_id. apply mark_failed_status.
Qed.

(** ** The initial context *)

(** C5, as the code has it: the initial context holds every entry of the
    specification's default context; a non-empty [--repo] replaces the entry
    [repo]; and the task description is stored under [task] unless the
    specification's context has an entry [task] of its own, which then
    stays. *)
Theorem initialContext_lookup params workflow (k : string) :
  initialContext params workflow !! k =
  if truthy_str (repo params) && bool_decide (k = "repo")
  then repo params
  else match wf_context workflow !! k with
       | Some v => Some v
       | None => if bool_decide (k = "task") then Some (taskTitle params) else None
       end.
Proof.
  assert (Hbase : (wf_context workflow ∪ {[ "task" := taskTitle params ]}) !! k =
                  match wf_context workflow !! k with
                  | Some v => Some v
                  | None => if bool_decide (k = "task") then Some (taskTitle params) else None
                  end).
  { rewrite lookup_union.
    destruct (wf_context workflow !! k) as [v|] eqn:Hk; simpl.
    - by destruct ({[ "task" := taskTitle params ]} !! k).
    - case_bool_decide as Ht.
      + subst k. by rewrite lookup_singleton_eq.
      + by rewrite lookup_singleton_ne. }
  unfold initialContext, truthy_str.
  destruct (repo params) as [r|] eqn:Hrepo; [|done].
  destruct (negb (r =? "")); cbn [andb default]; [|done].
  destruct (decide (k = "repo")) as [->|Hk].
  - by rewrite lookup_insert_eq.
  - rewrite lookup_insert_ne, (bool_decide_eq_false_2 _ Hk); done.
Qed.

(** C5 as stated fails: a specification whose default context has an entry
    [task] keeps it, and the task description is not stored. *)
Lemma initialContext_task_overridden :
  initialContext (mkParams "feature-dev" "Add login" None None None None None None)
                 (mkWorkflowSpec "feature-dev" [] {[ "task" := "default task" ]} None)
    !! "task"
  <> Some (taskTitle (mkParams "feature-dev" "Add login" None None None None None None)).
Proof. vm_compute. discriminate. Qed.

(** ** The status sync hooks *)


(** * The model on concrete inputs *)

Lemma exportProjectStories_sorted_backlog_witness :
  exists sorted stories,
    (exportProjectStories import_host "PROJ" empty_world).1 = Ok stories /\
    sorted ≡ₚ demo_issues /\
    StronglySorted issue_before sorted /\
    (forall i j a b,
       i < j -> sorted !! i = Some a -> sorted !! j = Some b ->
       (li_priority a = number_of_Z 0 ->
        li_priority b = number_of_Z 0 \/ (number_of_Z 5 <= li_priority b)%Qc) /\
       (li_priority a <> number_of_Z 0 -> li_priority b <> number_of_Z 0 ->
        (li_priority a <= li_priority b)%Qc) /\
       (li_priority a = li_priority b -> (li_sortOrder a <= li_sortOrder b)%Qc)) /\
    length stories = length sorted /\
    (forall i issue, sorted !! i = Some issue ->
       exists story, stories !! i = Some story /\
         ls_id story = story_id_of_index i /\
         ls_linearIssueId story = li_id issue /\
         ls_linearIdentifier story = li_identifier issue) /\
    story_id_of_index 0 = "S01" /\ story_id_of_index 1 = "S02" /\
    story_id_of_index 9 = "S10" /\
    (forall i, i < 9 -> story_id_of_index i = "S0" ++ String_of_nat (i + 1)).
Proof.
  exact (exportProjectStories_sorted_backlog import_host "PROJ" "[]" (Some demo_issues)
           empty_world eq_refl eq_refl).
Defined.

Example exportProjectStories_demo :
  (exportProjectStories import_host "PROJ" empty_world).1
  = Ok [ story_of_issue import_host "S01" (demo_issue "c" 1 9);
         story_of_issue import_host "S02" (demo_issue "d" 2 3);
         story_of_issue import_host "S03" (demo_issue "b" 2 7);
         story_of_issue import_host "S04" (demo_issue "a" 0 1) ].
Proof. vm_compute. reflexivity. Qed.

Example exportProjectStories_empty_project :
  (exportProjectStories (demo_host true true None (Some [])) "PROJ" empty_world).1
  = Throw (Error "No issues found in Linear project PROJ").
Proof. reflexivity. Qed.

Lemma runWorkflow_run_status_witness :
  exists row srows,
    runs (committed (runWorkflow import_host import_params empty_world).2) = [row] /\
    stories (committed (runWorkflow import_host import_params empty_world).2) = srows /\
    run_id row = "uuid-0" /\
    (srows <> [] <-> truthy_str (storiesFrom import_params) = true) /\
    (run_status row = Paused <->
       truthy_bool (approve import_params) = true /\
       truthy_str (storiesFrom import_params) = true) /\
    (run_status row = Running <->
       ~ (truthy_bool (approve import_params) = true /\
          truthy_str (storiesFrom import_params) = true)).
Proof.
  apply (runWorkflow_run_status import_host import_params empty_world
           (mkRunResult "uuid-0" 1 "feature-dev" "Add login" Running)).
  vm_compute. reflexivity.
Defined.

Example runWorkflow_import_demo :
  let c := committed (runWorkflow import_host import_params empty_world).2 in
  map run_status (runs c) = [Paused] /\
  map (fun s => (step_index s, step_step_id s, step_status s)) (steps c)
  = [ (0, "setup", StepWaiting); (1, "implement", StepWaiting) ] /\
  map (fun s => (story_index s, story_story_id s, story_status s, story_max_retries s))
      (stories c)
  = [ (0, "S01", StoryPending, 2%Z); (1, "S02", StoryPending, 2%Z);
      (2, "S03", StoryPending, 2%Z); (3, "S04", StoryPending, 2%Z) ].
Proof. vm_compute. repeat split. Qed.

Example runWorkflow_plain_demo :
  let c := committed (runWorkflow import_host plain_params empty_world).2 in
  map run_status (runs c) = [Running] /\
  map (fun s => (step_index s, step_step_id s, step_status s)) (steps c)
  = [ (0, "plan", StepPending); (1, "setup", StepWaiting); (2, "implement", StepWaiting) ] /\
  stories c = [].
Proof. vm_compute. repeat split. Qed.

Lemma runWorkflow_initial_step_status_witness :
  exists workflow row rows,
    loadWorkflowSpec import_host (workflowId plain_params) = Ok workflow /\
    runs (committed (runWorkflow import_host plain_params empty_world).2) = [row] /\
    steps (committed (runWorkflow import_host plain_params empty_world).2) = rows /\
    run_id row = "uuid-0" /\
    Forall (fun s => step_run_id s = "uuid-0") rows /\
    (run_status row = Running \/ run_status row = Paused) /\
    length rows
    = length (materialized (truthy_str (storiesFrom plain_params)) (wf_steps workflow)) /\
    (forall i step,
       materialized (truthy_str (storiesFrom plain_params)) (wf_steps workflow) !! i
       = Some step ->
       exists s,
         rows !! i = Some s /\
         step_step_id s = ws_id step /\
         (i = 0 -> run_status row = Running -> step_status s = StepPending) /\
         (i = 0 -> run_status row = Paused -> step_status s = StepWaiting) /\
         (0 < i -> step_status s = StepWaiting)) /\
    (run_status row = Running -> forall s, rows !! 0 = Some s -> step_status s = StepPending) /\
    (run_status row = Paused -> forall s, rows !! 0 = Some s -> step_status s = StepWaiting) /\
    (forall i s, rows !! S i = Some s -> step_status s = StepWaiting).
Proof.
  apply (runWorkflow_initial_step_status import_host plain_params empty_world
           (mkRunResult "uuid-0" 1 "feature-dev" "Add login" Running)).
  vm_compute. reflexivity.
Defined.

(** The step rows of a plain run and of an approved import, by id and
    status. *)
Example runWorkflow_step_status_demo :
  map (fun s => (step_step_id s, step_status s))
      (steps (committed (runWorkflow import_host plain_params empty_world).2))
  = [("plan", StepPending); ("setup", StepWaiting); ("implement", StepWaiting)] /\
  map (fun s => (step_step_id s, step_status s))
      (steps (committed (runWorkflow import_host import_params empty_world).2))
  = [("setup", StepWaiting); ("implement", StepWaiting)].
Proof. split; vm_compute; reflexivity. Qed.

Lemma runWorkflow_step_indices_contiguous_witness :
  exists workflow rows,
    loadWorkflowSpec import_host (workflowId import_params) = Ok workflow /\
    steps (committed (runWorkflow import_host import_params empty_world).2) = rows /\
    Forall (fun s => step_run_id s = "uuid-0") rows /\
    map step_step_id rows
    = map ws_id (materialized (truthy_str (storiesFrom import_params)) (wf_steps workflow)) /\
    map step_index rows = seq 0 (length rows) /\
    (forall i s, rows !! i = Some s -> step_index s = i).
Proof.
  apply (runWorkflow_step_indices_contiguous import_host import_params empty_world
           (mkRunResult "uuid-0" 1 "feature-dev" "Add login" Running)).
  vm_compute. reflexivity.
Defined.

Lemma runWorkflow_returns_running_witness :
  res_status (mkRunResult "uuid-0" 1 "feature-dev" "Add login" Running) = Running /\
  exists row,
    row ∈ runs (committed (runWorkflow import_host import_params empty_world).2) /\
    run_id row = "uuid-0" /\
    run_status row = Paused /\
    run_status row <> Running.
Proof.
  destruct (runWorkflow_returns_running import_host import_params empty_world
              (mkRunResult "uuid-0" 1 "feature-dev" "Add login" Running)
              (runWorkflow import_host import_params empty_world).2) as [Hres Hrow].
  - vm_compute. reflexivity.
  - split; [exact Hres|]. apply Hrow; reflexivity.
Defined.

Lemma createTransaction_persists_backlog_witness :
  exists srows,
    stories (committed (createTransaction import_host import_params demo_workflow "run-1" 1
                          "T0" ∅ (Some demo_backlog) true Paused empty_world).2)
    = srows /\
    length srows = length demo_backlog /\
    forall i s, demo_backlog !! i = Some s ->
      exists row,
        srows !! i = Some row /\
        story_index row = i /\
        story_story_id row = ls_id s /\
        story_title row = ls_title s /\
        story_description row = ls_description s /\
        story_run_id row = "run-1" /\
        story_status row = StoryPending /\
        story_retry_count row = 0%Z /\
        story_max_retries row = 2%Z.
Proof.
  apply (createTransaction_persists_backlog import_host import_params demo_workflow "run-1" 1
           "T0" ∅ demo_backlog true Paused empty_world).
  vm_compute. reflexivity.
Defined.

Lemma runWorkflow_cron_failure_witness :
  exists w' c1 ts,
    runWorkflow no_cron_host plain_params empty_world
    = (Throw (cron_failure (Error "gateway unreachable")), w') /\
    full_run_added (committed empty_world)
      (new_run_row no_cron_host plain_params empty_world demo_workflow
         (mkPrepared (initialContext plain_params demo_workflow) None false))
      false demo_workflow None c1 /\
    committed w' = with_run_failed ts "uuid-0" c1 /\
    (exists row, row ∈ runs (committed w') /\ run_id row = "uuid-0" /\
                 run_status row = Failed) /\
    Forall (fun r => run_id r = "uuid-0" -> run_status r = Failed) (runs (committed w')).
Proof.
  destruct (runWorkflow_cron_failure no_cron_host plain_params empty_world demo_workflow
              (Error "gateway unreachable") eq_refl eq_refl) as [_ H].
  apply (H (mkPrepared (initialContext plain_params demo_workflow) None false)
           (after_ids empty_world)).
  - reflexivity.
  - intros n _. reflexivity.
  - reflexivity.
Defined.

Example runWorkflow_cron_failure_demo :
  (runWorkflow no_cron_host plain_params empty_world).1
  = Throw (Error "Cannot start workflow run: cron setup failed. gateway unreachable") /\
  map (fun r => (run_id r, run_status r))
      (runs (committed (runWorkflow no_cron_host plain_params empty_world).2))
  = [ ("uuid-0", Failed) ].
Proof. vm_compute. split; reflexivity. Qed.

(** A database failure at any of the first twelve calls of an import leaves
    the store empty; without a failure the run, two steps and four stories
    are there. *)
Example runWorkflow_fault_injection :
  Forall (fun n =>
            committed (runWorkflow (demo_host true true (Some n) (Some demo_issues))
                                   import_params empty_world).2
            = mkTables [] [] [])
         (seq 0 12) /\
  (let c := committed (runWorkflow import_host import_params empty_world).2 in
   (length (runs c), length (steps c), length (stories c)) = (1, 2, 4)).
Proof. split; [repeat constructor | vm_compute; reflexivity]. Qed.

(** After such a failure no transaction is left open: the inserts made
    before the failing call were rolled back.  Only when the ROLLBACK fails
    too do they stay behind, uncommitted, in the open transaction. *)
Example runWorkflow_fault_rolled_back :
  Forall (fun n =>
            pending (runWorkflow (demo_host true true (Some n) (Some demo_issues))
                                 import_params empty_world).2
            = None)
         (seq 0 12) /\
  (let w' := (runWorkflow broken_db_host plain_params empty_world).2 in
   committed w' = mkTables [] [] [] /\
   (length <$> (runs <$> pending w'), length <$> (steps <$> pending w')) = (Some 1, Some 1) /\
   db_calls w' = 7).
Proof. split; [repeat constructor | vm_compute; done]. Qed.

(** With the [linear] tool missing the hooks still return, and log. *)
Example sync_hooks_without_cli :
  let host := demo_host false true None None in
  (moveIssue host "id-1" "In Progress" (Some "TEAM") empty_world).1 = Ok tt /\
  (addComment host "id-1" "started" empty_world).1 = Ok tt /\
  (ensureLabel host "wbs/nick" empty_world).1 = Ok None /\
  map log_level (logs (ensureLabel host "wbs/nick" empty_world).2) = ["warn"].
Proof. vm_compute. repeat split. Qed.

(** The context of C5 on a specification without a [task] default. *)
Example initialContext_demo :
  initialContext (mkParams "feature-dev" "Add login" None None (Some "/src/app") None None None)
                 (mkWorkflowSpec "feature-dev" [] {[ "repo" := "/default"; "branch" := "main" ]} None)
  = {[ "task" := "Add login"; "repo" := "/src/app"; "branch" := "main" ]}.
Proof. vm_compute. reflexivity. Qed.

(** * Further properties of the code *)

(** ** Validation of [--stories-from] *)

Lemma truthy_str_Some (s : string) : s <> "" -> truthy_str (Some s) = true.
Proof. intros Hs. simpl. by apply negb_true_iff, String.eqb_neq. Qed.

(** X1: a [--stories-from] value without a colon, or with nothing between
    its first colon and the next, is rejected with the format error before
    anything else happens: the store, the database handle, the [linear] tool
    and the logs are untouched. *)
Theorem runWorkflow_invalid_stories_from (host : Host) params w workflow from :
  loadWorkflowSpec host (workflowId params) = Ok workflow ->
  storiesFrom params = Some from ->
  from <> "" ->
  truthy_str (split_colon from 2 !! 1%nat) = false ->
  runWorkflow host params w
  = (Throw (Error ("Invalid --stories-from format: " ++ dq ++ from ++ dq
                   ++ ". Expected " ++ dq ++ "linear:<project-id>" ++ dq ++ " or "
                   ++ dq ++ "linear-issue:<issue-id>" ++ dq ++ ".")),
     after_ids w).
Proof.
  intros Hload Hfrom Hne Hsplit.
  rewrite runWorkflow_unfold, Hload. unfold linearPreprocessing.
  rewrite Hfrom, (truthy_str_Some from Hne). cbn [default from_option id]. rewrite Hsplit. done.
Qed.

(** X2: a well-formed [--stories-from] whose source is neither [linear] nor
    [linear-issue] is rejected with the unknown-source error, again before
    any side effect. *)
Theorem runWorkflow_unknown_stories_source (host : Host) params w workflow from source sourceId :
  loadWorkflowSpec host (workflowId params) = Ok workflow ->
  storiesFrom params = Some from ->
  from <> "" ->
  split_colon from 2 = [source; sourceId] ->
  sourceId <> "" ->
  source <> "linear" ->
  source <> "linear-issue" ->
  runWorkflow host params w
  = (Throw (Error ("Unknown stories source: " ++ dq ++ source ++ dq
                   ++ ". Supported: " ++ dq ++ "linear" ++ dq ++ ", "
                   ++ dq ++ "linear-issue" ++ dq ++ ".")),
     after_ids w).
Proof.
  intros Hload Hfrom Hne Hsplit Hid Hs1 Hs2.
  rewrite runWorkflow_unfold, Hload. unfold linearPreprocessing.
  rewrite Hfrom, (truthy_str_Some from Hne). cbn [default from_option id]. rewrite Hsplit.
  cbn [lookup list_lookup]. rewrite (truthy_str_Some sourceId Hid). cbn [negb].
  rewrite !bool_decide_eq_false_2 by congruence. done.
Qed.

(** X3: when the export from Linear fails, [runWorkflow] throws the error
    of the [linear] tool as wrapped by [linearExec]; no database call is made
    and the store is as before. *)
Theorem runWorkflow_export_failure (host : Host) params w workflow from projectId e :
  loadWorkflowSpec host (workflowId params) = Ok workflow ->
  storiesFrom params = Some from ->
  from <> "" ->
  split_colon from 2 = ["linear"; projectId] ->
  projectId <> "" ->
  execFileSync_linear host (cli_calls w) ["project"; "issues"; projectId; "--json"] = Throw e ->
  exists w',
    runWorkflow host params w
    = (Throw (Error ("linear CLI failed: "
                     ++ Array_join " " ["project"; "issues"; projectId; "--json"]
                     ++ " — " ++ exn_message e)), w') /\
    committed w' = committed w /\ pending w' = pending w /\ db_calls w' = db_calls w /\
    events w' = events w.
Proof.
  intros Hload Hfrom Hne Hsplit Hid Hcli.
  rewrite runWorkflow_unfold, Hload. unfold linearPreprocessing.
  rewrite Hfrom, (truthy_str_Some from Hne). cbn [default from_option id]. rewrite Hsplit.
  cbn [lookup list_lookup]. rewrite (truthy_str_Some projectId Hid). cbn [negb].
  rewrite bool_decide_eq_true_2 by done.
  unfold bind at 1, exportProjectStories, bind at 1, linearJson, bind at 1, linearExec,
    try_catch, throw. cbn [app]. unfold after_ids. cbn [cli_calls tick_uuid tick_clock].
  cbn [default from_option id]. rewrite Hcli. eexists. split; [reflexivity|]. done.
Qed.

(** ** Label failures and run creation *)

Lemma linear_sync_total_label (host : Host) w :
  exists r w', ensureLabel host "wbs/nick" w = (Ok r, w').
Proof.
  unfold ensureLabel, try_catch.
  match goal with |- context [match ?m w with _ => _ end] =>
    destruct (m w) as [[r|e] w1] end; unfold bind, logger_warn, ret; eauto.
Qed.

Lemma linearPreprocessing_after_export (host : Host) params workflow ctx w from source
    sourceId backlog w1 :
  storiesFrom params = Some from ->
  from <> "" ->
  split_colon from 2 = [source; sourceId] ->
  sourceId <> "" ->
  (source = "linear" /\ exportProjectStories host sourceId w = (Ok backlog, w1)) \/
  (source = "linear-issue" /\ exportIssueStory host sourceId w = (Ok backlog, w1)) ->
  exists w2,
    linearPreprocessing host params workflow ctx w
    = (Ok (mkPrepared
             (<[ "linear_source" := from ]>
                (<[ "linear_mapping" := JSON_stringify host (linearMapping_of backlog) ]> ctx))
             (Some backlog) true), w2).
Proof.
  intros Hfrom Hne Hsplit Hid Hexport.
  unfold linearPreprocessing.
  rewrite Hfrom, (truthy_str_Some from Hne). cbn [default from_option id]. rewrite Hsplit.
  cbn [lookup list_lookup]. rewrite (truthy_str_Some sourceId Hid). cbn [negb].
  cbn [default from_option id].
  assert (Hx : (if bool_decide (Some source = Some "linear")
                then exportProjectStories host sourceId
                else if bool_decide (Some source = Some "linear-issue")
                     then exportIssueStory host sourceId
                     else throw (Error ("Unknown stories source: " ++ dq ++ source ++ dq
                                        ++ ". Supported: " ++ dq ++ "linear" ++ dq ++ ", "
                                        ++ dq ++ "linear-issue" ++ dq ++ "."))) w
               = (Ok backlog, w1)).
  { destruct Hexport as [[-> H] | [-> H]].
    - by rewrite bool_decide_eq_true_2.
    - rewrite bool_decide_eq_false_2 by done. by rewrite bool_decide_eq_true_2. }
  unfold bind at 1. rewrite Hx.
  destruct (linear_sync_total_label host w1) as (labelId & w2 & Hl).
  unfold bind at 1. rewrite Hl.
  unfold bind, logger_info, ret. eauto.
Qed.

(** X4: the label lookup is best effort inside run creation too.  Once the
    stories were exported, [runWorkflow] creates the run and returns,
    whatever the [linear] tool answers to the label calls (there is no
    assumption on them), provided the database and the cron request work. *)
Theorem runWorkflow_ignores_label_failure (host : Host) params w workflow from source
    sourceId backlog w1 :
  loadWorkflowSpec host (workflowId params) = Ok workflow ->
  storiesFrom params = Some from ->
  from <> "" ->
  split_colon from 2 = [source; sourceId] ->
  sourceId <> "" ->
  (source = "linear" /\
     exportProjectStories host sourceId (after_ids w) = (Ok backlog, w1)) \/
  (source = "linear-issue" /\
     exportIssueStory host sourceId (after_ids w) = (Ok backlog, w1)) ->
  pending w = None ->
  healthy host (db_calls w) ->
  ensureWorkflowCrons host (cron_calls w) workflow = None ->
  exists r w' srows,
    runWorkflow host params w = (Ok r, w') /\
    stories (committed w') = (stories (committed w) ++ srows)%list /\
    map story_story_id srows = map ls_id backlog.
Proof.
  intros Hload Hfrom Hne Hsplit Hid Hexport Hp Hhealthy Hcron.
  destruct (linearPreprocessing_after_export host params workflow
              (initialContext params workflow) (after_ids w) from source sourceId backlog w1
              Hfrom Hne Hsplit Hid Hexport) as (w2 & Hprep).
  destruct (runWorkflow_returns host params w workflow _ w2 Hload Hprep Hp Hhealthy Hcron)
    as (w' & Hrun).
  pose proof (runWorkflow_spec host params w) as Hspec. rewrite Hrun in Hspec.
  destruct Hspec as (wf & prep & w1' & Hload' & Hprep' & _ & _ & _ & Hfull).
  assert (wf = workflow) as -> by congruence.
  rewrite Hprep in Hprep'. injection Hprep' as <- _.
  destruct Hfull as (rows & srows & Hc & _ & Hsrows). simpl in Hsrows.
  eexists _, w', srows. split; [done|]. rewrite Hc. simpl. split; [done|].
  destruct Hsrows as [_ Hall]. clear -Hall.
  induction Hall as [|s r l k (Hid & _) _ IH]; simpl; [done|]. by rewrite Hid, IH.
Qed.

Lemma runWorkflow_ignores_label_failure_witness :
  exists r w' srows,
    runWorkflow label_failing_host issue_params empty_world = (Ok r, w') /\
    stories (committed w') = srows /\
    map story_story_id srows = ["S01"].
Proof.
  apply (runWorkflow_ignores_label_failure label_failing_host issue_params empty_world
           demo_workflow "linear-issue:ENG-7" "linear-issue" "ENG-7"
           [story_of_issue label_failing_host "S01" (demo_issue "z" 3 0)]
           (tick_cli (after_ids empty_world))).
  - reflexivity.
  - reflexivity.
  - discriminate.
  - reflexivity.
  - discriminate.
  - right. split; reflexivity.
  - reflexivity.
  - intros n _. reflexivity.
  - reflexivity.
Defined.

Lemma runWorkflow_invalid_stories_from_witness :
  runWorkflow import_host (demo_params (Some "linear") None) empty_world
  = (Throw (Error ("Invalid --stories-from format: " ++ dq ++ "linear" ++ dq
                   ++ ". Expected " ++ dq ++ "linear:<project-id>" ++ dq ++ " or "
                   ++ dq ++ "linear-issue:<issue-id>" ++ dq ++ ".")),
     after_ids empty_world).
Proof.
  apply (runWorkflow_invalid_stories_from import_host (demo_params (Some "linear") None)
           empty_world demo_workflow "linear").
  - reflexivity.
  - reflexivity.
  - discriminate.
  - reflexivity.
Defined.

Example invalid_stories_from_forms :
  map (fun from => truthy_str (split_colon from 2 !! 1%nat))
      ["linear"; "linear:"; "linear::PROJ"; ":"; "linear:PROJ"; "linear:PROJ:extra"]
  = [false; false; false; false; true; true].
Proof. reflexivity. Qed.

Lemma runWorkflow_unknown_stories_source_witness :
  runWorkflow import_host (demo_params (Some "jira:ABC-1") None) empty_world
  = (Throw (Error ("Unknown stories source: " ++ dq ++ "jira" ++ dq
                   ++ ". Supported: " ++ dq ++ "linear" ++ dq ++ ", "
                   ++ dq ++ "linear-issue" ++ dq ++ ".")),
     after_ids empty_world).
Proof.
  apply (runWorkflow_unknown_stories_source import_host (demo_params (Some "jira:ABC-1") None)
           empty_world demo_workflow "jira:ABC-1" "jira" "ABC-1").
  - reflexivity.
  - reflexivity.
  - discriminate.
  - reflexivity.
  - discriminate.
  - discriminate.
  - discriminate.
Defined.

Lemma runWorkflow_export_failure_witness :
  exists w',
    runWorkflow (demo_host false true None None) import_params empty_world
    = (Throw (Error ("linear CLI failed: "
                     ++ Array_join " " ["project"; "issues"; "PROJ"; "--json"]
                     ++ " — " ++ "spawnSync linear ENOENT")), w') /\
    committed w' = committed empty_world /\ pending w' = pending empty_world /\
    db_calls w' = db_calls empty_world /\ events w' = events empty_world.
Proof.
  apply (runWorkflow_export_failure (demo_host false true None None) import_params empty_world
           demo_workflow "linear:PROJ" "PROJ" (Error "spawnSync linear ENOENT")).
  - reflexivity.
  - reflexivity.
  - discriminate.
  - reflexivity.
  - discriminate.
  - reflexivity.
Defined.

(** ** What run creation leaves alone *)

(** Observations of the world that only [emitEvent] can change. *)
Section Quiet.
Context (host : Host) {X : Type} (f : World -> X).
Context (Hcli : forall w, f (tick_cli w) = f w).
Context (Hlog : forall l w, f (add_log l w) = f w).
Context (Hdb : forall w, f (tick_db w) = f w).
Context (Hset : forall c p w, f (set_db c p w) = f w).
Context (Huuid : forall w, f (tick_uuid w) = f w).
Context (Hclock : forall w, f (tick_clock w) = f w).
Context (Hcron : forall w, f (tick_cron w) = f w).

Lemma linearExec_quiet args json : preserves f (linearExec host args json).
Proof.
  intros w. unfold linearExec, try_catch.
  destruct (execFileSync_linear host _ _); simpl; apply Hcli.
Qed.

Lemma linearJson_quiet {T} (parse : string -> result T) args :
  preserves f (linearJson host parse args).
Proof. unfold linearJson. repeat frame_step. apply linearExec_quiet. Qed.

Lemma logger_warn_quiet msg : preserves f (logger_warn msg).
Proof. intros w. apply Hlog. Qed.

Lemma ensureLabel_quiet name : preserves f (ensureLabel host name).
Proof.
  unfold ensureLabel. frame_step.
  - frame_step; [apply linearJson_quiet|].
    destruct (find _ a); repeat frame_step. apply linearJson_quiet.
  - repeat frame_step. apply logger_warn_quiet.
Qed.

Lemma linearPreprocessing_quiet params workflow ctx :
  preserves f (linearPreprocessing host params workflow ctx).
Proof.
  unfold linearPreprocessing.
  destruct (truthy_str (storiesFrom params)); [|frame_step].
  destruct (negb _); [frame_step|].
  frame_step.
  - repeat case_bool_decide; [| |frame_step].
    + unfold exportProjectStories. frame_step; [apply linearJson_quiet|].
      destruct a as [[|]|]; frame_step.
    + unfold exportIssueStory. repeat frame_step. apply linearJson_quiet.
  - frame_step; [apply ensureLabel_quiet|].
    frame_step; [|frame_step]. intros w. apply Hlog.
Qed.

Lemma db_statement_quiet eff :
  (forall w, f (eff w).2 = f w) -> preserves f (db_statement host eff).
Proof.
  intros Heff w. unfold db_statement.
  destruct (db_fault host _); simpl; [apply Hdb|]. by rewrite Heff, Hdb.
Qed.

Lemma db_write_quiet g :
  preserves f (db_statement host (fun w => (Ok tt, write g w))).
Proof.
  apply db_statement_quiet. intros w. unfold write. destruct (pending w); apply Hset.
Qed.

Lemma db_exec_quiet :
  preserves f (db_exec_BEGIN host) /\ preserves f (db_exec_COMMIT host)
  /\ preserves f (db_exec_ROLLBACK host).
Proof.
  repeat split; apply db_statement_quiet; intros w; destruct (pending w); simpl;
    first [done | apply Hset].
Qed.

Lemma insertSteps_quiet workflow runId now runStatus skipPlanStep todo :
  forall stepIndex,
    preserves f (insertSteps host workflow runId now runStatus skipPlanStep todo stepIndex).
Proof.
  induction todo as [|step rest IH]; intros stepIndex; simpl; [frame_step|].
  destruct (_ && _); [apply IH|].
  frame_step; [intros w; apply Huuid|]. frame_step; [apply db_write_quiet | apply IH].
Qed.

Lemma insertStories_quiet runId now todo :
  forall i, preserves f (insertStories host runId now todo i).
Proof.
  induction todo as [|s rest IH]; intros i; simpl; [frame_step|].
  frame_step; [intros w; apply Huuid|]. frame_step; [apply db_write_quiet | apply IH].
Qed.

Lemma createTransaction_quiet params workflow runId runNumber now ctx linearStories
    skipPlanStep runStatus :
  preserves f (createTransaction host params workflow runId runNumber now ctx linearStories
                                 skipPlanStep runStatus).
Proof.
  destruct db_exec_quiet as (Hb & Hc & Hr).
  unfold createTransaction. frame_step; [apply Hb|].
  frame_step.
  - frame_step; [by apply db_statement_quiet|].
    frame_step; [apply db_write_quiet|].
    frame_step; [by apply db_statement_quiet|].
    frame_step; [apply insertSteps_quiet|].
    frame_step; [|apply Hc].
    destruct linearStories; [|frame_step].
    frame_step; [by apply db_statement_quiet | apply insertStories_quiet].
  - frame_step; [apply Hr | frame_step].
Qed.

Lemma startCrons_quiet workflow runId : preserves f (startCrons host workflow runId).
Proof.
  unfold startCrons. frame_step.
  - intros w. destruct (ensureWorkflowCrons host _ _); apply Hcron.
  - frame_step; [by apply db_statement_quiet|].
    frame_step; [intros w; apply Hclock|].
    frame_step; [apply db_write_quiet | frame_step].
Qed.

End Quiet.

(** X5: [runWorkflow] appends exactly one [run.started] event, carrying the
    id it returns and the workflow's id, when it returns; when it throws, for
    whatever reason, it appends none. *)
Theorem runWorkflow_events (host : Host) params w :
  match runWorkflow host params w with
  | (Ok r, w') =>
      exists workflow ts,
        loadWorkflowSpec host (workflowId params) = Ok workflow /\
        events w' = (events w ++ [mkEvent ts "run.started" (res_id r) (wf_id workflow)])%list
  | (Throw _, w') => events w' = events w
  end.
Proof.
  rewrite runWorkflow_unfold.
  destruct (loadWorkflowSpec host (workflowId params)) as [workflow|e]; [|done].
  assert (H1 : preserves events (linearPreprocessing host params workflow
                                   (initialContext params workflow)))
    by (apply linearPreprocessing_quiet; done).
  specialize (H1 (after_ids w)).
  destruct (linearPreprocessing _ _ _ _ _) as [[prep|e] w1]; [|done].
  simpl in H1 |- *.
  match goal with |- context [createTransaction ?h ?p ?wf ?id ?n ?t ?c ?ls ?sk ?st w1] =>
    assert (H2 : preserves events (createTransaction h p wf id n t c ls sk st))
      by (apply createTransaction_quiet; done);
    specialize (H2 w1);
    destruct (createTransaction h p wf id n t c ls sk st w1) as [[[]|e] w2]
  end; simpl in H2; [|congruence].
  assert (H3 : preserves events (startCrons host workflow (randomUUID host (uuid_calls w))))
    by (apply startCrons_quiet; done).
  specialize (H3 w2).
  destruct (startCrons _ _ _ _) as [[[]|e] w3]; simpl in H3; [|congruence].
  eexists workflow, _. split; [done|]. simpl. by rewrite H3, H2, H1.
Qed.

(** ** The rows, exactly *)

Section Rows.
Context (host : Host).

Lemma hoare_frame {A X} (g : World -> X) (x : X) P (m : M A) Q R :
  hoare P m Q R -> preserves g m ->
  hoare (fun w => P w /\ g w = x) m (fun a w => Q a w /\ g w = x) R.
Proof.
  intros Hm Hg w [HP Hx]. specialize (Hm w HP). specialize (Hg w).
  destruct (m w) as [[a|e] w1]; simpl in *; [|done]. split; [done | congruence].
Qed.

Lemma db_prepare_at sql n0 c t u :
  hoare (in_tx_at n0 c t u) (db_prepare host sql) (fun _ => in_tx_at n0 c t u)
        (failed_tx host n0 c).
Proof.
  apply (hoare_frame uuid_calls u); [apply db_prepare_tx|].
  apply db_statement_quiet; intros; reflexivity.
Qed.

Lemma db_write_at f n0 c t u :
  hoare (in_tx_at n0 c t u) (db_statement host (fun w => (Ok tt, write f w)))
        (fun _ => in_tx_at n0 c (f t) u) (failed_tx host n0 c).
Proof.
  apply (hoare_frame uuid_calls u); [apply db_write_tx|].
  apply db_write_quiet; intros; reflexivity.
Qed.

Lemma randomUUID_at n0 c t u :
  hoare (in_tx_at n0 c t u) (crypto_randomUUID host)
        (fun id w => id = randomUUID host u /\ in_tx_at n0 c t (S u) w)
        (failed_tx host n0 c).
Proof.
  intros w [(Hc & Hp & Hn) Hu]. simpl. rewrite Hu.
  repeat split; simpl; first [done | lia].
Qed.

Lemma step_rows_for_skip workflow runId now runStatus skipPlanStep start u step rest :
  skipPlanStep && (ws_id step =? "plan")%string = true ->
  step_rows_for host workflow runId now runStatus skipPlanStep start u (step :: rest)
  = step_rows_for host workflow runId now runStatus skipPlanStep start u rest.
Proof. intros H. unfold step_rows_for, materialized. simpl. by rewrite H. Qed.

Lemma step_rows_for_keep workflow runId now runStatus skipPlanStep start u step rest :
  skipPlanStep && (ws_id step =? "plan")%string = false ->
  step_rows_for host workflow runId now runStatus skipPlanStep start u (step :: rest)
  = step_row_for host workflow runId now runStatus start u step
    :: step_rows_for host workflow runId now runStatus skipPlanStep (S start) (S u) rest.
Proof.
  intros H. unfold step_rows_for, materialized. simpl. rewrite H. simpl.
  rewrite !Nat.add_0_r. f_equal. apply imap_ext. intros k s _. simpl. f_equal; lia.
Qed.

Lemma story_rows_for_cons runId now start u s rest :
  story_rows_for host runId now start u (s :: rest)
  = story_row_for host runId now start u s
    :: story_rows_for host runId now (S start) (S u) rest.
Proof.
  unfold story_rows_for. simpl.
  rewrite !Nat.add_0_r. f_equal. apply imap_ext. intros k x _. simpl. f_equal; lia.
Qed.

Lemma insertSteps_rows workflow runId now runStatus skipPlanStep n0 c todo :
  forall stepIndex u t,
    hoare (in_tx_at n0 c t u)
          (insertSteps host workflow runId now runStatus skipPlanStep todo stepIndex)
          (fun _ w =>
             let rows := step_rows_for host workflow runId now runStatus skipPlanStep
                                       stepIndex u todo in
             in_tx_at n0 c (mkTables (runs t) (steps t ++ rows) (stories t))
                      (u + length rows) w)
          (failed_tx host n0 c).
Proof.
  induction todo as [|step rest IH]; intros stepIndex u t.
  - intros w Hw. simpl. unfold step_rows_for. simpl.
    rewrite (proj1 (tables_eta t)), Nat.add_0_r. done.
  - cbn [insertSteps].
    destruct (skipPlanStep && (ws_id step =? "plan")%string) eqn:Hskip.
    { rewrite step_rows_for_skip by done. apply IH. }
    rewrite step_rows_for_keep by done.
    eapply hoare_bind; [apply randomUUID_at|]. intros stepUuid.
    intros w [-> Hw]. revert w Hw. fold (hoare (A := nat)).
    eapply hoare_bind; [apply db_write_at|]. intros ?.
    eapply hoare_conseq; [apply IH | done | | done].
    intros ? w Hw. cbn beta zeta in Hw |- *. cbn [runs steps stories] in Hw.
    rewrite <- app_assoc in Hw. cbn [app length] in Hw |- *.
    replace (u + S (length (step_rows_for host workflow runId now runStatus skipPlanStep
                                          (S stepIndex) (S u) rest)))
      with (S u + length (step_rows_for host workflow runId now runStatus skipPlanStep
                                        (S stepIndex) (S u) rest)) by lia.
    unfold step_row_for at 1.
    assert (Hst : (if (stepIndex =? 0)%nat
                   then match runStatus with Paused => StepWaiting | _ => StepPending end
                   else StepWaiting) = initial_step_status runStatus stepIndex)
      by (by destruct stepIndex).
    rewrite <- Hst. exact Hw.
Qed.

Lemma insertStories_rows runId now n0 c todo :
  forall i u t,
    hoare (in_tx_at n0 c t u) (insertStories host runId now todo i)
          (fun _ w =>
             let rows := story_rows_for host runId now i u todo in
             in_tx_at n0 c (mkTables (runs t) (steps t) (stories t ++ rows))
                      (u + length rows) w)
          (failed_tx host n0 c).
Proof.
  induction todo as [|s rest IH]; intros i u t.
  - intros w Hw. simpl. unfold story_rows_for. simpl.
    rewrite (proj2 (tables_eta t)), Nat.add_0_r. done.
  - cbn [insertStories]. rewrite story_rows_for_cons.
    eapply hoare_bind; [apply randomUUID_at|]. intros uuid.
    intros w [-> Hw]. revert w Hw. fold (hoare (A := unit)).
    eapply hoare_bind; [apply db_write_at|]. intros ?.
    eapply hoare_conseq; [apply IH | done | | done].
    intros ? w Hw. cbn beta zeta in Hw |- *. cbn [runs steps stories] in Hw.
    rewrite <- app_assoc in Hw. cbn [app length] in Hw |- *.
    replace (u + S (length (story_rows_for host runId now (S i) (S u) rest)))
      with (S u + length (story_rows_for host runId now (S i) (S u) rest)) by lia.
    exact Hw.
Qed.

Lemma createTransaction_rows params workflow runId runNumber now ctx linearStories
    skipPlanStep runStatus w0 w :
  createTransaction host params workflow runId runNumber now ctx linearStories
                    skipPlanStep runStatus w0 = (Ok tt, w) ->
  committed w
  = tables_with_run host (committed w0)
      (run_row host params workflow runId runNumber now ctx runStatus)
      workflow skipPlanStep linearStories (uuid_calls w0).
Proof.
  unfold createTransaction, bind at 1.
  unfold db_exec_BEGIN, db_statement at 1.
  destruct (db_fault host (db_calls w0)) eqn:Hf; [done|].
  simpl. destruct (pending w0) as [t|] eqn:Hp; [done|].
  set (c := committed w0). set (u := uuid_calls w0).
  set (w1 := set_db c (Some c) (tick_db w0)).
  assert (Hw1 : in_tx_at (db_calls w0) c c u w1).
  { repeat split; simpl; lia. }
  assert (Hbody :
    hoare (in_tx_at (db_calls w0) c c u)
      (do! db_prepare host "INSERT INTO runs (id, run_number, workflow_id, task, status, context, notify_url, created_at, updated_at) VALUES (?, ?, ?, ?, ?, ?, ?, ?, ?)" in
       do! insertRun_run host (run_row host params workflow runId runNumber now ctx runStatus) in
       do! db_prepare host "INSERT INTO steps (id, run_id, step_id, agent_id, step_index, input_template, expects, status, max_retries, type, loop_config, created_at, updated_at) VALUES (?, ?, ?, ?, ?, ?, ?, ?, ?, ?, ?, ?, ?)" in
       let! _ := insertSteps host workflow runId now runStatus skipPlanStep (wf_steps workflow) 0 in
       do! (match linearStories with
            | Some stories =>
                do! db_prepare host "INSERT INTO stories (id, run_id, story_index, story_id, title, description, acceptance_criteria, status, retry_count, max_retries, created_at, updated_at) VALUES (?, ?, ?, ?, ?, ?, ?, 'pending', 0, 2, ?, ?)" in
                insertStories host runId now stories 0
            | None => ret tt
            end) in
       db_exec_COMMIT host)
      (fun _ w =>
         committed w
         = tables_with_run host c
             (run_row host params workflow runId runNumber now ctx runStatus)
             workflow skipPlanStep linearStories u)
      (failed_tx host (db_calls w0) c)).
  { eapply hoare_bind; [apply db_prepare_at|]. intros ?.
    eapply hoare_bind; [apply db_write_at|]. intros ?. cbn beta.
    eapply hoare_bind; [apply db_prepare_at|]. intros ?.
    eapply hoare_bind; [apply insertSteps_rows|]. intros ?. cbn beta zeta.
    unfold tables_with_run. cbn [run_id run_created_at run_status run_row runs steps stories].
    destruct linearStories as [backlog|].
    - eapply hoare_bind.
      { eapply hoare_bind; [apply db_prepare_at|]. intros ?. apply insertStories_rows. }
      intros ?. cbn beta zeta. cbn [runs steps stories].
      eapply hoare_conseq; [apply db_exec_COMMIT_tx | | | done].
      + intros w' [Hw' _]. exact Hw'.
      + intros ? w' (Hc & _). done.
    - eapply hoare_bind; [apply (hoare_ret tt (fun _ => in_tx_at _ _ _ _))|]. intros ?.
      eapply hoare_conseq; [apply db_exec_COMMIT_tx | | | done].
      + intros w' [Hw' _]. exact Hw'.
      + intros ? w' (Hc & _). rewrite Hc. by rewrite app_nil_r. }
  pose proof (hoare_try_catch _ _
                (fun err => do! db_exec_ROLLBACK host in throw err) _ _ (fun _ _ => True)
                Hbody) as H.
  assert (Hh : forall e, hoare (failed_tx host (db_calls w0) c e)
                           ((fun err => do! db_exec_ROLLBACK host in throw err) e)
                           (fun (_ : unit) w =>
                              committed w
                              = tables_with_run host c
                                  (run_row host params workflow runId runNumber now ctx
                                           runStatus)
                                  workflow skipPlanStep linearStories u)
                           (fun _ _ => True)).
  { intros e w' _. unfold bind, db_exec_ROLLBACK, db_statement.
    destruct (db_fault host (db_calls w')); [done|]. simpl. by destruct (pending w'). }
  specialize (H Hh w1 Hw1). clear Hh Hbody.
  match goal with |- ?x = _ -> _ => change x with
    (try_catch
       (do! db_prepare host "INSERT INTO runs (id, run_number, workflow_id, task, status, context, notify_url, created_at, updated_at) VALUES (?, ?, ?, ?, ?, ?, ?, ?, ?)" in
        do! insertRun_run host (run_row host params workflow runId runNumber now ctx runStatus) in
        do! db_prepare host "INSERT INTO steps (id, run_id, step_id, agent_id, step_index, input_template, expects, status, max_retries, type, loop_config, created_at, updated_at) VALUES (?, ?, ?, ?, ?, ?, ?, ?, ?, ?, ?, ?, ?)" in
        let! _ := insertSteps host workflow runId now runStatus skipPlanStep (wf_steps workflow) 0 in
        do! (match linearStories with
             | Some stories =>
                 do! db_prepare host "INSERT INTO stories (id, run_id, story_index, story_id, title, description, acceptance_criteria, status, retry_count, max_retries, created_at, updated_at) VALUES (?, ?, ?, ?, ?, ?, ?, 'pending', 0, 2, ?, ?)" in
                 insertStories host runId now stories 0
             | None => ret tt
             end) in
        db_exec_COMMIT host)
       (fun err => do! db_exec_ROLLBACK host in throw err) w1) end.
  intros Hrun. rewrite Hrun in H. exact H.
Qed.

(** The store after a returning [runWorkflow], exactly. *)
Lemma runWorkflow_committed params w r w' :
  runWorkflow host params w = (Ok r, w') ->
  exists workflow prep w1,
    loadWorkflowSpec host (workflowId params) = Ok workflow /\
    linearPreprocessing host params workflow (initialContext params workflow)
                        (after_ids w) = (Ok prep, w1) /\
    r = mkRunResult (randomUUID host (uuid_calls w)) (nextRunNumber host (view w))
                    (wf_id workflow) (taskTitle params) Running /\
    committed w'
    = tables_with_run host (committed w) (new_run_row host params w workflow prep)
        workflow (p_skipPlanStep prep) (p_linearStories prep) (S (uuid_calls w)).
Proof.
  rewrite runWorkflow_unfold.
  destruct (loadWorkflowSpec host (workflowId params)) as [workflow|e]; [|done].
  pose proof (linearPreprocessing_frame host params workflow
                (initialContext params workflow) (after_ids w)) as Hfr.
  destruct (linearPreprocessing _ _ _ _ _) as [[prep|e] w1] eqn:Hprep; [|done].
  simpl in Hfr. injection Hfr as Hc Hp Hdb Hcron Huuid Hclock. cbn zeta.
  destruct (createTransaction _ _ _ _ _ _ _ _ _ _ _) as [[[]|e] w2] eqn:Hcreate; [|done].
  pose proof (createTransaction_spec host params workflow (randomUUID host (uuid_calls w))
                (nextRunNumber host (view w)) (toISOString host (clock_reads w))
                (blankSlate params (p_context prep)) (p_linearStories prep)
                (p_skipPlanStep prep)
                (runStatus_of params (p_linearStories prep) (p_skipPlanStep prep)) w1) as Htx.
  rewrite Hcreate in Htx. destruct Htx as (_ & Hp2 & _ & _).
  apply createTransaction_rows in Hcreate. rewrite Hc, Huuid in Hcreate.
  pose proof (startCrons_spec host workflow (randomUUID host (uuid_calls w)) w2 Hp2) as Hst.
  destruct (startCrons _ _ _ _) as [[[]|e] w3]; [|done].
  destruct Hst as [_ Hc3]. intros [= <- <-].
  exists workflow, prep, w1. repeat split; try done. simpl. by rewrite Hc3.
Qed.

End Rows.

(** ** The rows of a created run in detail *)

(** X6: every materialised step gets one row, in order; its agent id is the
    workflow id, an underscore and the step's agent; its retry ceiling is the
    step's [max_retries], else the one of [on_fail], else 2; its type
    defaults to [single]; and its loop configuration is the JSON text of
    the step's [loop] when that is truthy, and null when the step has no
    [loop] or a falsy one ([null], [false], [0], the empty string). *)
Theorem runWorkflow_step_rows (host : Host) params w r w' :
  runWorkflow host params w = (Ok r, w') ->
  exists workflow rows,
    loadWorkflowSpec host (workflowId params) = Ok workflow /\
    steps (committed w') = (steps (committed w) ++ rows)%list /\
    length rows = length (materialized (truthy_str (storiesFrom params)) (wf_steps workflow)) /\
    forall i step,
      materialized (truthy_str (storiesFrom params)) (wf_steps workflow) !! i = Some step ->
      exists row,
        rows !! i = Some row /\
        step_step_id row = ws_id step /\
        step_agent_id row = wf_id workflow ++ "_" ++ ws_agent step /\
        step_input_template row = ws_input step /\
        step_expects row = ws_expects step /\
        step_max_retries row
        = match ws_max_retries step, ws_on_fail_max_retries step with
          | Some n, _ => n
          | None, Some n => n
          | None, None => 2%Z
          end /\
        step_type row = match ws_type step with Some t => t | None => Single end /\
        step_loop_config row
        = match ws_loop step with
          | None | Some JNull | Some (JBool false) => None
          | Some (JNum n) =>
              if bool_decide (n = number_of_Z 0) then None
              else Some (JSON_stringify host (JNum n))
          | Some (JStr s) =>
              if (s =? "")%string then None else Some (JSON_stringify host (JStr s))
          | Some loop => Some (JSON_stringify host loop)
          end.
Proof.
  intros Hrun.
  destruct (runWorkflow_committed host params w r w' Hrun)
    as (workflow & prep & w1 & Hload & Hprep & _ & Hc).
  destruct (linearPreprocessing_ok _ _ _ _ _ _ _ Hprep) as [Hskip _].
  eexists workflow, _. split; [done|]. rewrite Hc. unfold tables_with_run. cbn [steps].
  split; [reflexivity|]. unfold step_rows_for. rewrite Hskip, length_imap.
  split; [done|]. intros i step Hi.
  eexists. rewrite list_lookup_imap, Hi. split; [reflexivity|]. simpl.
  unfold loopConfig_of.
  destruct (ws_max_retries step), (ws_on_fail_max_retries step), (ws_type step),
    (ws_loop step) as [[|[]|n|str| |]|]; simpl; repeat split; try done.
  all: try (by destruct (bool_decide (n = number_of_Z 0))).
  all: by destruct (str =? "")%string.
Qed.

(** X7: what [runWorkflow] returns identifies the run row it committed (same
    id, run number, workflow id and task); the row's notification target is
    the caller's [notifyUrl], else the workflow's, else none; and the run row
    and all its step and story rows carry one timestamp, read from the clock
    before anything else, as creation and as update time. *)
Theorem runWorkflow_result_matches_row (host : Host) params w r w' :
  runWorkflow host params w = (Ok r, w') ->
  exists workflow row rows srows,
    loadWorkflowSpec host (workflowId params) = Ok workflow /\
    committed w' = mkTables (runs (committed w) ++ [row]) (steps (committed w) ++ rows)
                            (stories (committed w) ++ srows) /\
    run_id row = res_id r /\
    run_number row = res_runNumber r /\
    run_workflow_id row = res_workflowId r /\
    res_workflowId r = wf_id workflow /\
    run_task row = res_task r /\
    res_task r = taskTitle params /\
    run_notify_url row
    = match notifyUrl params with
      | Some url => Some url
      | None => wf_notifications_url workflow
      end /\
    run_created_at row = toISOString host (clock_reads w) /\
    run_updated_at row = run_created_at row /\
    Forall (fun s => step_created_at s = run_created_at row /\
                     step_updated_at s = run_created_at row) rows /\
    Forall (fun s => story_created_at s = run_created_at row /\
                     story_updated_at s = run_created_at row) srows.
Proof.
  intros Hrun.
  destruct (runWorkflow_committed host params w r w' Hrun)
    as (workflow & prep & w1 & Hload & Hprep & -> & Hc).
  eexists workflow, _, _, _. split; [done|]. split; [exact Hc|].
  cbn [run_id run_number run_workflow_id run_task run_notify_url run_created_at
       run_updated_at new_run_row run_row res_id res_runNumber res_workflowId res_task
       run_status].
  repeat split; try done.
  - unfold step_rows_for. apply Forall_forall. intros s Hs.
    apply list_elem_of_lookup in Hs as [i Hi].
    rewrite list_lookup_imap in Hi.
    destruct (materialized _ _ !! i); [|done]. by injection Hi as <-.
  - destruct (p_linearStories prep); [|constructor].
    unfold story_rows_for. apply Forall_forall. intros s Hs.
    apply list_elem_of_lookup in Hs as [i Hi].
    rewrite list_lookup_imap in Hi.
    destruct (l !! i); [|done]. by injection Hi as <-.
Qed.

(** X8: the row ids of a created run are consecutive draws of
    [crypto.randomUUID]: first the run, then the steps in order, then the
    stories in order.  So when the UUID source never repeats, all ids of the
    run's rows are distinct. *)
Theorem runWorkflow_row_ids (host : Host) params w r w' :
  runWorkflow host params w = (Ok r, w') ->
  (forall i j, randomUUID host i = randomUUID host j -> i = j) ->
  exists rows srows,
    steps (committed w') = (steps (committed w) ++ rows)%list /\
    stories (committed w') = (stories (committed w) ++ srows)%list /\
    res_id r :: map step_uuid rows ++ map story_uuid srows
    = map (randomUUID host) (seq (uuid_calls w) (1 + length rows + length srows)) /\
    NoDup (res_id r :: map step_uuid rows ++ map story_uuid srows).
Proof.
  intros Hrun Hinj.
  destruct (runWorkflow_committed host params w r w' Hrun)
    as (workflow & prep & w1 & Hload & Hprep & -> & Hc).
  assert (Hsteps : forall wf rid now st sk start u todo,
             map step_uuid (step_rows_for host wf rid now st sk start u todo)
             = map (randomUUID host)
                   (seq u (length (step_rows_for host wf rid now st sk start u todo)))).
  { intros wf rid now st sk start u todo. revert start u.
    induction todo as [|step rest IH]; intros start u; [done|].
    destruct (sk && (ws_id step =? "plan")%string) eqn:Hskip.
    - rewrite step_rows_for_skip by done. apply IH.
    - rewrite step_rows_for_keep by done. simpl. by rewrite IH. }
  assert (Hstories : forall rid now start u todo,
             map story_uuid (story_rows_for host rid now start u todo)
             = map (randomUUID host)
                   (seq u (length (story_rows_for host rid now start u todo)))).
  { intros rid now start u todo. revert start u.
    induction todo as [|s rest IH]; intros start u; [done|].
    rewrite story_rows_for_cons. simpl. by rewrite IH. }
  eexists _, _. rewrite Hc. unfold tables_with_run. cbn [steps stories].
  split; [reflexivity|]. split; [reflexivity|].
  match goal with |- context [step_rows_for ?h ?wf ?rid ?now ?st ?sk ?start ?u ?todo] =>
    pose proof (Hsteps wf rid now st sk start u todo) as Hr;
    set (rows := step_rows_for h wf rid now st sk start u todo) in *
  end.
  match goal with |- context [map story_uuid ?x] => set (srows := x) end.
  assert (Hs : map story_uuid srows
               = map (randomUUID host)
                     (seq (S (uuid_calls w) + length rows) (length srows))).
  { subst srows. destruct (p_linearStories prep); [apply Hstories | done]. }
  match goal with |- ?l = ?k /\ _ => assert (Heq : l = k) end.
  { cbn [res_id]. rewrite Hr, Hs, <- map_app, <- seq_app. reflexivity. }
  split; [exact Heq|]. rewrite Heq.
  apply NoDup_fmap_2; [|apply NoDup_seq]. intros i j. apply Hinj.
Qed.

(** ** Imported stories and the context, end to end *)

Lemma exportProjectStories_run (host : Host) projectId w out issues :
  execFileSync_linear host (cli_calls w) ["project"; "issues"; projectId; "--json"] = Ok out ->
  parse_issues host out = Ok issues ->
  exportProjectStories host projectId w
  = match issues with
    | None | Some [] =>
        (Throw (Error ("No issues found in Linear project " ++ projectId)), tick_cli w)
    | Some l =>
        (Ok (imap (fun i issue => story_of_issue host (story_id_of_index i) issue)
                  (sort compare_issues l)), tick_cli w)
    end.
Proof.
  intros Hcli Hparse.
  unfold exportProjectStories, linearJson, linearExec, bind, try_catch, lift. simpl.
  rewrite Hcli, Hparse. by destruct issues as [[|]|].
Qed.

(** X9: a run created from a Linear project stores the project's issues as
    stories in the order of the sort (priority, then [sortOrder]): the row at
    position [i] has story index [i], id [S01], [S02], ... and the title and
    description built from the [i]-th issue of the sorted list. *)
Theorem runWorkflow_imports_project_in_order (host : Host) params w r w' from projectId
    out issues :
  storiesFrom params = Some from ->
  from <> "" ->
  split_colon from 2 = ["linear"; projectId] ->
  projectId <> "" ->
  execFileSync_linear host (cli_calls w) ["project"; "issues"; projectId; "--json"] = Ok out ->
  parse_issues host out = Ok (Some issues) ->
  runWorkflow host params w = (Ok r, w') ->
  exists srows,
    stories (committed w') = (stories (committed w) ++ srows)%list /\
    length srows = length issues /\
    forall i issue,
      sort compare_issues issues !! i = Some issue ->
      exists row,
        srows !! i = Some row /\
        story_index row = i /\
        story_story_id row = story_id_of_index i /\
        story_title row = "[" ++ li_identifier issue ++ "] " ++ li_title issue /\
        story_description row
        = (if (li_description issue =? "")%string then li_title issue
           else li_description issue) /\
        story_run_id row = res_id r /\
        story_status row = StoryPending.
Proof.
  intros Hfrom Hne Hsplit Hid Hcli Hparse Hrun.
  destruct (runWorkflow_committed host params w r w' Hrun)
    as (workflow & prep & w1 & Hload & Hprep & -> & Hc).
  pose proof (exportProjectStories_run host projectId (after_ids w) out (Some issues)
                Hcli Hparse) as Hexp.
  destruct issues as [|x l].
  { exfalso. revert Hprep. unfold linearPreprocessing.
    rewrite Hfrom, (truthy_str_Some from Hne). cbn [default from_option id]. rewrite Hsplit.
    cbn [lookup list_lookup]. rewrite (truthy_str_Some projectId Hid). cbn [negb].
    cbn [default from_option id]. rewrite bool_decide_eq_true_2 by done.
    unfold bind at 1. by rewrite Hexp. }
  destruct (linearPreprocessing_after_export host params workflow
              (initialContext params workflow) (after_ids w) from "linear" projectId _ _
              Hfrom Hne Hsplit Hid (or_introl (conj eq_refl Hexp))) as (w2 & Hprep').
  rewrite Hprep in Hprep'. injection Hprep' as -> _.
  eexists. rewrite Hc. unfold tables_with_run. cbn [stories p_linearStories].
  split; [reflexivity|]. unfold story_rows_for.
  rewrite !length_imap.
  split; [exact (Permutation_length (sort_perm compare_issues (x :: l)))|].
  intros i issue Hi. eexists.
  change (sort compare_issues (x :: l))
    with (sort_insert compare_issues x (sort compare_issues l)) in Hi.
  rewrite !list_lookup_imap, Hi. split; [reflexivity|]. done.
Qed.

Lemma truthy_str_default (o : option string) :
  truthy_str o = true -> Some (default "" o) = o.
Proof. by destruct o. Qed.

Lemma linearPreprocessing_context (host : Host) params workflow ctx w prep w1 :
  linearPreprocessing host params workflow ctx w = (Ok prep, w1) ->
  if truthy_str (storiesFrom params)
  then exists mapping,
      p_context prep
      = <[ "linear_source" := default "" (storiesFrom params) ]>
          (<[ "linear_mapping" := mapping ]> ctx)
  else p_context prep = ctx.
Proof.
  unfold linearPreprocessing.
  destruct (truthy_str (storiesFrom params)); [|by intros [= <- _]].
  destruct (negb _); [done|].
  unfold bind at 1.
  match goal with |- context [match ?m w with _ => _ end] =>
    destruct (m w) as [[backlog|e] w2] end; [|done].
  unfold bind at 1.
  destruct (ensureLabel host "wbs/nick" w2) as [[labelId|e] w3]; [|done].
  unfold bind, logger_info, ret. intros [= <- _]. simpl. eauto.
Qed.

(** X10: the context stored with a created run.  With [--stories-from] it
    is the initial context plus [linear_source] (the flag's value) and
    [linear_mapping], and the blank-slate keys are not written even if a
    Linear team was given; without it and with a Linear team it is the
    initial context plus [linear_blank_slate = "true"], [linear_team_id] and,
    when a project was given, [linear_project_id]; otherwise it is the
    initial context. *)
Theorem runWorkflow_context (host : Host) params w r w' :
  runWorkflow host params w = (Ok r, w') ->
  exists workflow row ctx,
    loadWorkflowSpec host (workflowId params) = Ok workflow /\
    runs (committed w') = (runs (committed w) ++ [row])%list /\
    run_context row = JSON_stringify host (json_of_context ctx) /\
    let ctx0 := initialContext params workflow in
    if truthy_str (storiesFrom params) then
      ctx !! "linear_source" = storiesFrom params /\
      is_Some (ctx !! "linear_mapping") /\
      forall k, k <> "linear_source" -> k <> "linear_mapping" -> ctx !! k = ctx0 !! k
    else if truthy_str (linearTeam params) then
      ctx !! "linear_blank_slate" = Some "true" /\
      ctx !! "linear_team_id" = linearTeam params /\
      (if truthy_str (linearProject params)
       then ctx !! "linear_project_id" = linearProject params
       else ctx !! "linear_project_id" = ctx0 !! "linear_project_id") /\
      forall k, k <> "linear_blank_slate" -> k <> "linear_team_id" ->
                k <> "linear_project_id" -> ctx !! k = ctx0 !! k
    else ctx = ctx0.
Proof.
  intros Hrun.
  destruct (runWorkflow_committed host params w r w' Hrun)
    as (workflow & prep & w1 & Hload & Hprep & -> & Hc).
  pose proof (linearPreprocessing_context _ _ _ _ _ _ _ Hprep) as Hctx.
  eexists workflow, _, (blankSlate params (p_context prep)).
  split; [done|]. rewrite Hc. unfold tables_with_run. cbn [runs].
  split; [reflexivity|]. split; [reflexivity|]. cbn zeta.
  unfold blankSlate.
  destruct (truthy_str (storiesFrom params)) eqn:Hsf; cbn [negb andb].
  { destruct Hctx as (mapping & ->).
    destruct (storiesFrom params) as [from|]; [|done]. repeat split.
    - by rewrite lookup_insert_eq.
    - rewrite lookup_insert_ne, lookup_insert_eq; done.
    - intros k ? ?. by rewrite 2!lookup_insert_ne. }
  rewrite Hctx.
  destruct (truthy_str (linearTeam params)) eqn:Ht; [|done].
  destruct (linearTeam params) as [team|]; [|done].
  destruct (truthy_str (linearProject params)) eqn:Hpj.
  - destruct (linearProject params) as [pj|]; [|done]. repeat split.
    + by rewrite 2!lookup_insert_ne, lookup_insert_eq.
    + by rewrite lookup_insert_ne, lookup_insert_eq.
    + by rewrite lookup_insert_eq.
    + intros k ? ? ?. by rewrite 3!lookup_insert_ne.
  - repeat split.
    + by rewrite lookup_insert_ne, lookup_insert_eq.
    + by rewrite lookup_insert_eq.
    + by rewrite 2!lookup_insert_ne.
    + intros k ? ? ?. by rewrite 2!lookup_insert_ne.
Qed.

Lemma String_of_nat_inj (i j : nat) : String_of_nat i = String_of_nat j -> i = j.
Proof.
  unfold String_of_nat. intros H.
  apply (f_equal NilEmpty.uint_of_string) in H.
  rewrite !NilEmpty.usu in H. injection H as H.
  by apply DecimalNat.Unsigned.to_uint_inj.
Qed.

Lemma string_app_inv_head (p a b : string) : p ++ a = p ++ b -> a = b.
Proof. induction p as [|c p IH]; simpl; [done|]. intros [= H]. by apply IH. Qed.

Lemma runWorkflow_step_rows_witness :
  exists workflow rows,
    loadWorkflowSpec loop_host (workflowId plain_params) = Ok workflow /\
    steps (committed (runWorkflow loop_host plain_params empty_world).2) = rows /\
    length rows
    = length (materialized (truthy_str (storiesFrom plain_params)) (wf_steps workflow)) /\
    forall i step,
      materialized (truthy_str (storiesFrom plain_params)) (wf_steps workflow) !! i
      = Some step ->
      exists row,
        rows !! i = Some row /\
        step_step_id row = ws_id step /\
        step_agent_id row = wf_id workflow ++ "_" ++ ws_agent step /\
        step_input_template row = ws_input step /\
        step_expects row = ws_expects step /\
        step_max_retries row
        = match ws_max_retries step, ws_on_fail_max_retries step with
          | Some n, _ => n
          | None, Some n => n
          | None, None => 2%Z
          end /\
        step_type row = match ws_type step with Some t => t | None => Single end /\
        step_loop_config row
        = match ws_loop step with
          | None | Some JNull | Some (JBool false) => None
          | Some (JNum n) =>
              if bool_decide (n = number_of_Z 0) then None
              else Some (JSON_stringify loop_host (JNum n))
          | Some (JStr s) =>
              if (s =? "")%string then None else Some (JSON_stringify loop_host (JStr s))
          | Some loop => Some (JSON_stringify loop_host loop)
          end.
Proof.
  apply (runWorkflow_step_rows loop_host plain_params empty_world
           (mkRunResult "uuid-0" 1 "story-loop" "Add login" Running)).
  vm_compute. reflexivity.
Defined.

(** Only the truthy [loop] is stored; [loop: false] and an empty-string
    [loop] are stored as null. *)
Example runWorkflow_loop_config_demo :
  map (fun row => (step_step_id row, step_max_retries row, step_type row, step_loop_config row))
      (steps (committed (runWorkflow loop_host plain_params empty_world).2))
  = [ ("implement", 4%Z, Loop, Some "{...}");
      ("verify", 3%Z, Single, None);
      ("report", 2%Z, Single, None) ].
Proof. vm_compute. reflexivity. Qed.

Lemma runWorkflow_result_matches_row_witness :
  exists row,
    runs (committed (runWorkflow import_host plain_params empty_world).2) = [row] /\
    run_id row = "uuid-0" /\ run_number row = 1%Z /\ run_task row = "Add login" /\
    run_notify_url row = None /\ run_created_at row = "T0" /\ run_updated_at row = "T0".
Proof.
  destruct (runWorkflow_result_matches_row import_host plain_params empty_world
              (mkRunResult "uuid-0" 1 "feature-dev" "Add login" Running)
              (runWorkflow import_host plain_params empty_world).2)
    as (workflow & row & rows & srows & Hload & Hc & Hid & Hnum & _ & _ & Htask & _ & Hurl
        & Hcreated & Hupdated & _).
  - vm_compute. reflexivity.
  - injection Hload as <-.
    exists row. rewrite Hc, Hid, Hnum, Htask, Hurl, Hupdated, Hcreated.
    repeat split.
Defined.

Lemma runWorkflow_row_ids_witness :
  exists rows srows,
    steps (committed (runWorkflow import_host import_params empty_world).2) = rows /\
    stories (committed (runWorkflow import_host import_params empty_world).2) = srows /\
    "uuid-0" :: map step_uuid rows ++ map story_uuid srows
    = map (randomUUID import_host) (seq 0 (1 + length rows + length srows)) /\
    NoDup ("uuid-0" :: map step_uuid rows ++ map story_uuid srows).
Proof.
  apply (runWorkflow_row_ids import_host import_params empty_world
           (mkRunResult "uuid-0" 1 "feature-dev" "Add login" Running)).
  - vm_compute. reflexivity.
  - intros i j H. exact (String_of_nat_inj i j (string_app_inv_head "uuid-" _ _ H)).
Defined.

Lemma runWorkflow_imports_project_in_order_witness :
  exists srows,
    stories (committed (runWorkflow import_host import_params empty_world).2) = srows /\
    length srows = length demo_issues /\
    forall i issue,
      sort compare_issues demo_issues !! i = Some issue ->
      exists row,
        srows !! i = Some row /\
        story_index row = i /\
        story_story_id row = story_id_of_index i /\
        story_title row = "[" ++ li_identifier issue ++ "] " ++ li_title issue /\
        story_description row
        = (if (li_description issue =? "")%string then li_title issue
           else li_description issue) /\
        story_run_id row = "uuid-0" /\
        story_status row = StoryPending.
Proof.
  apply (runWorkflow_imports_project_in_order import_host import_params empty_world
           (mkRunResult "uuid-0" 1 "feature-dev" "Add login" Running)
           (runWorkflow import_host import_params empty_world).2
           "linear:PROJ" "PROJ" "[]" demo_issues).
  - reflexivity.
  - discriminate.
  - reflexivity.
  - discriminate.
  - reflexivity.
  - reflexivity.
  - vm_compute. reflexivity.
Defined.

Lemma runWorkflow_context_witness :
  exists row ctx,
    runs (committed (runWorkflow import_host import_params empty_world).2) = [row] /\
    run_context row = JSON_stringify import_host (json_of_context ctx) /\
    ctx !! "linear_source" = Some "linear:PROJ" /\
    is_Some (ctx !! "linear_mapping") /\
    ctx !! "task" = Some "Add login" /\
    ctx !! "linear_blank_slate" = None.
Proof.
  destruct (runWorkflow_context import_host import_params empty_world
              (mkRunResult "uuid-0" 1 "feature-dev" "Add login" Running)
              (runWorkflow import_host import_params empty_world).2)
    as (workflow & row & ctx & Hload & Hruns & Hctx & Hsrc & Hmap & Hrest).
  - vm_compute. reflexivity.
  - injection Hload as <-.
    exists row, ctx. split; [exact Hruns|]. split; [exact Hctx|].
    split; [exact Hsrc|]. split; [exact Hmap|].
    rewrite !Hrest by discriminate. split; reflexivity.
Defined.

(** * Further properties of the Linear adapter *)

(** ** Ties in the sort *)

Lemma compare_issues_same_rank (a b : LinearIssue) :
  same_rank a b -> ~ (0 < compare_issues a b)%Qc.
Proof.
  intros [Hp Hs]. unfold compare_issues.
  rewrite bool_decide_eq_false_2 by (intros H; by apply H).
  rewrite Hs, Qc_pos_minus. intros H. by apply (Qclt_not_eq _ _ H).
Qed.

Lemma same_rank_trans_l (k a b : LinearIssue) : same_rank k a -> same_rank k b -> same_rank a b.
Proof. intros [? ?] [? ?]. split; congruence. Qed.

Lemma sort_insert_stable (k x : LinearIssue) (l : list LinearIssue) :
  filter (same_rank k) (sort_insert compare_issues x l) = filter (same_rank k) (x :: l).
Proof.
  induction l as [|y l IH]; [done|]. simpl.
  case_bool_decide as Hc; [|done].
  rewrite filter_cons, IH, !filter_cons.
  destruct (decide (same_rank k y)) as [Hy|Hy]; [|done].
  destruct (decide (same_rank k x)) as [Hx|Hx]; [|done].
  destruct (compare_issues_same_rank x y (same_rank_trans_l k x y Hx Hy) Hc).
Qed.

(** X11: the sort of [exportProjectStories] is stable: issues with the same
    priority (0 counted as 5) and the same [sortOrder] appear in the exported
    backlog in the order in which Linear listed them. *)
Theorem exportProjectStories_sort_stable (k : LinearIssue) (issues : list LinearIssue) :
  filter (same_rank k) (sort compare_issues issues) = filter (same_rank k) issues.
Proof.
  induction issues as [|x l IH]; [done|]. simpl.
  by rewrite sort_insert_stable, !filter_cons, IH.
Qed.

Example exportProjectStories_ties_demo :
  map li_id (sort compare_issues
               [ demo_issue "first" 2 5; demo_issue "urgent" 1 9; demo_issue "second" 2 5;
                 demo_issue "none" 0 0; demo_issue "third" 2 5 ])
  = ["urgent"; "first"; "second"; "third"; "none"].
Proof. vm_compute. reflexivity. Qed.

(** ** Story ids *)

Lemma padded_number_decodes (n : nat) :
  Nat.of_uint <$> NilEmpty.uint_of_string (padStart (String_of_nat n) 2 "0") = Some n.
Proof.
  assert (Hn : Nat.of_uint <$> NilEmpty.uint_of_string (String_of_nat n) = Some n).
  { unfold String_of_nat. rewrite NilEmpty.usu. simpl. f_equal.
    apply DecimalNat.Unsigned.of_to. }
  unfold padStart.
  destruct (2 - String.length (String_of_nat n)) as [|[|[|k]]] eqn:Hlen.
  - exact Hn.
  - change (repeat_str "0" 1 ++ String_of_nat n)
      with (String "0"%char (String_of_nat n)).
    cbn [NilEmpty.uint_of_string].
    destruct (NilEmpty.uint_of_string (String_of_nat n)); [exact Hn | done].
  - change (repeat_str "0" 2 ++ String_of_nat n)
      with (String "0"%char (String "0"%char (String_of_nat n))).
    cbn [NilEmpty.uint_of_string].
    destruct (NilEmpty.uint_of_string (String_of_nat n)); [exact Hn | done].
  - lia.
Qed.

Lemma story_id_of_index_inj (i j : nat) :
  story_id_of_index i = story_id_of_index j -> i = j.
Proof.
  unfold story_id_of_index. intros H. apply (string_app_inv_head "S") in H.
  assert (Some (i + 1) = Some (j + 1)) as [= Hij]
    by (by rewrite <- !padded_number_decodes, H).
  lia.
Qed.

Lemma imap_story_ids_NoDup (host : Host) (sorted : list LinearIssue) :
  NoDup (map ls_id (imap (fun i issue => story_of_issue host (story_id_of_index i) issue)
                         sorted)).
Proof.
  assert (H : forall start,
             NoDup (map ls_id (imap (fun i issue =>
                                       story_of_issue host (story_id_of_index (start + i)) issue)
                                    sorted))
             /\ forall id, id ∈ map ls_id (imap (fun i issue =>
                                       story_of_issue host (story_id_of_index (start + i)) issue)
                                    sorted) ->
                           exists i, start <= i /\ id = story_id_of_index i).
  { induction sorted as [|y rest IH]; intros start; simpl.
    - split; [constructor|]. intros id Hid. by apply elem_of_nil in Hid.
    - destruct (IH (S start)) as [Hnd Hin].
      erewrite (imap_ext _ (fun i issue =>
                              story_of_issue host (story_id_of_index (S start + i)) issue))
        by (intros; simpl; do 2 f_equal; lia).
      split.
      + apply NoDup_cons. split; [|done]. intros Hy.
        destruct (Hin _ Hy) as (i & Hle & Heq).
        apply story_id_of_index_inj in Heq. lia.
      + intros id Hid. apply elem_of_cons in Hid as [-> | Hid].
        * exists (start + 0). split; [lia | done].
        * destruct (Hin _ Hid) as (i & Hle & ->). exists i. split; [lia | done]. }
  apply (proj1 (H 0)).
Qed.

(** X12: the story ids handed out by [exportProjectStories] are pairwise
    distinct, however many issues the project has (the two-digit padding
    widens to three and more digits from the hundredth story on). *)
Theorem exportProjectStories_ids_distinct (host : Host) projectId w stories w1 :
  exportProjectStories host projectId w = (Ok stories, w1) ->
  NoDup (map ls_id stories).
Proof.
  unfold exportProjectStories, bind.
  destruct (linearJson _ _ _ _) as [[[[|x l]|]|e] w2]; try done.
  unfold ret. intros [= <- _].
  apply imap_story_ids_NoDup.
Qed.

Lemma exportProjectStories_ids_distinct_witness :
  NoDup (map ls_id [ story_of_issue import_host "S01" (demo_issue "c" 1 9);
                     story_of_issue import_host "S02" (demo_issue "d" 2 3);
                     story_of_issue import_host "S03" (demo_issue "b" 2 7);
                     story_of_issue import_host "S04" (demo_issue "a" 0 1) ]).
Proof.
  apply (exportProjectStories_ids_distinct import_host "PROJ" empty_world _
           (tick_cli empty_world)).
  vm_compute. reflexivity.
Defined.

(** ** The state cache *)

(** X13: [getTeamStates] caches per team.  After a successful call the same
    call again is answered from the cache, with the same map and without
    touching the [linear] tool or anything else; a failed call caches
    nothing for the team, so the next call asks the tool again. *)
Theorem getTeamStates_cached (host : Host) (teamId : string) (w : World) :
  match getTeamStates host teamId w with
  | (Ok m, w1) =>
      getTeamStates host teamId w1 = (Ok m, w1) /\
      forall stateName,
        resolveStateId host teamId stateName w1
        = (Ok (m !! toLowerCase host stateName), w1)
  | (Throw _, w1) =>
      default ∅ (stateCache w1) !! teamId = None /\
      cli_calls w1 = S (cli_calls w)
  end.
Proof.
  assert (Hhit : forall cache m w0,
             stateCache w0 = Some cache -> cache !! teamId = Some m ->
             getTeamStates host teamId w0 = (Ok m, w0)).
  { intros cache m w0 Hc Hm. unfold getTeamStates. rewrite Hc. simpl. rewrite Hm.
    f_equal. destruct w0. simpl in *. by rewrite Hc. }
  unfold getTeamStates at 1.
  destruct (default ∅ (stateCache w) !! teamId) as [m|] eqn:Hlook.
  - assert (H1 : getTeamStates host teamId (set_stateCache (Some (default ∅ (stateCache w))) w)
                 = (Ok m, set_stateCache (Some (default ∅ (stateCache w))) w))
      by (by eapply Hhit).
    split; [exact H1|]. intros stateName. unfold resolveStateId, bind. by rewrite H1.
  - unfold bind, linearJson, bind, linearExec, try_catch, lift, throw. simpl.
    destruct (execFileSync_linear host (cli_calls w) _) as [out|e]; simpl; [|done].
    destruct (parse_states host out) as [states|e]; simpl; [|done].
    match goal with |- ?g ?t ?w1 = _ /\ _ =>
      assert (H1 : g t w1 = (Ok (fold_left (fun m s => <[toLowerCase host (st_name s) := st_id s]> m)
                                           states ∅), w1))
    end.
    { eapply Hhit; [reflexivity|]. by rewrite lookup_insert_eq. }
    split; [exact H1|]. intros stateName. unfold resolveStateId, bind. by rewrite H1.
Qed.

(** X14: when [moveIssue] is given a team whose states are not cached and
    the state list cannot be fetched, it logs a warning and returns after
    that single call of the [linear] tool: the move is not attempted, not
    even by state name. *)
Theorem moveIssue_lookup_failure (host : Host) (issueId stateName team : string)
    (w : World) (e : exn) :
  team <> "" ->
  default ∅ (stateCache w) !! team = None ->
  execFileSync_linear host (cli_calls w) ["state"; "list"; "--team"; team; "--json"]
  = Throw e ->
  exists msg w',
    moveIssue host issueId stateName (Some team) w = (Ok tt, w') /\
    logs w' = (logs w ++ [mkLog "warn" msg []])%list /\
    cli_calls w' = S (cli_calls w).
Proof.
  intros Hteam Hcache Hcli.
  unfold moveIssue, try_catch. rewrite (truthy_str_Some team Hteam).
  cbn [default from_option id].
  unfold bind at 1, resolveStateId, bind at 1, getTeamStates.
  rewrite Hcache.
  unfold bind at 1, linearJson, bind at 1, linearExec, try_catch, throw. simpl.
  rewrite Hcli. simpl. eauto.
Qed.

Lemma moveIssue_lookup_failure_witness :
  exists msg w',
    moveIssue (demo_host false true None None) "id-1" "In Progress" (Some "TEAM") empty_world
    = (Ok tt, w') /\
    logs w' = [mkLog "warn" msg []] /\
    cli_calls w' = 1.
Proof.
  apply (moveIssue_lookup_failure (demo_host false true None None) "id-1" "In Progress" "TEAM"
           empty_world (Error "spawnSync linear ENOENT")).
  - discriminate.
  - reflexivity.
  - reflexivity.
Defined.

(** ** Acceptance criteria *)

Lemma last_cons_snoc {A} (a x : A) (l : list A) : last (a :: l ++ [x])%list = Some x.
Proof. rewrite app_comm_cons. apply last_snoc. Qed.

(** X15: [parseAcceptanceCriteria] never returns an empty list: it returns
    at least two criteria and the last one is always "Typecheck passes".
    Checkbox items win over numbered items, which are only looked for when
    there is no checkbox item; with neither, the three generic criteria are
    returned. *)
Theorem parseAcceptanceCriteria_shape (hh : HooksHost) (description : string) :
  let result := parseAcceptanceCriteria_of hh description in
  last result = Some "Typecheck passes" /\
  2 <= length result /\
  (checkboxRe_captures hh description <> [] ->
   result = (map (String_trim hh) (checkboxRe_captures hh description)
             ++ ["Typecheck passes"])%list) /\
  (checkboxRe_captures hh description = [] ->
   numberedRe_captures hh description <> [] ->
   result = (map (String_trim hh) (numberedRe_captures hh description)
             ++ ["Typecheck passes"])%list) /\
  (checkboxRe_captures hh description = [] ->
   numberedRe_captures hh description = [] ->
   result = [ "Implementation matches the issue description";
              "Tests for the feature pass";
              "Typecheck passes" ]).
Proof.
  unfold parseAcceptanceCriteria_of.
  destruct (checkboxRe_captures hh description) as [|c cs]; simpl.
  - destruct (numberedRe_captures hh description) as [|n ns]; simpl.
    + repeat split; try done. lia.
    + rewrite last_cons_snoc, length_app, length_map. simpl. repeat split; try done. lia.
  - rewrite last_cons_snoc, length_app, length_map. simpl. repeat split; try done. lia.
Qed.

(** ** Creating Linear issues from planner stories *)

Section CreateIssues.
Context (host : Host) (hh : HooksHost) (params : CreateLinearIssuesParams).

Lemma createLinearIssues_loop_spec (todo : list PlannerStory) :
  forall results w,
    match createLinearIssues_loop host hh params todo results w with
    | (Ok res, w') =>
        cli_calls w' = cli_calls w + length todo /\
        exists created,
          length created = length todo /\
          res = (results ++ zip_with created_story todo created)%list
    | (Throw _, w') =>
        exists k,
          k < length todo /\
          cli_calls w' = cli_calls w + S k /\
          forall j story,
            j < k -> todo !! j = Some story ->
            exists out created,
              execFileSync_linear host (cli_calls w + j)
                                  (createArgs_of params story ++ ["--json"])%list = Ok out /\
              parse_created_issue hh out = Ok created
    end.
Proof.
  induction todo as [|story rest IH]; intros results w.
  - simpl. split; [lia|]. exists []. split; [done|]. by rewrite app_nil_r.
  - cbn [createLinearIssues_loop]. unfold bind at 1, linearJson, bind at 1, linearExec,
      try_catch, throw, lift.
    destruct (execFileSync_linear host (cli_calls w) _) as [out|e] eqn:Hcli.
    2: { exists 0. cbn [length cli_calls tick_cli]. split; [lia|]. split; [lia|].
         intros j s Hj. lia. }
    destruct (parse_created_issue hh out) as [created|e] eqn:Hparse.
    2: { exists 0. cbn [length cli_calls tick_cli]. split; [lia|]. split; [lia|].
         intros j s Hj. lia. }
    specialize (IH (results ++ [created_story story created])%list (tick_cli w)).
    unfold created_story at 1 in IH.
    destruct (createLinearIssues_loop host hh params rest _ (tick_cli w)) as [[res|e] w'].
    + destruct IH as (Hcalls & cs & Hlen & ->). simpl in Hcalls. split; [simpl; lia|].
      exists (created :: cs). split; [simpl; lia|]. by rewrite <- app_assoc.
    + destruct IH as (k & Hk & Hcalls & Hprev). simpl in Hcalls.
      exists (S k). split; [simpl; lia|]. split; [lia|].
      intros j s Hj Hlook. destruct j as [|j]; simpl in Hlook.
      * injection Hlook as <-. rewrite Nat.add_0_r. eauto.
      * destruct (Hprev j s ltac:(lia) Hlook) as (out' & c' & Ho & Hc).
        exists out', c'. simpl in Ho. rewrite <- Nat.add_succ_comm. done.
Qed.

End CreateIssues.

Lemma createLinearIssues_loop_answers (host : Host) (hh : HooksHost)
    (params : CreateLinearIssuesParams) (todo : list PlannerStory) :
  forall results w res w',
    createLinearIssues_loop host hh params todo results w = (Ok res, w') ->
    exists created,
      length created = length todo /\
      res = (results ++ zip_with created_story todo created)%list /\
      forall j story c,
        todo !! j = Some story -> created !! j = Some c ->
        exists out,
          execFileSync_linear host (cli_calls w + j)
                              (createArgs_of params story ++ ["--json"])%list = Ok out /\
          parse_created_issue hh out = Ok c.
Proof.
  induction todo as [|story rest IH]; intros results w res w'.
  - simpl. intros [= <- _]. exists []. by rewrite app_nil_r.
  - cbn [createLinearIssues_loop]. unfold bind at 1, linearJson, bind at 1, linearExec,
      try_catch, throw, lift.
    destruct (execFileSync_linear host (cli_calls w) _) as [out|e] eqn:Hcli; [|done].
    destruct (parse_created_issue hh out) as [created|e] eqn:Hparse; [|done].
    intros Hrest.
    destruct (IH (results ++ [created_story story created])%list (tick_cli w) res w' Hrest)
      as (cs & Hlen & -> & Hans).
    exists (created :: cs). split; [simpl; lia|]. split; [by rewrite <- app_assoc|].
    intros j s c Hj Hc. destruct j as [|j]; simpl in Hj, Hc.
    + injection Hj as <-. injection Hc as <-. rewrite Nat.add_0_r. eauto.
    + destruct (Hans j s c Hj Hc) as (out' & Ho & Hp). exists out'.
      simpl in Ho. rewrite <- Nat.add_succ_comm. done.
Qed.

(** X16: when [createLinearIssues] returns, it has called the [linear] tool
    once per story, in order, and returns one result per story, in order:
    the result for the story at position [i] carries the story's id,
    description and criteria, the id and the identifier that the tool
    answered to that story's call (call number [i], with the story's
    arguments), and the title prefixed with that identifier in brackets. *)
Theorem createLinearIssues_results (host : Host) (hh : HooksHost) params w results w' :
  createLinearIssues host hh params w = (Ok results, w') ->
  cli_calls w' = cli_calls w + length (cp_stories params) /\
  length results = length (cp_stories params) /\
  forall i story,
    cp_stories params !! i = Some story ->
    exists res out created,
      results !! i = Some res /\
      execFileSync_linear host (cli_calls w + i)
                          (createArgs_of params story ++ ["--json"])%list = Ok out /\
      parse_created_issue hh out = Ok created /\
      ls_linearIssueId res = fst created /\
      ls_linearIdentifier res = snd created /\
      ls_id res = ps_id story /\
      ls_description res = ps_description story /\
      ls_acceptanceCriteria res = ps_acceptanceCriteria story /\
      ls_title res = "[" ++ snd created ++ "] " ++ ps_title story.
Proof.
  intros Hrun. unfold createLinearIssues in Hrun.
  pose proof (createLinearIssues_loop_spec host hh params (cp_stories params) [] w) as H.
  rewrite Hrun in H. destruct H as (Hcalls & _).
  destruct (createLinearIssues_loop_answers host hh params _ _ _ _ _ Hrun)
    as (created & Hlen & -> & Hans). simpl.
  split; [done|]. split; [rewrite length_zip_with; lia|].
  intros i story Hi.
  destruct (lookup_lt_is_Some_2 created i) as [c Hc].
  { rewrite Hlen. by eapply lookup_lt_Some. }
  destruct (Hans i story c Hi Hc) as (out & Ho & Hp).
  exists (created_story story c), out, c. split; [|done].
  rewrite lookup_zip_with, Hi. simpl. by rewrite Hc.
Qed.


Lemma createLinearIssues_results_witness :
  cli_calls (createLinearIssues import_host (demo_hooks ∅ []) demo_create_params empty_world).2
  = 0 + length (cp_stories demo_create_params) /\
  length [ created_story (mkPlannerStory "S01" "Login form" "Build the form" ["Form renders"])
                         ("issue-uuid", "ENG-42");
           created_story (mkPlannerStory "S02" "Session" "Keep the session" ["Cookie set"])
                         ("issue-uuid", "ENG-42") ]
  = length (cp_stories demo_create_params) /\
  forall i story,
    cp_stories demo_create_params !! i = Some story ->
    exists res out created,
      [ created_story (mkPlannerStory "S01" "Login form" "Build the form" ["Form renders"])
                      ("issue-uuid", "ENG-42");
        created_story (mkPlannerStory "S02" "Session" "Keep the session" ["Cookie set"])
                      ("issue-uuid", "ENG-42") ] !! i = Some res /\
      execFileSync_linear import_host (0 + i)
                          (createArgs_of demo_create_params story ++ ["--json"])%list = Ok out /\
      parse_created_issue (demo_hooks ∅ []) out = Ok created /\
      ls_linearIssueId res = fst created /\
      ls_linearIdentifier res = snd created /\
      ls_id res = ps_id story /\
      ls_description res = ps_description story /\
      ls_acceptanceCriteria res = ps_acceptanceCriteria story /\
      ls_title res = "[" ++ snd created ++ "] " ++ ps_title story.
Proof.
  apply (createLinearIssues_results import_host (demo_hooks ∅ []) demo_create_params
           empty_world).
  vm_compute. reflexivity.
Defined.


(** ** The hooks *)

Section HookProperties.
Context (host : Host) (hh : HooksHost).

Lemma moveIssue_total issueId stateName teamId w :
  exists w', moveIssue host issueId stateName teamId w = (Ok tt, w').
Proof.
  unfold moveIssue, try_catch.
  match goal with |- context [match ?m w with _ => _ end] =>
    destruct (m w) as [[[]|e] w1] end; unfold logger_warn; eauto.
Qed.

Lemma addComment_total issueId body w :
  exists w', addComment host issueId body w = (Ok tt, w').
Proof.
  unfold addComment, try_catch.
  match goal with |- context [match ?m w with _ => _ end] =>
    destruct (m w) as [[[]|e] w1] end; unfold logger_warn; eauto.
Qed.

Lemma move_then_comment_total issueId stateName teamId body w :
  exists w', (do! moveIssue host issueId stateName teamId in addComment host issueId body) w
             = (Ok tt, w').
Proof.
  unfold bind. destruct (moveIssue_total issueId stateName teamId w) as (w1 & ->).
  apply addComment_total.
Qed.

Lemma onPRCreated_loop_total prUrl entries :
  forall w, exists w', onPRCreated_loop host prUrl entries w = (Ok tt, w').
Proof.
  induction entries as [|[k entry] rest IH]; intros w; simpl; [by eexists|].
  unfold bind at 1. destruct (moveIssue_total (me_linearIssueId entry) "Done"
                                (me_teamId entry) w) as (w1 & ->).
  unfold bind at 1, linkPR.
  destruct (addComment_total (me_linearIssueId entry)
              ("🔗 Pull Request: " ++ prUrl) w1) as (w2 & ->).
  apply IH.
Qed.

(** X18: a hook throws exactly when reading the run's mapping throws (the
    database read fails, or the run's context is not valid JSON: both happen
    outside the [try] blocks), and then with that error; once the mapping
    has been read, no failure of the [linear] tool makes a hook throw. *)
Theorem hooks_throw_only_from_mapping_read (runId storyId prUrl error : string) (w : World) :
  match getLinearMapping host hh runId w with
  | (Throw e, w1) =>
      onStoryStarted host hh runId storyId w = (Throw e, w1) /\
      onStoryDone host hh runId storyId w = (Throw e, w1) /\
      onPRCreated host hh runId prUrl w = (Throw e, w1) /\
      onStoryFailed host hh runId storyId error w = (Throw e, w1)
  | (Ok _, _) =>
      (exists w', onStoryStarted host hh runId storyId w = (Ok tt, w')) /\
      (exists w', onStoryDone host hh runId storyId w = (Ok tt, w')) /\
      (exists w', onPRCreated host hh runId prUrl w = (Ok tt, w')) /\
      (exists w', onStoryFailed host hh runId storyId error w = (Ok tt, w'))
  end.
Proof.
  destruct (getLinearMapping host hh runId w) as [[[mapping|]|e] w1] eqn:Hm.
  - repeat split.
    + unfold onStoryStarted, bind at 1. rewrite Hm.
      destruct (Map_get storyId mapping); [apply move_then_comment_total | by eexists].
    + unfold onStoryDone, bind at 1. rewrite Hm.
      destruct (Map_get storyId mapping); [apply move_then_comment_total | by eexists].
    + unfold onPRCreated, bind at 1. rewrite Hm. apply onPRCreated_loop_total.
    + unfold onStoryFailed, bind at 1. rewrite Hm.
      destruct (Map_get storyId mapping); [apply addComment_total | by eexists].
  - repeat split.
    + unfold onStoryStarted, bind at 1. rewrite Hm. by eexists.
    + unfold onStoryDone, bind at 1. rewrite Hm. by eexists.
    + unfold onPRCreated, bind at 1. rewrite Hm. by eexists.
    + unfold onStoryFailed, bind at 1. rewrite Hm. by eexists.
  - repeat split.
    + unfold onStoryStarted, bind at 1. by rewrite Hm.
    + unfold onStoryDone, bind at 1. by rewrite Hm.
    + unfold onPRCreated, bind at 1. by rewrite Hm.
    + unfold onStoryFailed, bind at 1. by rewrite Hm.
Qed.

(** X19: for a run that is unknown, or whose context has no (or an empty)
    [linear_mapping], or whose [linear_mapping] does not parse, the four
    hooks do nothing beyond the database read: no call of the [linear] tool
    and no log entry. *)
Theorem hooks_noop_without_mapping (runId storyId prUrl error : string) (w : World) :
  db_fault host (db_calls w) = None ->
  db_fault host (S (db_calls w)) = None ->
  (forall run,
     find (fun r => (run_id r =? runId)%string) (runs (view w)) = Some run ->
     exists ctx,
       parse_context hh (run_context run) = Ok ctx /\
       (truthy_str (ctx !! "linear_mapping") = false \/
        exists e, parse_mapping hh (default "" (ctx !! "linear_mapping")) = Throw e)) ->
  getLinearMapping host hh runId w = (Ok None, tick_db (tick_db w)) /\
  onStoryStarted host hh runId storyId w = (Ok tt, tick_db (tick_db w)) /\
  onStoryDone host hh runId storyId w = (Ok tt, tick_db (tick_db w)) /\
  onPRCreated host hh runId prUrl w = (Ok tt, tick_db (tick_db w)) /\
  onStoryFailed host hh runId storyId error w = (Ok tt, tick_db (tick_db w)).
Proof.
  intros Hf1 Hf2 Hrun.
  assert (Hmap : getLinearMapping host hh runId w = (Ok None, tick_db (tick_db w))).
  { unfold getLinearMapping, bind at 1, db_prepare, db_statement. rewrite Hf1.
    unfold bind at 1, selectRun_get. cbn [db_calls tick_db]. rewrite Hf2.
    change (view (tick_db w)) with (view w).
    destruct (find _ (runs (view w))) as [run|] eqn:Hfind; [|done].
    destruct (Hrun run eq_refl) as (ctx & Hctx & Hcases).
    unfold bind at 1, lift. rewrite Hctx.
    destruct (truthy_str (ctx !! "linear_mapping")) eqn:Ht; [|done].
    destruct Hcases as [? | [e He]]; [done|].
    unfold try_catch, bind, lift. cbn [negb]. by rewrite He. }
  split; [exact Hmap|]. repeat split.
  - unfold onStoryStarted, bind at 1. by rewrite Hmap.
  - unfold onStoryDone, bind at 1. by rewrite Hmap.
  - unfold onPRCreated, bind at 1. by rewrite Hmap.
  - unfold onStoryFailed, bind at 1. by rewrite Hmap.
Qed.

End HookProperties.

Lemma hooks_noop_without_mapping_witness :
  let w := (runWorkflow import_host plain_params empty_world).2 in
  let hh := demo_hooks (initialContext plain_params demo_workflow) [] in
  getLinearMapping import_host hh "uuid-0" w = (Ok None, tick_db (tick_db w)) /\
  onStoryStarted import_host hh "uuid-0" "S01" w = (Ok tt, tick_db (tick_db w)) /\
  onStoryDone import_host hh "uuid-0" "S01" w = (Ok tt, tick_db (tick_db w)) /\
  onPRCreated import_host hh "uuid-0" "https://example.test/pr/1" w
  = (Ok tt, tick_db (tick_db w)) /\
  onStoryFailed import_host hh "uuid-0" "S01" "boom" w = (Ok tt, tick_db (tick_db w)).
Proof.
  apply (hooks_noop_without_mapping import_host
           (demo_hooks (initialContext plain_params demo_workflow) [])).
  - reflexivity.
  - reflexivity.
  - intros run _. exists (initialContext plain_params demo_workflow).
    split; [reflexivity|]. left. vm_compute. reflexivity.
Defined.

(** ** From run creation to the hooks *)

Lemma Map_set_fresh {V} (k : string) (v : V) (m : list (string * V)) :
  k ∉ map fst m -> Map_set k v m = (m ++ [(k, v)])%list.
Proof.
  induction m as [|[k' v'] m IH]; intros Hk; simpl; [done|].
  simpl in Hk. apply not_elem_of_cons in Hk as [Hne Hk].
  rewrite (proj2 (String.eqb_neq k' k)) by congruence. by rewrite IH.
Qed.

Lemma Map_of_entries (es : list MappingEntry) :
  forall acc,
    NoDup (map fst acc ++ map me_storyId es) ->
    fold_left (fun m e => Map_set (me_storyId e) e m) es acc
    = (acc ++ map (fun e => (me_storyId e, e)) es)%list.
Proof.
  induction es as [|e es IH]; intros acc Hnd; simpl; [by rewrite app_nil_r|].
  simpl in Hnd. apply NoDup_app in Hnd as (Hacc & Hdisj & Hes).
  apply NoDup_cons in Hes as [He Hes].
  rewrite Map_set_fresh by (intros Hin; apply (Hdisj _ Hin); by left).
  rewrite IH; [by rewrite <- app_assoc|].
  rewrite map_app. simpl. rewrite <- app_assoc. simpl.
  apply NoDup_app. split; [done|]. split.
  - intros k Hk Hin. apply elem_of_cons in Hin as [-> | Hin].
    + apply (Hdisj _ Hk). by left.
    + apply (Hdisj _ Hk). by right.
  - by apply NoDup_cons.
Qed.

Lemma Map_get_entries (es : list MappingEntry) (e : MappingEntry) :
  NoDup (map me_storyId es) -> e ∈ es ->
  Map_get (me_storyId e) (map (fun e => (me_storyId e, e)) es) = Some e.
Proof.
  unfold Map_get. induction es as [|x es IH]; intros Hnd Hin; [by apply elem_of_nil in Hin|].
  simpl in *. apply NoDup_cons in Hnd as [Hx Hnd].
  destruct (String.eqb_spec (me_storyId x) (me_storyId e)) as [Heq|Hne].
  - apply elem_of_cons in Hin as [-> | Hin]; [done|].
    exfalso. apply Hx. rewrite Heq. apply list_elem_of_fmap. by exists e.
  - apply elem_of_cons in Hin as [-> | Hin]; [done|]. by apply IH.
Qed.

Lemma find_last_fresh (id : string) (old : list RunRow) (row : RunRow) :
  Forall (fun r => run_id r <> id) old -> run_id row = id ->
  find (fun r => (run_id r =? id)%string) (old ++ [row]) = Some row.
Proof.
  intros Hold Hrow. induction Hold as [|r old Hr _ IH]; simpl.
  - by rewrite (proj2 (String.eqb_eq _ _) Hrow).
  - by rewrite (proj2 (String.eqb_neq _ _) Hr).
Qed.

Section RoundTrip.
Context (host : Host) (hh : HooksHost).

Lemma runWorkflow_pending params w r w' :
  runWorkflow host params w = (Ok r, w') -> pending w' = None.
Proof.
  rewrite runWorkflow_unfold.
  destruct (loadWorkflowSpec host (workflowId params)) as [workflow|e]; [|done].
  destruct (linearPreprocessing _ _ _ _ _) as [[prep|e] w1]; [|done]. cbn zeta.
  match goal with |- context [createTransaction ?h ?p ?wf ?id ?n ?t ?c ?ls ?sk ?st w1] =>
    pose proof (createTransaction_spec h p wf id n t c ls sk st w1) as Htx;
    destruct (createTransaction h p wf id n t c ls sk st w1) as [[[]|e] w2]
  end; [|done].
  destruct Htx as (_ & Hp2 & _).
  assert (H3 : forall w0, pending w0 = None ->
            pending (startCrons host workflow (randomUUID host (uuid_calls w)) w0).2 = None).
  { unfold startCrons, try_catch. intros w0 H0.
    destruct (ensureWorkflowCrons host _ _); [|done].
    unfold bind, db_prepare, updateRunFailed_run, db_statement, Date_toISOString. simpl.
    destruct (db_fault host (db_calls w0)); [done|]. simpl.
    destruct (db_fault host (S (db_calls w0))); [done|]. simpl.
    unfold write. simpl. by rewrite H0. }
  specialize (H3 w2 Hp2).
  destruct (startCrons _ _ _ _) as [[[]|e] w3]; [|done].
  simpl in H3. intros [= _ <-]. simpl. congruence.
Qed.

Lemma linearPreprocessing_mapping params workflow ctx w prep w1 backlog :
  linearPreprocessing host params workflow ctx w = (Ok prep, w1) ->
  p_linearStories prep = Some backlog ->
  truthy_str (storiesFrom params) = true /\
  p_context prep !! "linear_mapping" = Some (JSON_stringify host (linearMapping_of backlog)) /\
  NoDup (map ls_id backlog).
Proof.
  unfold linearPreprocessing.
  destruct (truthy_str (storiesFrom params)); [|by intros [= <- _]].
  destruct (negb _); [done|].
  unfold bind at 1.
  match goal with |- context [match ?m w with _ => _ end] =>
    destruct (m w) as [[stories|e] w2] eqn:Hexport end; [|done].
  unfold bind at 1.
  destruct (ensureLabel host "wbs/nick" w2) as [[labelId|e] w3]; [|done].
  unfold bind, logger_info, ret. intros [= <- _]. simpl. intros [= <-].
  split; [done|]. split; [by rewrite lookup_insert_ne, lookup_insert_eq|].
  repeat case_bool_decide.
  - revert Hexport. unfold exportProjectStories, bind.
    destruct (linearJson _ _ _ _) as [[[[|x l]|]|e] w4]; try done.
    unfold ret. intros [= <- _]. apply imap_story_ids_NoDup.
  - revert Hexport. unfold exportIssueStory, bind.
    destruct (linearJson _ _ _ _) as [[issue|e] w4]; [|done].
    intros [= <- _]. simpl. apply NoDup_singleton.
  - done.
Qed.

(** X20: what [runWorkflow] writes, the hooks read back.  For a run created
    with imported stories, whose id was not in the store before, and with a
    JSON parser that inverts [JSON.stringify] on the run's context and
    mapping, [getLinearMapping] of the returned id finds, for every story of
    the backlog, the entry with that story's Linear issue id and identifier;
    its entries are in backlog order and none carries a team id (so
    [moveIssue] moves by state name). *)
Theorem runWorkflow_mapping_round_trip params w r w' workflow prep w1 backlog :
  runWorkflow host params w = (Ok r, w') ->
  loadWorkflowSpec host (workflowId params) = Ok workflow ->
  linearPreprocessing host params workflow (initialContext params workflow) (after_ids w)
  = (Ok prep, w1) ->
  p_linearStories prep = Some backlog ->
  Forall (fun row => run_id row <> res_id r) (runs (committed w)) ->
  db_fault host (db_calls w') = None ->
  db_fault host (S (db_calls w')) = None ->
  parse_context hh (JSON_stringify host (json_of_context (blankSlate params (p_context prep))))
  = Ok (blankSlate params (p_context prep)) ->
  JSON_stringify host (linearMapping_of backlog) <> "" ->
  parse_mapping hh (JSON_stringify host (linearMapping_of backlog))
  = Ok (map entry_of_story backlog) ->
  exists mapping,
    getLinearMapping host hh (res_id r) w' = (Ok (Some mapping), tick_db (tick_db w')) /\
    mapping = map (fun s => (ls_id s, entry_of_story s)) backlog /\
    forall s, s ∈ backlog ->
      Map_get (ls_id s) mapping
      = Some (mkMappingEntry (ls_id s) (ls_linearIssueId s) (ls_linearIdentifier s) None).
Proof.
  intros Hrun Hload Hprep Hback Hfresh Hf1 Hf2 Hpctx Hne Hpmap.
  pose proof (runWorkflow_pending params w r w' Hrun) as Hpend.
  destruct (runWorkflow_committed host params w r w' Hrun)
    as (workflow' & prep' & w1' & Hload' & Hprep' & Hr & Hc).
  assert (workflow' = workflow) as -> by congruence.
  rewrite Hprep in Hprep'. injection Hprep' as <- <-.
  destruct (linearPreprocessing_mapping _ _ _ _ _ _ _ Hprep Hback) as (Hsf & Hmap & Hnd).
  assert (Hctx : blankSlate params (p_context prep) !! "linear_mapping"
                 = Some (JSON_stringify host (linearMapping_of backlog))).
  { unfold blankSlate. rewrite Hsf. exact Hmap. }
  assert (Hnd' : NoDup (map me_storyId (map entry_of_story backlog))).
  { rewrite map_map. exact Hnd. }
  exists (map (fun s => (ls_id s, entry_of_story s)) backlog). split; [|split; [done|]].
  - unfold getLinearMapping, bind at 1, db_prepare, db_statement. rewrite Hf1.
    unfold bind at 1, selectRun_get. cbn [db_calls tick_db]. rewrite Hf2.
    change (view (tick_db w')) with (view w'). unfold view. rewrite Hpend, Hc.
    unfold tables_with_run. cbn [runs].
    rewrite (find_last_fresh (res_id r) _ _ Hfresh) by (by rewrite Hr).
    unfold bind at 1, lift.
    cbn [run_context new_run_row run_row]. rewrite Hpctx, Hctx.
    rewrite (truthy_str_Some _ Hne). cbn [negb default from_option id].
    unfold try_catch, bind, lift, ret. rewrite Hpmap.
    rewrite Map_of_entries by exact Hnd'. by rewrite map_map.
  - intros s Hs.
    pose proof (Map_get_entries (map entry_of_story backlog) (entry_of_story s) Hnd') as H.
    rewrite map_map in H. apply H. apply list_elem_of_fmap. by exists s.
Qed.

End RoundTrip.

Lemma runWorkflow_mapping_round_trip_witness :
  exists mapping,
    getLinearMapping import_host import_hooks "uuid-0"
      (runWorkflow import_host import_params empty_world).2
    = (Ok (Some mapping),
       tick_db (tick_db (runWorkflow import_host import_params empty_world).2)) /\
    mapping = map (fun s => (ls_id s, entry_of_story s)) import_backlog /\
    forall s, s ∈ import_backlog ->
      Map_get (ls_id s) mapping
      = Some (mkMappingEntry (ls_id s) (ls_linearIssueId s) (ls_linearIdentifier s) None).
Proof.
  apply (runWorkflow_mapping_round_trip import_host import_hooks import_params empty_world
           (mkRunResult "uuid-0" 1 "feature-dev" "Add login" Running)
           (runWorkflow import_host import_params empty_world).2
           demo_workflow import_prepared
           (linearPreprocessing import_host import_params demo_workflow
              (initialContext import_params demo_workflow) (after_ids empty_world)).2
           import_backlog).
  - vm_compute; reflexivity.
  - reflexivity.
  - vm_compute; reflexivity.
  - vm_compute; reflexivity.
  - apply Forall_nil_2.
  - vm_compute; reflexivity.
  - vm_compute; reflexivity.
  - vm_compute; reflexivity.
  - discriminate.
  - vm_compute; reflexivity.
Defined.

Example import_backlog_ids :
  map ls_id import_backlog = ["S01"; "S02"; "S03"; "S04"].
Proof. vm_compute. reflexivity. Qed.

(** * The medic's cron job *)

Section MedicProperties.
Import Medic.
Context (env : Env).

Lemma findIndex_None {A} (p : A -> bool) (l : list A) :
  findIndex p l = None <-> existsb p l = false.
Proof.
  induction l as [|x l IH]; simpl; [done|].
  destruct (p x); simpl; [split; discriminate|].
  destruct (findIndex p l); simpl; [split; [discriminate|]|tauto].
  intros H. apply IH in H. discriminate.
Qed.

Lemma findIndex_Some {A} (p : A -> bool) (l : list A) (i : nat) :
  findIndex p l = Some i ->
  exists before a after,
    l = (before ++ a :: after)%list /\ length before = i /\ p a = true /\
    existsb p before = false /\ delete i l = (before ++ after)%list.
Proof.
  revert i. induction l as [|x l IH]; intros i; simpl; [done|].
  destruct (p x) eqn:Hx.
  - intros [= <-]. by exists [], x, l.
  - destruct (findIndex p l) as [j|]; simpl; [|done]. intros [= <-].
    destruct (IH j eq_refl) as (before & a & after & -> & <- & Ha & Hb & Hd).
    exists (x :: before), a, after. simpl. rewrite Hx, Hb.
    repeat split; try done. simpl in Hd. by rewrite Hd.
Qed.

Lemma findIndex_snoc {A} (p : A -> bool) (l : list A) (a : A) :
  existsb p l = false -> p a = true -> findIndex p (l ++ [a])%list = Some (length l).
Proof.
  induction l as [|x l IH]; simpl; intros Hl Ha; [by rewrite Ha|].
  apply orb_false_iff in Hl as [-> Hl]. by rewrite IH.
Qed.

Lemma delete_snoc {A} (l : list A) (a : A) : delete (length l) (l ++ [a])%list = l.
Proof. induction l as [|x l IH]; simpl; [done|]. by rewrite IH. Qed.

Lemma agents_of_push_medic (config : Config) :
  agents_of (push_medic config) = (agents_of config ++ [medicAgent])%list.
Proof.
  unfold agents_of, push_medic. simpl.
  destruct (config_agents config) as [agents|]; simpl; [|done].
  by destruct (agents_list agents).
Qed.

Lemma agents_of_splice (idx : nat) (config : Config) :
  idx < length (agents_of config) ->
  agents_of (splice_agents idx config) = delete idx (agents_of config) /\
  config_other (splice_agents idx config) = config_other config.
Proof.
  unfold agents_of, splice_agents.
  destruct (config_agents config) as [agents|]; simpl; [|lia].
  destruct (agents_list agents); simpl; [done|lia].
Qed.

Lemma findMedicCronJob_state (s s1 : State) (r : result (option CronJob)) :
  findMedicCronJob env s = (r, s1) -> s1 = log_gateway ListCronJobs s.
Proof.
  unfold findMedicCronJob, await, listCronJobs, resolve.
  destruct (listCronJobs_answer env _) as [lr|e]; [|congruence].
  destruct (negb (list_ok lr)); [congruence|].
  destruct (list_jobs lr); congruence.
Qed.

Lemma ensureMedicAgent_total (s : State) :
  exists s' rest,
    ensureMedicAgent env s = (Ok tt, s') /\
    gateway_calls s' = gateway_calls s /\
    config_calls s' = (config_calls s ++ ReadConfig :: rest)%list.
Proof.
  unfold ensureMedicAgent, try_catch_all, await, readOpenClawConfig, resolve.
  destruct (readOpenClawConfig_answer env _) as [[path config]|e]; [|by eexists _, []].
  destruct (existsb is_medic (agents_of config)); [by eexists _, []|].
  unfold writeOpenClawConfig.
  destruct (writeOpenClawConfig_answer env _ _ _) as [[]|e];
    eexists _, [_]; (split; [reflexivity|]); simpl; by rewrite <- app_assoc.
Qed.

Lemma removeMedicAgent_total (s : State) :
  exists s' rest,
    removeMedicAgent env s = (Ok tt, s') /\
    gateway_calls s' = gateway_calls s /\
    config_calls s' = (config_calls s ++ ReadConfig :: rest)%list.
Proof.
  unfold removeMedicAgent, try_catch_all, await, readOpenClawConfig, resolve.
  destruct (readOpenClawConfig_answer env _) as [[path config]|e]; [|by eexists _, []].
  destruct (findIndex is_medic (agents_of config)); [|by eexists _, []].
  unfold writeOpenClawConfig.
  destruct (writeOpenClawConfig_answer env _ _ _) as [[]|e];
    eexists _, [_]; (split; [reflexivity|]); simpl; by rewrite <- app_assoc.
Qed.

(** X21: installing is idempotent on the gateway's word.  When
    [listCronJobs] answers [ok] with a job named [antfarm/medic],
    [installMedicCron] returns [{ ok: true }] after that one call: it neither
    creates a job nor reads or writes the configuration; and
    [isMedicCronInstalled] answers [true]. *)
Theorem installMedicCron_already_installed (s : State) (lr : ListResult)
    (jobs : list CronJob) (job : CronJob) :
  listCronJobs_answer env (length (gateway_calls s)) = Ok lr ->
  list_ok lr = true ->
  list_jobs lr = Some jobs ->
  job ∈ jobs ->
  job_name job = MEDIC_CRON_NAME ->
  installMedicCron env s = (Ok ok_true, log_gateway ListCronJobs s) /\
  isMedicCronInstalled env s = (Ok true, log_gateway ListCronJobs s).
Proof.
  intros Hlist Hok Hjobs Hin Hname.
  assert (Hfind : exists j, findMedicCronJob env s = (Ok (Some j), log_gateway ListCronJobs s)).
  { unfold findMedicCronJob, await, listCronJobs, resolve. rewrite Hlist, Hok, Hjobs. simpl.
    destruct (find _ jobs) as [j|] eqn:Hf; [by exists j|].
    apply list_elem_of_In in Hin.
    pose proof (find_none _ _ Hf _ Hin) as Hno. simpl in Hno.
    rewrite Hname in Hno. by rewrite String.eqb_refl in Hno. }
  destruct Hfind as [j Hfind].
  unfold installMedicCron, isMedicCronInstalled, await. by rewrite Hfind.
Qed.

(** X22: provisioning the agent is best effort.  When no medic job is found,
    [installMedicCron] makes exactly one further gateway call, the creation
    of the [antfarm/medic] job, and its outcome is that call's outcome,
    whatever happens to the configuration file on the way (unreadable,
    unwritable, or already holding the agent). *)
Theorem installMedicCron_config_independent (s s1 : State) :
  findMedicCronJob env s = (Ok None, s1) ->
  exists s2,
    installMedicCron env s
    = (createAgentCronJob_answer env (S (length (gateway_calls s))) (medicCronRequest env), s2) /\
    gateway_calls s2
    = (gateway_calls s ++ [ListCronJobs; CreateAgentCronJob (medicCronRequest env)])%list /\
    req_name (medicCronRequest env) = "antfarm/medic" /\
    req_agentId (medicCronRequest env) = "antfarm-medic" /\
    req_everyMs (medicCronRequest env) = 600000%Z.
Proof.
  intros Hfind. pose proof (findMedicCronJob_state _ _ _ Hfind) as ->.
  destruct (ensureMedicAgent_total (log_gateway ListCronJobs s)) as (s' & rest & He & Hg & _).
  unfold installMedicCron, await at 1. rewrite Hfind.
  unfold await at 1. rewrite He.
  unfold await, createAgentCronJob, resolve. rewrite Hg. simpl.
  rewrite length_app. simpl. replace (length (gateway_calls s) + 1) with (S (length (gateway_calls s))) by lia.
  destruct (createAgentCronJob_answer env _ _);
    eexists; (split; [reflexivity|]); simpl; rewrite Hg; simpl; by rewrite <- app_assoc.
Qed.

(** X23: [ensureMedicAgent] never throws, never touches the gateway, and
    never adds a second medic.  It reads the configuration once; only if
    that succeeds and no agent has the id [antfarm-medic] does it ask for one
    write, of a configuration whose agent list is the old one followed by the
    medic (so it holds exactly one medic) and whose other fields are
    unchanged. *)
Theorem ensureMedicAgent_adds_once (s : State) :
  exists s',
    ensureMedicAgent env s = (Ok tt, s') /\
    gateway_calls s' = gateway_calls s /\
    match readOpenClawConfig_answer env (length (config_calls s)) with
    | Ok (path, config) =>
        if existsb is_medic (agents_of config)
        then config_calls s' = (config_calls s ++ [ReadConfig])%list
        else exists config',
               config_calls s' = (config_calls s ++ [ReadConfig; WriteConfig path config'])%list /\
               agents_of config' = (agents_of config ++ [medicAgent])%list /\
               length (List.filter is_medic (agents_of config')) = 1 /\
               config_other config' = config_other config
    | Throw _ => config_calls s' = (config_calls s ++ [ReadConfig])%list
    end.
Proof.
  unfold ensureMedicAgent, try_catch_all, await, readOpenClawConfig, resolve.
  destruct (readOpenClawConfig_answer env _) as [[path config]|e]; [|by eexists].
  destruct (existsb is_medic (agents_of config)) eqn:Hm; [by eexists|].
  unfold writeOpenClawConfig.
  assert (Hone : length (List.filter is_medic (agents_of (push_medic config))) = 1).
  { rewrite agents_of_push_medic, List.filter_app, length_app.
    replace (List.filter is_medic (agents_of config)) with (@nil Agent); [done|].
    symmetry. clear -Hm. induction (agents_of config) as [|a l IH]; simpl in *; [done|].
    apply orb_false_iff in Hm as [-> Hm]. by apply IH. }
  destruct (writeOpenClawConfig_answer env _ _ _) as [[]|e];
    eexists; (split; [reflexivity|]); (split; [done|]);
    exists (push_medic config); simpl; rewrite <- app_assoc;
    (split; [done|]); (split; [apply agents_of_push_medic|]); done.
Qed.

(** X24: [removeMedicAgent] never throws and removes one entry at most: when
    the configuration it reads lists an agent with the id [antfarm-medic],
    it asks for one write, of the configuration without the first such agent
    (later ones, and every other agent and field, stay); otherwise it writes
    nothing. *)
Theorem removeMedicAgent_removes_first (s : State) :
  exists s',
    removeMedicAgent env s = (Ok tt, s') /\
    gateway_calls s' = gateway_calls s /\
    match readOpenClawConfig_answer env (length (config_calls s)) with
    | Ok (path, config) =>
        if existsb is_medic (agents_of config)
        then exists config' before a after,
               config_calls s' = (config_calls s ++ [ReadConfig; WriteConfig path config'])%list /\
               agents_of config = (before ++ a :: after)%list /\
               is_medic a = true /\ existsb is_medic before = false /\
               agents_of config' = (before ++ after)%list /\
               config_other config' = config_other config
        else config_calls s' = (config_calls s ++ [ReadConfig])%list
    | Throw _ => config_calls s' = (config_calls s ++ [ReadConfig])%list
    end.
Proof.
  unfold removeMedicAgent, try_catch_all, await, readOpenClawConfig, resolve.
  destruct (readOpenClawConfig_answer env _) as [[path config]|e]; [|by eexists].
  destruct (findIndex is_medic (agents_of config)) as [idx|] eqn:Hidx.
  - destruct (findIndex_Some _ _ _ Hidx) as (before & a & after & Hl & Hlen & Ha & Hb & Hd).
    assert (Hex : existsb is_medic (agents_of config) = true).
    { rewrite Hl, existsb_app. simpl. rewrite Ha. by rewrite orb_true_r. }
    assert (Hlt : idx < length (agents_of config)).
    { rewrite Hl, length_app. simpl. lia. }
    destruct (agents_of_splice idx config Hlt) as [Hs Ho].
    rewrite Hex. unfold writeOpenClawConfig.
    destruct (writeOpenClawConfig_answer env _ _ _) as [[]|e];
      eexists; (split; [reflexivity|]); (split; [done|]);
      exists (splice_agents idx config), before, a, after; simpl; rewrite <- app_assoc;
      repeat split; try done; by rewrite Hs.
  - apply findIndex_None in Hidx. rewrite Hidx. by eexists.
Qed.

(** X25: provisioning and removal undo each other on the agent list.  If
    the configuration read first has no medic, and the file then holds what
    [ensureMedicAgent] wrote, [removeMedicAgent] writes back a configuration
    with the original agent list and the original other fields. *)
Theorem ensure_then_remove_restores_agents (s : State) (path : string) (config : Config) :
  readOpenClawConfig_answer env (length (config_calls s)) = Ok (path, config) ->
  existsb is_medic (agents_of config) = false ->
  readOpenClawConfig_answer env (S (S (length (config_calls s)))) = Ok (path, push_medic config) ->
  exists s1 s2 config',
    ensureMedicAgent env s = (Ok tt, s1) /\
    removeMedicAgent env s1 = (Ok tt, s2) /\
    config_calls s2
    = (config_calls s ++ [ReadConfig; WriteConfig path (push_medic config);
                          ReadConfig; WriteConfig path config'])%list /\
    agents_of config' = agents_of config /\
    config_other config' = config_other config.
Proof.
  intros Hread Hno Hread2.
  assert (Hidx : findIndex is_medic (agents_of (push_medic config))
                 = Some (length (agents_of config))).
  { rewrite agents_of_push_medic. by apply findIndex_snoc. }
  assert (Hlt : length (agents_of config) < length (agents_of (push_medic config))).
  { rewrite agents_of_push_medic, length_app. simpl. lia. }
  destruct (agents_of_splice _ _ Hlt) as [Hs Ho].
  assert (He : exists s1, ensureMedicAgent env s = (Ok tt, s1) /\
                 gateway_calls s1 = gateway_calls s /\
                 config_calls s1
                 = (config_calls s ++ [ReadConfig; WriteConfig path (push_medic config)])%list).
  { unfold ensureMedicAgent, try_catch_all, await, readOpenClawConfig, resolve.
    rewrite Hread, Hno. unfold writeOpenClawConfig.
    destruct (writeOpenClawConfig_answer env _ _ _) as [[]|e];
      eexists; (split; [reflexivity|]); simpl; by rewrite <- app_assoc. }
  destruct He as (s1 & He & _ & Hc1).
  exists s1. rewrite He.
  unfold removeMedicAgent, try_catch_all, await, readOpenClawConfig, resolve.
  rewrite Hc1, length_app. simpl.
  replace (length (config_calls s) + 2) with (S (S (length (config_calls s)))) by lia.
  rewrite Hread2, Hidx. unfold writeOpenClawConfig.
  destruct (writeOpenClawConfig_answer env _ _ _) as [[]|e];
    eexists _, (splice_agents (length (agents_of config)) (push_medic config));
    (split; [reflexivity|]); (split; [reflexivity|]); simpl; rewrite Hc1;
    rewrite <- !app_assoc; (split; [done|]);
    (split; [|exact Ho]); rewrite <- (delete_snoc (agents_of config) medicAgent) at 2;
    rewrite <- agents_of_push_medic; exact Hs.
Qed.

(** X26: a refused deletion keeps the agent.  When the medic job is found
    and [deleteCronJob] answers with [ok] false, [uninstallMedicCron]
    returns that answer and leaves the configuration file alone. *)
Theorem uninstallMedicCron_failed_delete (s s1 : State) (job : CronJob)
    (result : GatewayResult) :
  findMedicCronJob env s = (Ok (Some job), s1) ->
  deleteCronJob_answer env (S (length (gateway_calls s))) (job_id job) = Ok result ->
  gr_ok result = false ->
  uninstallMedicCron env s
  = (Ok result, log_gateway (DeleteCronJob (job_id job)) (log_gateway ListCronJobs s)).
Proof.
  intros Hfind Hdel Hok. pose proof (findMedicCronJob_state _ _ _ Hfind) as ->.
  unfold uninstallMedicCron, await at 1. rewrite Hfind.
  unfold await, deleteCronJob, resolve. simpl. rewrite length_app. simpl.
  replace (length (gateway_calls s) + 1) with (S (length (gateway_calls s))) by lia.
  by rewrite Hdel, Hok.
Qed.

(** X27: with no medic job to be found (none listed, or a listing that
    answered [ok] false or carried no jobs), [uninstallMedicCron] deletes
    nothing on the gateway, still attempts to remove the agent from the
    configuration, and returns [{ ok: true }]. *)
Theorem uninstallMedicCron_without_job (s s1 : State) :
  findMedicCronJob env s = (Ok None, s1) ->
  exists s2 rest,
    uninstallMedicCron env s = (Ok ok_true, s2) /\
    gateway_calls s2 = (gateway_calls s ++ [ListCronJobs])%list /\
    config_calls s2 = (config_calls s ++ ReadConfig :: rest)%list.
Proof.
  intros Hfind. pose proof (findMedicCronJob_state _ _ _ Hfind) as ->.
  destruct (removeMedicAgent_total (log_gateway ListCronJobs s)) as (s' & rest & Hr & Hg & Hc).
  exists s', rest. unfold uninstallMedicCron, await at 1. rewrite Hfind.
  unfold await, resolve. rewrite Hr. by repeat split.
Qed.

End MedicProperties.

(** ** The medic functions on concrete inputs *)

Lemma installMedicCron_already_installed_witness :
  Medic.installMedicCron (Medic.demo_env [Medic.medic_job] true Medic.demo_config) Medic.init
  = (Ok Medic.ok_true, Medic.log_gateway Medic.ListCronJobs Medic.init) /\
  Medic.isMedicCronInstalled (Medic.demo_env [Medic.medic_job] true Medic.demo_config) Medic.init
  = (Ok true, Medic.log_gateway Medic.ListCronJobs Medic.init).
Proof.
  apply (installMedicCron_already_installed
           (Medic.demo_env [Medic.medic_job] true Medic.demo_config) Medic.init
           (Medic.mkListResult true (Some [Medic.medic_job])) [Medic.medic_job] Medic.medic_job).
  - reflexivity.
  - reflexivity.
  - reflexivity.
  - apply list_elem_of_here.
  - reflexivity.
Defined.

Lemma installMedicCron_config_independent_witness :
  let env := Medic.demo_env [] true Medic.demo_config in
  exists s2,
    Medic.installMedicCron env Medic.init
    = (Medic.createAgentCronJob_answer env 1 (Medic.medicCronRequest env), s2) /\
    Medic.gateway_calls s2
    = [Medic.ListCronJobs; Medic.CreateAgentCronJob (Medic.medicCronRequest env)] /\
    Medic.req_name (Medic.medicCronRequest env) = "antfarm/medic" /\
    Medic.req_agentId (Medic.medicCronRequest env) = "antfarm-medic" /\
    Medic.req_everyMs (Medic.medicCronRequest env) = 600000%Z.
Proof.
  apply (installMedicCron_config_independent (Medic.demo_env [] true Medic.demo_config)
           Medic.init (Medic.log_gateway Medic.ListCronJobs Medic.init)).
  reflexivity.
Defined.

Lemma ensure_then_remove_restores_agents_witness :
  let env := Medic.file_env Medic.bare_config (Medic.push_medic Medic.bare_config) in
  exists s1 s2 config',
    Medic.ensureMedicAgent env Medic.init = (Ok tt, s1) /\
    Medic.removeMedicAgent env s1 = (Ok tt, s2) /\
    Medic.config_calls s2
    = [Medic.ReadConfig;
       Medic.WriteConfig "/home/u/.openclaw/openclaw.json" (Medic.push_medic Medic.bare_config);
       Medic.ReadConfig;
       Medic.WriteConfig "/home/u/.openclaw/openclaw.json" config'] /\
    Medic.agents_of config' = Medic.agents_of Medic.bare_config /\
    Medic.config_other config' = Medic.config_other Medic.bare_config.
Proof.
  apply (ensure_then_remove_restores_agents
           (Medic.file_env Medic.bare_config (Medic.push_medic Medic.bare_config))
           Medic.init "/home/u/.openclaw/openclaw.json" Medic.bare_config).
  - reflexivity.
  - reflexivity.
  - reflexivity.
Defined.

Lemma uninstallMedicCron_failed_delete_witness :
  Medic.uninstallMedicCron (Medic.demo_env [Medic.medic_job] false Medic.demo_config) Medic.init
  = (Ok (Medic.mkGatewayResult false (Some "not found") None),
     Medic.log_gateway (Medic.DeleteCronJob "job-1")
       (Medic.log_gateway Medic.ListCronJobs Medic.init)).
Proof.
  apply (uninstallMedicCron_failed_delete
           (Medic.demo_env [Medic.medic_job] false Medic.demo_config) Medic.init
           (Medic.log_gateway Medic.ListCronJobs Medic.init) Medic.medic_job
           (Medic.mkGatewayResult false (Some "not found") None)).
  - reflexivity.
  - reflexivity.
  - reflexivity.
Defined.

Lemma uninstallMedicCron_without_job_witness :
  let env := Medic.demo_env [Medic.mkCronJob "job-2" "antfarm/feature-dev"] true
                            Medic.demo_config in
  exists s2 rest,
    Medic.uninstallMedicCron env Medic.init = (Ok Medic.ok_true, s2) /\
    Medic.gateway_calls s2 = [Medic.ListCronJobs] /\
    Medic.config_calls s2 = Medic.ReadConfig :: rest.
Proof.
  apply (uninstallMedicCron_without_job
           (Medic.demo_env [Medic.mkCronJob "job-2" "antfarm/feature-dev"] true
                           Medic.demo_config)
           Medic.init (Medic.log_gateway Medic.ListCronJobs Medic.init)).
  reflexivity.
Defined.

(** Provisioning leaves an [agents] section behind where there was none:
    after removal the list is empty again, the section stays. *)
Example ensure_then_remove_leaves_section :
  Medic.splice_agents 0 (Medic.push_medic Medic.bare_config)
  = Medic.mkConfig (Some (Medic.mkAgentsConfig (Some []) [])) [("gateway", "local")].
Proof. reflexivity. Qed.

(** With two medics listed, removal leaves the second. *)
Example removeMedicAgent_leaves_duplicate :
  let twice := Medic.push_medic (Medic.push_medic Medic.bare_config) in
  Medic.config_calls
    (Medic.removeMedicAgent (Medic.demo_env [] true twice) Medic.init).2
  = [Medic.ReadConfig;
     Medic.WriteConfig "/home/u/.openclaw/openclaw.json" (Medic.push_medic Medic.bare_config)].
Proof. reflexivity. Qed.
